(** * Batch spawner: job lifecycle controller of the remote SLURM spawner

    A shallow embedding of [remote_slurm_spawner/remote_slurm_spawner.py] and
    [batchspawner/remote_slurm.py]:

    - [PyStr]: the [str] methods the spawner calls on command output
      ([splitlines], [strip], [replace], [split], [int]);
    - Python values, truthiness and exceptions;
    - the external world (subprocesses, ssh sessions, the template engines,
      the regular expression engine, name resolution) as oracles;
    - a state-and-error monad in which the methods of [BatchSpawnerBase],
      [BatchSpawnerRegexStates] and [RemoteSlurmSpawner] are written the way
      the Python reads;
    - the properties of the specification, proved over that embedding.

    Texts are [string]s whose characters stand for code points below 256. *)

From Stdlib Require Import ZArith QArith String Ascii List Bool Lia.
From stdpp Require Import base strings gmap pretty.
Import ListNotations.

#[local] Open Scope string_scope.
#[local] Open Scope Z_scope.

(* ===================================================================== *)
(** ** Python [str] methods used by the spawner *)
(* ===================================================================== *)

Module PyStr.

Definition LF : ascii := "010"%char.
Definition CR : ascii := "013"%char.
Definition nl : string := String LF EmptyString.

Definition is_empty (s : string) : bool :=
  match s with EmptyString => true | String _ _ => false end.

(** [c in chars] for a one-character [c]. *)
Fixpoint mem (c : ascii) (chars : string) : bool :=
  match chars with
  | EmptyString => false
  | String d rest => if Ascii.eqb c d then true else mem c rest
  end.

(** Line boundaries of [str.splitlines] among the code points below 256:
    LF, CR, VT, FF, FS, GS, RS and NEL; CR LF counts as one boundary. *)
Definition is_linebreak (c : ascii) : bool :=
  let n := nat_of_ascii c in
  (Nat.eqb n 10 || Nat.eqb n 13 || Nat.eqb n 11 || Nat.eqb n 12
   || Nat.eqb n 28 || Nat.eqb n 29 || Nat.eqb n 30 || Nat.eqb n 133)%bool.

(** [cur] is the line being read.  A boundary always closes the current
    line; the end of the text closes it only when it is not empty. *)
Fixpoint splitlines_from (cur s : string) : list string :=
  match s with
  | EmptyString => if is_empty cur then [] else [cur]
  | String c rest =>
      if is_linebreak c then
        match rest with
        | String d rest' =>
            if (Ascii.eqb c CR && Ascii.eqb d LF)%bool
            then cur :: splitlines_from EmptyString rest'
            else cur :: splitlines_from EmptyString rest
        | EmptyString => cur :: splitlines_from EmptyString rest
        end
      else splitlines_from (cur +:+ String c EmptyString) rest
  end.

Definition splitlines (s : string) : list string :=
  splitlines_from EmptyString s.

(** [s.lstrip(chars)], [s.rstrip(chars)], [s.strip(chars)]. *)
Fixpoint lstrip (chars s : string) : string :=
  match s with
  | EmptyString => EmptyString
  | String c rest => if mem c chars then lstrip chars rest else s
  end.

Fixpoint rstrip (chars s : string) : string :=
  match s with
  | EmptyString => EmptyString
  | String c rest =>
      match rstrip chars rest with
      | EmptyString => if mem c chars then EmptyString else String c EmptyString
      | kept => String c kept
      end
  end.

Definition strip (chars s : string) : string := rstrip chars (lstrip chars s).

(** Whitespace of [str.strip()] and of [int(str)] below code point 256. *)
Definition is_space (c : ascii) : bool :=
  let n := nat_of_ascii c in
  ((Nat.leb 9 n && Nat.leb n 13) || (Nat.leb 28 n && Nat.leb n 32)
   || Nat.eqb n 133 || Nat.eqb n 160)%bool.

Fixpoint lstrip_ws (s : string) : string :=
  match s with
  | EmptyString => EmptyString
  | String c rest => if is_space c then lstrip_ws rest else s
  end.

Fixpoint rstrip_ws (s : string) : string :=
  match s with
  | EmptyString => EmptyString
  | String c rest =>
      match rstrip_ws rest with
      | EmptyString => if is_space c then EmptyString else String c EmptyString
      | kept => String c kept
      end
  end.

Definition strip_ws (s : string) : string := rstrip_ws (lstrip_ws s).

(** [old] is a prefix of [s]. *)
Fixpoint starts_with (old s : string) : bool :=
  match old, s with
  | EmptyString, _ => true
  | String a old', String b s' => if Ascii.eqb a b then starts_with old' s' else false
  | String _ _, EmptyString => false
  end.

(** [sub in s]. *)
Fixpoint contains (sub s : string) : bool :=
  if starts_with sub s then true
  else match s with
       | EmptyString => false
       | String _ rest => contains sub rest
       end.

(** [s.replace(old, new)] for a non-empty [old]: occurrences are replaced
    left to right without overlap.  [skip] counts the characters of an
    occurrence that are still to be dropped. *)
Fixpoint replace_from (skip : nat) (old new s : string) : string :=
  match s with
  | EmptyString => EmptyString
  | String c rest =>
      match skip with
      | S k => replace_from k old new rest
      | O =>
          if starts_with old s
          then new +:+ replace_from (String.length old - 1) old new rest
          else String c (replace_from O old new rest)
      end
  end.

Definition replace (old new s : string) : string := replace_from O old new s.

(** [s.split(sep)[0]] for a non-empty [sep]: the text before the first
    occurrence of [sep], the whole text when there is none. *)
Fixpoint split_head (sep s : string) : string :=
  match s with
  | EmptyString => EmptyString
  | String c rest =>
      if starts_with sep s then EmptyString else String c (split_head sep rest)
  end.

(** [sep.join(parts)]. *)
Fixpoint join (sep : string) (parts : list string) : string :=
  match parts with
  | [] => EmptyString
  | [p] => p
  | p :: rest => p +:+ sep +:+ join sep rest
  end.

Definition is_digit (c : ascii) : bool :=
  let n := nat_of_ascii c in (Nat.leb 48 n && Nat.leb n 57)%bool.

Definition is_underscore (c : ascii) : bool := Ascii.eqb c "_"%char.

(** Digits of a decimal literal: groups of digits separated by single
    underscores.  [after_digit] tells that the previous character was a
    digit, so that an underscore or the end may follow. *)
Fixpoint digits_ok (after_digit : bool) (s : string) : bool :=
  match s with
  | EmptyString => after_digit
  | String c rest =>
      if is_digit c then digits_ok true rest
      else if is_underscore c then (after_digit && digits_ok false rest)%bool
      else false
  end.

Definition drop_sign (s : string) : string :=
  match s with
  | String c rest =>
      if (Ascii.eqb c "+"%char || Ascii.eqb c "-"%char)%bool then rest else s
  | EmptyString => s
  end.

(** Whitespace that [int(str)] skips around the literal, below code point
    256: the ASCII whitespace of C (tab to carriage return, and the blank)
    and, of the characters from 128 on, those of [str.isspace] (NEL and the
    no-break space).  The separators U+001C to U+001F are whitespace for
    [str.strip] and not for [int]. *)
Definition is_int_space (c : ascii) : bool :=
  let n := nat_of_ascii c in
  ((Nat.leb 9 n && Nat.leb n 13) || Nat.eqb n 32 || Nat.eqb n 133 || Nat.eqb n 160)%bool.

Fixpoint lstrip_int (s : string) : string :=
  match s with
  | EmptyString => EmptyString
  | String c rest => if is_int_space c then lstrip_int rest else s
  end.

Fixpoint rstrip_int (s : string) : string :=
  match s with
  | EmptyString => EmptyString
  | String c rest =>
      match rstrip_int rest with
      | EmptyString => if is_int_space c then EmptyString else String c EmptyString
      | kept => String c kept
      end
  end.

(** What [int] reads as the literal: the text without the whitespace around
    it and without the sign. *)
Definition int_literal (s : string) : string := drop_sign (rstrip_int (lstrip_int s)).

(** The digits of a literal, underscores apart. *)
Fixpoint count_digits (s : string) : N :=
  match s with
  | EmptyString => 0%N
  | String c rest => if is_digit c then N.succ (count_digits rest) else count_digits rest
  end.

(** [sys.get_int_max_str_digits()], as Python 3.11 sets it. *)
Definition int_max_str_digits : N := 4300%N.

(** The text is a decimal literal for [int]. *)
Definition literal_ok (s : string) : bool := digits_ok false (int_literal s).

(** [int(s)] succeeds: surrounding whitespace, an optional sign, then a
    decimal literal of at most [int_max_str_digits] digits.  Otherwise
    [int] raises [ValueError]. *)
Definition int_accepts (s : string) : bool :=
  (literal_ok s && (count_digits (int_literal s) <=? int_max_str_digits)%N)%bool.

End PyStr.

(* ===================================================================== *)
(** ** Python values, exceptions, results *)
(* ===================================================================== *)

(** A match object of [re]: the matched text and [match.groups()], where a
    group that did not take part in the match is [None]. *)
Record Match := { m_text : string; m_groups : list (option string) }.

Inductive pyval :=
| PyNone
| PyBool (b : bool)
| PyStr (s : string)
| PyMatch (m : Match).

(** Truth value of a Python object, as tested by [if], [and], [not]. *)
Definition truthy (v : pyval) : bool :=
  match v with
  | PyNone => false
  | PyBool b => b
  | PyStr s => negb (PyStr.is_empty s)
  | PyMatch _ => true
  end.

Inductive exn :=
| RuntimeError (msg : string)
| AssertionError (msg : string)
| NotImplementedError (msg : string)
| TypeError (msg : string)
| ValueError (msg : string)
| IndexError (msg : string)
| KeyError (key : string)
| TraitError (msg : string)
| ExternalError (name : string).
(** [ExternalError] stands for any exception of the outside world that is
    not one of the classes above (OSError, TimeoutExpired, ssh failures). *)

(** Outcome of a call: a value, an exception, or a loop that has not
    finished within the fuel it was given. *)
Inductive Res (A : Type) :=
| Ok (a : A)
| Raise (e : exn)
| Diverge.
Arguments Ok {A} a.
Arguments Raise {A} e.
Arguments Diverge {A}.

Inductive JobStatus := NOTFOUND | RUNNING | PENDING | UNKNOWN.

(* ===================================================================== *)
(** ** Configuration, the outside world, the spawner's state *)
(* ===================================================================== *)

(** The traits of the spawner that are fixed during a job's life.  [req]
    holds the [req_xyz] traits under the key [xyz]; [hub_env] is what
    [Spawner.get_env] of the hub returns; [pw_dir] and [pw_shell] are the
    [pwd] entry of the user. *)
Record Config := {
  exec_prefix : string;
  batch_script : string;
  batchspawner_singleuser_cmd : string;
  batch_submit_cmd : string;
  batch_query_cmd : string;
  batch_cancel_cmd : string;
  state_pending_re : string;
  state_running_re : string;
  state_exechost_re : string;
  state_exechost_exp : string;
  state_unknown_re : string;
  startup_poll_interval : Q;
  req : gmap string string;
  cmd : list string;
  args : list string;
  user_options : option (gmap string string);
  user_name : string;
  pw_dir : string;
  pw_shell : string;
  hub_env : list (string * string);
  ip_default : string;
  port_default : Z;
  mock_port : option Z;
  hub_version : nat * nat;
  has_server : bool
}.

(** What the process started by [asyncio.create_subprocess_shell] does:
    [communicate] returns the decoded output, error output and exit code,
    or it raises and the clean-up after [proc.kill()] ends in one of three
    ways, or the process cannot be created at all. *)
Inductive Cleanup :=
| CleanExit (out eout : string) (returncode : Z)
| CleanTimeout
| CleanError (e : exn).

Inductive ProcOutcome :=
| ProcExit (out eout : string) (returncode : Z)
| ProcFail (c : Cleanup)
| ProcSpawnError (e : exn).

(** What an ssh session of [paramiko] does for one command: it fails at
    [connect] or later, or yields [str(ssh_stdout.read())] (for [submit]) or
    [str(ssh_stdout.readlines())] (for [query]), and the text of stderr. *)
Inductive SshOutcome :=
| SshOutput (out_repr err_repr : string)
| SshConnectError (e : exn)
| SshExecError (e : exn).

(** The outside world.  The oracles that stand for actions take the number
    of interactions so far, so that a scripted executor is a function of
    that number. *)
Record World := {
  proc : nat -> string -> option string -> ProcOutcome;
  ssh : nat -> string -> SshOutcome;
  popen : nat -> string -> option exn;
  hub_port : nat -> option Z;
  db_commit : nat -> option exn;
  gethostbyname : string -> Res string;
  re_search : string -> string -> Res (option Match);
  match_expand : Match -> string -> Res string;
  str_format : string -> gmap string string -> Res string;
  jinja_render : string -> gmap string string -> Res string
}.

Inductive level := DEBUG | INFO | WARNING | ERROR.

Inductive event :=
| EvLog (l : level) (msg : string)
| EvLogEnv (l : level) (env : list (string * string))
| EvRun (cmd : string) (input : option string)
| EvSsh (cmd : string)
| EvPopen (cmd : string)
| EvSleep (seconds : Q)
| EvServerPort (p : Z)
| EvUserServer (ip : string) (p : Z)
| EvCommit.

(** The mutable part: the spawner's [job_id], [job_status], [ip], [port],
    the count of interactions with the world and the events so far, oldest
    first. *)
Record St := {
  job_id : string;
  job_status : string;
  ip : string;
  port : Z;
  tick : nat;
  trace : list event
}.

Definition set_job_id (v : string) (s : St) : St :=
  {| job_id := v; job_status := job_status s; ip := ip s; port := port s;
     tick := tick s; trace := trace s |}.
Definition set_job_status (v : string) (s : St) : St :=
  {| job_id := job_id s; job_status := v; ip := ip s; port := port s;
     tick := tick s; trace := trace s |}.
Definition set_ip (v : string) (s : St) : St :=
  {| job_id := job_id s; job_status := job_status s; ip := v; port := port s;
     tick := tick s; trace := trace s |}.
Definition set_port (v : Z) (s : St) : St :=
  {| job_id := job_id s; job_status := job_status s; ip := ip s; port := v;
     tick := tick s; trace := trace s |}.
Definition set_tick (v : nat) (s : St) : St :=
  {| job_id := job_id s; job_status := job_status s; ip := ip s; port := port s;
     tick := v; trace := trace s |}.
Definition emit (e : event) (s : St) : St :=
  {| job_id := job_id s; job_status := job_status s; ip := ip s; port := port s;
     tick := tick s; trace := trace s ++ [e] |}.

Record Ctx := { cfg : Config; world : World }.

(* ===================================================================== *)
(** ** The monad of spawner methods *)
(* ===================================================================== *)

Definition M (A : Type) : Type := Ctx -> St -> Res A * St.

#[export] Instance M_ret : MRet M := fun A a _ s => (Ok a, s).

#[export] Instance M_bind : MBind M := fun A B f c ctx s =>
  match c ctx s with
  | (Ok a, s') => f a ctx s'
  | (Raise e, s') => (Raise e, s')
  | (Diverge, s') => (Diverge, s')
  end.

Definition raise {A} (e : exn) : M A := fun _ s => (Raise e, s).
Definition diverge {A} : M A := fun _ s => (Diverge, s).
Definition lift {A} (r : Res A) : M A := fun _ s => (r, s).
Definition ask : M Ctx := fun ctx s => (Ok ctx, s).
Definition get : M St := fun _ s => (Ok s, s).
Definition modify (f : St -> St) : M unit := fun _ s => (Ok tt, f s).

(** [try: c  except: h] — every exception is handed to [h]. *)
Definition try_except {A} (c : M A) (h : exn -> M A) : M A := fun ctx s =>
  match c ctx s with
  | (Raise e, s') => h e ctx s'
  | other => other
  end.

Definition log (l : level) (msg : string) : M unit := modify (emit (EvLog l msg)).

(** A suspension point of the coroutine.  While the spawner is suspended the
    hub may record the port that the single-user server reported. *)
Definition suspend : M unit := fun ctx s =>
  let s1 := match hub_port (world ctx) (tick s) with
            | Some p => set_port p s
            | None => s
            end in
  (Ok tt, set_tick (S (tick s)) s1).

(** [await gen.sleep(d)]. *)
Definition sleep (d : Q) : M unit :=
  modify (emit (EvSleep d));; suspend.

(** [str(n)] and [%s] of an integer. *)
Definition str_of_int (n : Z) : string := pretty n.

(* ===================================================================== *)
(** ** Methods that subclasses override *)
(* ===================================================================== *)

Module self.

(** The methods that read [self.job_status] or the submit output and call
    no other overridable method. *)
Class LeafMethods := {
  state_ispending : M pyval;
  state_isrunning : M pyval;
  state_isunknown : M pyval;
  state_gethost : M pyval;
  parse_job_id : string -> M string
}.

(** A spawner class: its leaf methods and the two methods through which
    [start], [stop] and [poll] talk to the resource manager. *)
Class Spawner := {
  leaf :: LeafMethods;
  query_job_status : M JobStatus;
  submit_batch_script : M pyval
}.

End self.

#[export] Existing Instance self.leaf.

(** [format_template]: jinja2 when the template contains a jinja2 marker,
    [str.format] otherwise.  Both engines are external. *)
Definition format_template (template : string) (vars : gmap string string) : M string :=
  ctx ← ask;
  if (PyStr.contains "{{" template || PyStr.contains "{%" template)%bool
  then lift (jinja_render (world ctx) template vars)
  else lift (str_format (world ctx) template vars).

(** [isinstance(e, RuntimeError)], giving [e.args[0]]. *)
Definition as_RuntimeError (e : exn) : option string :=
  match e with
  | RuntimeError msg => Some msg
  | NotImplementedError msg => Some msg
  | _ => None
  end.

Module BatchSpawnerBase.

(** [self.ip = v] and [self.job_id = v]: a [Unicode] trait takes a text
    and nothing else. *)
Definition assign_ip (v : pyval) : M unit :=
  match v with
  | PyStr s => modify (set_ip s)
  | _ => raise (TraitError "The 'ip' trait expected a unicode string")
  end.

Definition get_req_subvars : M (gmap string string) :=
  ctx ← ask;
  let subvars := req (cfg ctx) in
  match subvars !! "keepvars_extra" with
  | Some extra =>
      if PyStr.is_empty extra then mret subvars
      else match subvars !! "keepvars" with
           | Some keep => mret (<["keepvars" := keep +:+ "," +:+ extra]> subvars)
           | None => raise (KeyError "keepvars")
           end
  | None => mret subvars
  end.

Definition cmd_formatted_for_batch : M string :=
  ctx ← ask;
  mret (PyStr.join " "
          ([batchspawner_singleuser_cmd (cfg ctx)] ++ cmd (cfg ctx) ++ args (cfg ctx))).

(** [if input: inbytes = input.encode()]: an empty text is not sent. *)
Definition inbytes (input : option string) : option string :=
  match input with
  | Some s => if PyStr.is_empty s then None else Some s
  | None => None
  end.

Definition run_command (line : string) (input : option string) : M string :=
  ctx ← ask;
  s ← get;
  modify (emit (EvRun line (inbytes input)));;
  suspend;;
  match proc (world ctx) (tick s) line (inbytes input) with
  | ProcSpawnError e => raise e
  | ProcFail c =>
      log DEBUG ("Exception raised when trying to run command: " +:+ line);;
      log DEBUG "Running command failed, killed process.";;
      match c with
      | CleanExit out eout rc =>
          let out := PyStr.strip_ws out in
          let eout := PyStr.strip_ws eout in
          log ERROR ("Subprocess returned exitcode " +:+ str_of_int rc);;
          log ERROR "Stdout:";;
          log ERROR out;;
          log ERROR "Stderr:";;
          log ERROR eout;;
          log ERROR ("Encountered exception trying to clean up command: " +:+ line);;
          raise (RuntimeError
                   (line +:+ " exit status " +:+ str_of_int rc +:+ ": " +:+ eout))
      | CleanTimeout =>
          log ERROR ("Encountered timeout trying to clean up command, process probably killed already: " +:+ line);;
          mret EmptyString
      | CleanError e =>
          log ERROR ("Encountered exception trying to clean up command: " +:+ line);;
          raise e
      end
  | ProcExit out eout rc =>
      let eout := PyStr.strip_ws eout in
      if negb (rc =? 0) then
        log ERROR ("Subprocess returned exitcode " +:+ str_of_int rc);;
        log ERROR eout;;
        raise (RuntimeError eout)
      else mret (PyStr.strip_ws out)
  end.

Definition _get_batch_script (subvars : gmap string string) : M string :=
  ctx ← ask;
  format_template (batch_script (cfg ctx)) subvars.

(** [" ".join((format_template(self.exec_prefix, **subvars),
               format_template(template, **subvars)))] *)
Definition prefixed_cmd (template : string) (subvars : gmap string string) : M string :=
  ctx ← ask;
  a ← format_template (exec_prefix (cfg ctx)) subvars;
  b ← format_template template subvars;
  mret (PyStr.join " " [a; b]).

(** [subvars.update(self.user_options)] when the attribute exists. *)
Definition with_user_options (c : Config) (subvars : gmap string string)
  : gmap string string :=
  match user_options c with
  | Some opts => opts ∪ subvars
  | None => subvars
  end.

Section Leaf.
Context `{self.LeafMethods}.

Definition submit_batch_script : M pyval :=
  ctx ← ask;
  subvars ← get_req_subvars;
  line ← prefixed_cmd (batch_submit_cmd (cfg ctx)) subvars;
  inner ← cmd_formatted_for_batch;
  let subvars := with_user_options (cfg ctx) (<["cmd" := inner]> subvars) in
  script ← _get_batch_script subvars;
  log INFO ("Spawner submitting job using " +:+ line);;
  log INFO ("Spawner submitted script:" +:+ PyStr.nl +:+ script);;
  out ← run_command line (Some script);
  try_except
    (log INFO ("Job submitted. cmd: " +:+ line +:+ " output: " +:+ out);;
     id ← self.parse_job_id out;
     modify (set_job_id id))
    (fun _ =>
       log ERROR ("Job submission failed with exit code " +:+ out);;
       modify (set_job_id EmptyString));;
  mret PyNone.

(** The [if]/[elif] chain that ends [query_job_status]. *)
Definition classify : M JobStatus :=
  r ← self.state_isrunning;
  if truthy r then mret RUNNING
  else
    p ← self.state_ispending;
    if truthy p then mret PENDING
    else
      u ← self.state_isunknown;
      if truthy u then mret UNKNOWN
      else mret NOTFOUND.

Definition query_job_status : M JobStatus :=
  s ← get;
  if PyStr.is_empty (job_id s) then
    modify (set_job_status EmptyString);;
    mret NOTFOUND
  else
    ctx ← ask;
    subvars ← get_req_subvars;
    let subvars := <["job_id" := job_id s]> subvars in
    line ← prefixed_cmd (batch_query_cmd (cfg ctx)) subvars;
    log DEBUG ("Spawner querying job: " +:+ line);;
    try_except
      (out ← run_command line None;
       modify (set_job_status out))
      (fun e =>
         match as_RuntimeError e with
         | Some stderr => modify (set_job_status stderr)
         | None =>
             log ERROR ("Error querying job " +:+ job_id s);;
             modify (set_job_status EmptyString)
         end);;
    classify.

End Leaf.

Definition cancel_batch_job : M unit :=
  ctx ← ask;
  s ← get;
  subvars ← get_req_subvars;
  let subvars := <["job_id" := job_id s]> subvars in
  line ← prefixed_cmd (batch_cancel_cmd (cfg ctx)) subvars;
  log INFO ("Cancelling job " +:+ job_id s +:+ ": " +:+ line);;
  _ ← run_command line None;
  mret tt.

(** The hub's own [load_state], [get_state] and [clear_state] keep no
    field of their own: [get_state] starts from an empty dictionary. *)
Definition load_state (state : gmap string string) : M unit :=
  modify (set_job_id (default EmptyString (state !! "job_id")));;
  modify (set_job_status (default EmptyString (state !! "job_status"))).

Definition get_state (s : St) : gmap string string :=
  let state : gmap string string := ∅ in
  let state := if negb (PyStr.is_empty (job_id s))
               then <["job_id" := job_id s]> state else state in
  let state := if negb (PyStr.is_empty (job_status s))
               then <["job_status" := job_status s]> state else state in
  state.

Definition clear_state : M unit :=
  modify (set_job_id EmptyString);;
  modify (set_job_status EmptyString).

Definition parse_job_id (output : string) : M string := mret output.

(** The methods a subclass must provide. *)
Definition state_ispending : M pyval :=
  raise (NotImplementedError "Subclass must provide implementation").
Definition state_isrunning : M pyval :=
  raise (NotImplementedError "Subclass must provide implementation").
Definition state_isunknown : M pyval := mret PyNone.
Definition state_gethost : M pyval :=
  raise (NotImplementedError "Subclass must provide implementation").

(** [jupyterhub.version_info >= (0, 8)] and [< (0, 7)] on the first two
    components of the version. *)
Definition version_ge_0_8 (v : nat * nat) : bool :=
  (Nat.ltb 0 (fst v) || Nat.leb 8 (snd v))%bool.
Definition version_lt_0_7 (v : nat * nat) : bool :=
  (Nat.eqb (fst v) 0 && Nat.ltb (snd v) 7)%bool.

Definition submission_failure_msg : string :=
  "Jupyter batch job submission failure (no jobid in output)".

Definition disappeared_msg : string :=
  "The Jupyter batch job has disappeared while pending in the queue or died immediately after starting.".

(** [await gen.sleep(self.startup_poll_interval)] *)
Definition startup_sleep : M unit :=
  ctx ← ask;
  sleep (startup_poll_interval (cfg ctx)).

(** [self.ip = ...default_value; self.port = ...default_value] and the
    note of the port on the hub's server object. *)
Definition reset_endpoint : M unit :=
  ctx ← ask;
  modify (set_ip (ip_default (cfg ctx)));;
  modify (set_port (port_default (cfg ctx)));;
  if (version_ge_0_8 (hub_version (cfg ctx)) && has_server (cfg ctx))%bool
  then modify (emit (EvServerPort (port_default (cfg ctx))))
  else mret tt.

(** [while self.port == 0]: wait for the port, one sleep per turn. *)
Fixpoint wait_for_port (fuel : nat) : M unit :=
  s ← get;
  if port s =? 0 then
    match fuel with
    | O => diverge
    | S fuel' =>
        ctx ← ask;
        startup_sleep;;
        match mock_port (cfg ctx) with
        | Some p => modify (set_port p)
        | None => mret tt
        end;;
        wait_for_port fuel'
    end
  else mret tt.

(** The end of [start]: the record for old hubs, the commit, the log line
    and the returned pair. *)
Definition register_server : M (string * Z) :=
  ctx ← ask;
  s ← get;
  (if version_lt_0_7 (hub_version (cfg ctx))
   then modify (emit (EvUserServer (ip s) (port s)))
   else mret tt);;
  modify (emit EvCommit);;
  modify (set_tick (S (tick s)));;
  match db_commit (world ctx) (tick s) with
  | Some e => raise e
  | None =>
      log INFO ("Notebook server job " +:+ job_id s +:+ " started at "
                +:+ ip s +:+ ":" +:+ str_of_int (port s));;
      mret (ip s, port s)
  end.

Section Methods.
Context `{self.Spawner}.

Definition poll : M (option Z) :=
  status ← self.query_job_status;
  match status with
  | PENDING | RUNNING | UNKNOWN => mret None
  | NOTFOUND => clear_state;; mret (Some 1)
  end.

(** The [while True] loop of [start]: one query per turn. *)
Fixpoint wait_until_running (fuel : nat) : M unit :=
  match fuel with
  | O => diverge
  | S fuel' =>
      status ← self.query_job_status;
      s ← get;
      match status with
      | RUNNING => mret tt
      | PENDING =>
          log DEBUG ("Job " +:+ job_id s +:+ " still pending");;
          startup_sleep;;
          wait_until_running fuel'
      | UNKNOWN =>
          log DEBUG ("Job " +:+ job_id s +:+ " still unknown");;
          startup_sleep;;
          wait_until_running fuel'
      | NOTFOUND =>
          log WARNING ("Job " +:+ job_id s +:+ " neither pending nor running."
                       +:+ PyStr.nl +:+ job_status s);;
          clear_state;;
          raise (RuntimeError disappeared_msg)
      end
  end.

Definition start (fuel : nat) : M (string * Z) :=
  reset_endpoint;;
  _ ← self.submit_batch_script;
  s ← get;
  if PyStr.is_empty (job_id s) then raise (RuntimeError submission_failure_msg)
  else
    wait_until_running fuel;;
    host ← self.state_gethost;
    assign_ip host;;
    wait_for_port fuel;;
    register_server.

(** [for _ in range(n)] of [stop], then the warning. *)
Fixpoint confirm_stopped (n : nat) : M unit :=
  match n with
  | O =>
      s ← get;
      if negb (PyStr.is_empty (job_id s)) then
        log WARNING ("Notebook server job " +:+ job_id s +:+ " at " +:+ ip s
                     +:+ ":" +:+ str_of_int (port s)
                     +:+ " possibly failed to terminate")
      else mret tt
  | S n' =>
      status ← self.query_job_status;
      match status with
      | RUNNING | UNKNOWN => sleep 1;; confirm_stopped n'
      | PENDING | NOTFOUND => mret tt
      end
  end.

Definition stop (now : bool) : M unit :=
  s ← get;
  log INFO ("Stopping server job " +:+ job_id s);;
  cancel_batch_job;;
  if now then mret tt
  else confirm_stopped 10.

End Methods.

Section Progress.
Context `{self.LeafMethods}.

Definition pending_msg : string := "Pending in queue...".
Definition running_msg : string := "Cluster job running... waiting to connect".
Definition unknown_msg : string := "Unknown status...".

(** One turn of the [while True] loop of [progress]: the message that is
    yielded, and whether the generator returns after it. *)
Definition progress_turn : M (string * bool) :=
  p ← self.state_ispending;
  if truthy p then mret (pending_msg, false)
  else
    r ← self.state_isrunning;
    if truthy r then mret (running_msg, true)
    else mret (unknown_msg, false).

(** The first [turns] turns of the generator.  While it is suspended, at
    the yield and in the sleep of one second, the other coroutines of the
    spawner run: [others k] is what they do to the spawner during turn [k].
    The result holds the messages yielded and tells whether the generator
    has returned. *)
Fixpoint progress (turns : nat) (others : nat -> St -> St) : M (list string * bool) :=
  match turns with
  | O => mret (([] : list string), false)
  | S n =>
      progress_turn ≫= fun turn : string * bool =>
      if snd turn then mret ([fst turn], true)
      else
        sleep 1;;
        modify (others O);;
        progress n (fun k => others (S k)) ≫= fun later : list string * bool =>
        mret (fst turn :: fst later, snd later)
  end.

End Progress.

End BatchSpawnerBase.

(* ===================================================================== *)
(** ** [BatchSpawnerRegexStates] *)
(* ===================================================================== *)

Module BatchSpawnerRegexStates.

(** [self.job_status and re.search(pattern, self.job_status)]: the search
    is made only when the status text is not empty. *)
Definition status_and_search (pattern : string) : M pyval :=
  ctx ← ask;
  s ← get;
  if truthy (PyStr (job_status s)) then
    m ← lift (re_search (world ctx) pattern (job_status s));
    mret (match m with Some m => PyMatch m | None => PyNone end)
  else mret (PyStr (job_status s)).

Definition state_ispending : M pyval :=
  ctx ← ask;
  if PyStr.is_empty (state_pending_re (cfg ctx))
  then raise (AssertionError "Misconfigured: define state_running_re")
  else status_and_search (state_pending_re (cfg ctx)).

Definition state_isrunning : M pyval :=
  ctx ← ask;
  if PyStr.is_empty (state_running_re (cfg ctx))
  then raise (AssertionError "Misconfigured: define state_running_re")
  else status_and_search (state_running_re (cfg ctx)).

Definition state_isunknown : M pyval :=
  ctx ← ask;
  if negb (PyStr.is_empty (state_unknown_re (cfg ctx)))
  then status_and_search (state_unknown_re (cfg ctx))
  else mret PyNone.

Definition state_gethost : M pyval :=
  ctx ← ask;
  s ← get;
  if PyStr.is_empty (state_exechost_re (cfg ctx))
  then raise (AssertionError "Misconfigured: define state_exechost_re")
  else
    m ← lift (re_search (world ctx) (state_exechost_re (cfg ctx)) (job_status s));
    match m with
    | None =>
        log ERROR ("Spawner unable to match host addr in job status: " +:+ job_status s);;
        mret PyNone
    | Some m =>
        if PyStr.is_empty (state_exechost_exp (cfg ctx)) then
          match m_groups m with
          | [] => raise (IndexError "tuple index out of range")
          | Some h :: _ => mret (PyStr h)
          | None :: _ => mret PyNone
          end
        else
          h ← lift (match_expand (world ctx) m (state_exechost_exp (cfg ctx)));
          mret (PyStr h)
    end.

Definition leaf_methods : self.LeafMethods := {|
  self.state_ispending := state_ispending;
  self.state_isrunning := state_isrunning;
  self.state_isunknown := state_isunknown;
  self.state_gethost := state_gethost;
  self.parse_job_id := BatchSpawnerBase.parse_job_id
|}.

Definition methods : self.Spawner := {|
  self.leaf := leaf_methods;
  self.query_job_status := @BatchSpawnerBase.query_job_status leaf_methods;
  self.submit_batch_script := @BatchSpawnerBase.submit_batch_script leaf_methods
|}.

End BatchSpawnerRegexStates.

(* ===================================================================== *)
(** ** [UserEnvMixin] *)
(* ===================================================================== *)

Module UserEnvMixin.

(** [env[key] = value] on a dictionary kept in insertion order. *)
Fixpoint dict_set (key value : string) (env : list (string * string))
  : list (string * string) :=
  match env with
  | [] => [(key, value)]
  | (k, v) :: rest =>
      if String.eqb k key then (k, value) :: rest
      else (k, v) :: dict_set key value rest
  end.

Definition user_env (c : Config) (env : list (string * string))
  : list (string * string) :=
  let env := dict_set "USER" (user_name c) env in
  let env := if negb (PyStr.is_empty (pw_dir c))
             then dict_set "HOME" (pw_dir c) env else env in
  let env := if negb (PyStr.is_empty (pw_shell c))
             then dict_set "SHELL" (pw_shell c) env else env in
  env.

Definition get_env (c : Config) : list (string * string) :=
  user_env c (hub_env c).

End UserEnvMixin.

(* ===================================================================== *)
(** ** [batchspawner/remote_slurm.py]

    Its [RemoteSlurmSpawner] takes [UserEnvMixin] and
    [BatchSpawnerRegexStates] from the [batchspawner] package, of which
    [remote_slurm_spawner.py] holds a copy; it overrides [parse_job_id] and
    runs its commands as local processes. *)
(* ===================================================================== *)

Module remote_slurm.

Definition last_line (output : string) : option string :=
  last (PyStr.splitlines output).

Definition invalid_literal (id : string) : exn :=
  ValueError ("invalid literal for int() with base 10: " +:+ id).

(** The [ValueError] of [int(id)] for a literal with too many digits. *)
Definition exceeds_limit (id : string) : exn :=
  ValueError ("Exceeds the limit (" +:+ pretty PyStr.int_max_str_digits
              +:+ " digits) for integer string conversion: value has "
              +:+ pretty (PyStr.count_digits (PyStr.int_literal id))
              +:+ " digits; use sys.set_int_max_str_digits() to increase the limit").

(** The exception of [int(id)] when it does not accept [id]. *)
Definition int_error (id : string) : exn :=
  if PyStr.literal_ok id then exceeds_limit id else invalid_literal id.

(** The [try] block fails at [splitlines()[-1]], before [output] is bound
    again, or at [int(id)], after it; the handler logs [output] as it is
    bound at that point and raises the exception again. *)
Definition parse_job_id (output : string) : M string :=
  match last_line output with
  | None =>
      log ERROR ("SlurmSpawner unable to parse job ID from text: " +:+ output);;
      raise (IndexError "list index out of range")
  | Some output =>
      let id := PyStr.split_head ";" output in
      if PyStr.int_accepts id then mret id
      else
        log ERROR ("SlurmSpawner unable to parse job ID from text: " +:+ output);;
        raise (int_error id)
  end.

Definition leaf_methods : self.LeafMethods := {|
  self.state_ispending := BatchSpawnerRegexStates.state_ispending;
  self.state_isrunning := BatchSpawnerRegexStates.state_isrunning;
  self.state_isunknown := BatchSpawnerRegexStates.state_isunknown;
  self.state_gethost := BatchSpawnerRegexStates.state_gethost;
  self.parse_job_id := parse_job_id
|}.

Definition methods : self.Spawner := {|
  self.leaf := leaf_methods;
  self.query_job_status := @BatchSpawnerBase.query_job_status leaf_methods;
  self.submit_batch_script := @BatchSpawnerBase.submit_batch_script leaf_methods
|}.

End remote_slurm.

(* ===================================================================== *)
(** ** [RemoteSlurmSpawner] of [remote_slurm_spawner.py] *)
(* ===================================================================== *)

Module RemoteSlurmSpawner.

(** [text + obj] for an [obj] that is not a text raises [TypeError]. *)
Definition concat_str_exception (text : string) (e : exn) : M string :=
  raise (TypeError "can only concatenate str (not an exception) to str").

Definition concat_str_int (text : string) (n : Z) : M string :=
  raise (TypeError "can only concatenate str (not int) to str").

(** The chain of [strip] and [replace] applied to the last line. *)
Definition clean_line (line : string) : string :=
  PyStr.replace "b" EmptyString
    (PyStr.replace "'" EmptyString
       (PyStr.replace "\n" EmptyString
          (PyStr.strip (String "\"%char PyStr.nl)
             (PyStr.strip "\n"
                (PyStr.strip PyStr.nl line))))).

Definition parse_job_id (output : string) : M string :=
  try_except
    (match remote_slurm.last_line output with
     | None => raise (IndexError "list index out of range")
     | Some line =>
         let output := clean_line line in
         let id := PyStr.split_head ";" output in
         log DEBUG ("SlurmSpawner job ID from text: " +:+ id);;
         if PyStr.int_accepts id then mret id
         else raise (remote_slurm.int_error id)
     end)
    (fun e =>
       msg ← concat_str_exception "SlurmSpawner unable to parse job ID from text: " e;
       log ERROR msg;;
       raise e).

(** [socket.gethostbyname(host)]: a host that is not a text is a
    [TypeError]; the resolution of a text is external. *)
Definition socket_gethostbyname (host : pyval) : M string :=
  ctx ← ask;
  match host with
  | PyStr h => lift (gethostbyname (world ctx) h)
  | _ => raise (TypeError "gethostbyname() argument 1 must be str, bytes or bytearray")
  end.

Definition state_gethost : M pyval :=
  host ← BatchSpawnerRegexStates.state_gethost;
  addr ← socket_gethostbyname host;
  mret (PyStr addr).

Definition leaf_methods : self.LeafMethods := {|
  self.state_ispending := BatchSpawnerRegexStates.state_ispending;
  self.state_isrunning := BatchSpawnerRegexStates.state_isrunning;
  self.state_isunknown := BatchSpawnerRegexStates.state_isunknown;
  self.state_gethost := state_gethost;
  self.parse_job_id := parse_job_id
|}.

(** [subvars[key]] *)
Definition subvar (subvars : gmap string string) (key : string) : M string :=
  match subvars !! key with
  | Some v => mret v
  | None => raise (KeyError key)
  end.

(** The three lookups of [open(subvars[...])] and [ssh.connect(...)]. *)
Definition ssh_credentials (subvars : gmap string string) : M unit :=
  _ ← subvar subvars "sshPwdFile";
  _ ← subvar subvars "sshHost";
  _ ← subvar subvars "sshUser";
  mret tt.

(** One ssh session for [line]: [connect], then [between] (what the code
    does before [exec_command]), then the command and its output. *)
Definition ssh_session (subvars : gmap string string) (between : M unit)
           (line : string) : M (string * string) :=
  ctx ← ask;
  s ← get;
  ssh_credentials subvars;;
  modify (emit (EvSsh line));;
  modify (set_tick (S (tick s)));;
  match ssh (world ctx) (tick s) line with
  | SshConnectError e => raise e
  | SshExecError e => between;; raise e
  | SshOutput out err => between;; mret (out, err)
  end.

Definition dquote : string := String (ascii_of_nat 34) EmptyString.

(** The [export] lines for the variables whose name contains JUPYTERHUB. *)
Fixpoint export_lines (env : list (string * string)) : string :=
  match env with
  | [] => EmptyString
  | (k, v) :: rest =>
      (if PyStr.contains "JUPYTERHUB" k
       then "export " +:+ k +:+ "=" +:+ v +:+ " " +:+ PyStr.nl
       else EmptyString) +:+ export_lines rest
  end.

Definition submit_batch_script : M pyval :=
  ctx ← ask;
  subvars ← BatchSpawnerBase.get_req_subvars;
  line ← BatchSpawnerBase.prefixed_cmd (batch_submit_cmd (cfg ctx)) subvars;
  inner ← BatchSpawnerBase.cmd_formatted_for_batch;
  let subvars :=
    BatchSpawnerBase.with_user_options (cfg ctx) (<["cmd" := inner]> subvars) in
  script ← BatchSpawnerBase._get_batch_script subvars;
  log INFO ("Spawner submitting job using " +:+ line);;
  log INFO ("Spawner submitted script:" +:+ PyStr.nl +:+ script);;
  let env_string := export_lines (UserEnvMixin.get_env (cfg ctx)) in
  '(out, err) ← ssh_session subvars (log INFO env_string)
      ("echo " +:+ dquote +:+ PyStr.replace "__export__" env_string script
       +:+ dquote +:+ " | " +:+ line);
  log INFO err;;
  modify (emit (EvLogEnv INFO (UserEnvMixin.get_env (cfg ctx))));;
  log INFO "b''";;
  log INFO "b''";;
  try_except
    (log INFO ("Job submitted. cmd: " +:+ line +:+ " output: " +:+ out);;
     id ← parse_job_id out;
     modify (set_job_id id))
    (fun _ =>
       log ERROR ("Job submission failed with exit code " +:+ out);;
       modify (set_job_id EmptyString));;
  s ← get;
  mret (PyStr (job_id s)).

(** What [query_job_status] keeps of [str(ssh_stdout.readlines())]. *)
Definition status_of_lines (out : string) : string :=
  PyStr.split_head "\n"
    (PyStr.split_head " n"
       (PyStr.replace "'" EmptyString (PyStr.replace "[" EmptyString out))).

Definition query_job_status : M JobStatus :=
  s ← get;
  if PyStr.is_empty (job_id s) then
    modify (set_job_status EmptyString);;
    mret NOTFOUND
  else
    ctx ← ask;
    subvars ← BatchSpawnerBase.get_req_subvars;
    let subvars := <["job_id" := job_id s]> subvars in
    line ← BatchSpawnerBase.prefixed_cmd (batch_query_cmd (cfg ctx)) subvars;
    log DEBUG ("Spawner querying job: " +:+ line);;
    try_except
      ('(out, err) ← ssh_session subvars (mret tt) line;
       log INFO err;;
       log INFO out;;
       modify (set_job_status (status_of_lines out)))
      (fun _ =>
         log ERROR ("Error querying job " +:+ job_id s);;
         modify (set_job_status EmptyString));;
    @BatchSpawnerBase.classify leaf_methods.

Definition methods : self.Spawner := {|
  self.leaf := leaf_methods;
  self.query_job_status := query_job_status;
  self.submit_batch_script := submit_batch_script
|}.

(** [subprocess.Popen(line, shell=True)] and [communicate(timeout=15)]:
    the calls block, the world says whether they raise. *)
Definition run_popen (line : string) : M unit :=
  ctx ← ask;
  s ← get;
  modify (emit (EvPopen line));;
  modify (set_tick (S (tick s)));;
  match popen (world ctx) (tick s) line with
  | Some e => raise e
  | None => mret tt
  end.

Definition popen_output_msg : string :=
  "Output: None " +:+ PyStr.nl +:+ " Errors: None".

(** The ssh command of [start]: [-L local_port:remote_host:remote_port]
    on the control socket [folder/tunnel-socket_port]. *)
Definition open_tunnel_cmd (pwd_file user host : string) (local_port : Z)
           (remote_host : string) (remote_port : Z) (folder : string)
           (socket_port machine_port : Z) : string :=
  "nohup sshpass -f " +:+ pwd_file +:+ " ssh -n -f " +:+ user +:+ "@" +:+ host
  +:+ " -L " +:+ str_of_int local_port +:+ ":" +:+ remote_host +:+ ":"
  +:+ str_of_int remote_port +:+ " -M -S " +:+ folder +:+ "/tunnel-"
  +:+ str_of_int socket_port +:+ " -fN machine-" +:+ str_of_int machine_port +:+ " &".

Definition close_tunnel_cmd (folder : string) (socket_port machine_port : Z) : string :=
  "ssh -S " +:+ folder +:+ "/tunnel-" +:+ str_of_int socket_port
  +:+ " -O exit machine-" +:+ str_of_int machine_port.

(** The [try] block of [start]. *)
Definition open_tunnel (subvars : gmap string string) : M unit :=
  try_except
    (s ← get;
     pwd_file ← subvar subvars "sshPwdFile";
     user ← subvar subvars "sshUser";
     host ← subvar subvars "sshHost";
     folder ← subvar subvars "sshTunnelsFolder";
     let line := open_tunnel_cmd pwd_file user host (port s) (ip s) (port s)
                                 folder (port s) (port s) in
     log INFO ("Tunneling " +:+ ip s +:+ ":" +:+ str_of_int (port s)
               +:+ " via  localhost:" +:+ str_of_int (port s));;
     log DEBUG ("Executing command: " +:+ line);;
     run_popen line;;
     log DEBUG popen_output_msg)
    (fun ex =>
       log ERROR "Failed to setup tunnel to remote server";;
       raise ex).

Definition loopback : string := "127.0.0.1".

Definition start (fuel : nat) : M (string * Z) :=
  BatchSpawnerBase.reset_endpoint;;
  _ ← submit_batch_script;
  subvars ← BatchSpawnerBase.get_req_subvars;
  s ← get;
  if PyStr.is_empty (job_id s)
  then raise (RuntimeError BatchSpawnerBase.submission_failure_msg)
  else
    @BatchSpawnerBase.wait_until_running methods fuel;;
    host ← state_gethost;
    BatchSpawnerBase.assign_ip host;;
    BatchSpawnerBase.wait_for_port fuel;;
    open_tunnel subvars;;
    modify (set_ip loopback);;
    s ← get;
    log INFO ("Registering server at: " +:+ ip s +:+ ":" +:+ str_of_int (port s));;
    BatchSpawnerBase.register_server.

(** The [try] block of [stop]. *)
Definition close_tunnel (subvars : gmap string string) : M unit :=
  try_except
    (s ← get;
     folder ← subvar subvars "sshTunnelsFolder";
     let line := close_tunnel_cmd folder (port s) (port s) in
     log DEBUG ("Executing command: " +:+ line);;
     run_popen line;;
     log DEBUG popen_output_msg)
    (fun ex =>
       log ERROR "Failed to kill tunnel to remote server";;
       raise ex).

(** [stop] from its [try] block to its end. *)
Definition stop_from_tunnel (subvars : gmap string string) (now : bool) : M unit :=
  close_tunnel subvars;;
  s ← get;
  log INFO ("Stopping server job " +:+ job_id s);;
  BatchSpawnerBase.cancel_batch_job;;
  if now then mret tt
  else @BatchSpawnerBase.confirm_stopped methods 10.

(** [self.port] is an integer, so the first log line of [stop] adds an
    integer to a text. *)
Definition stop (now : bool) : M unit :=
  subvars ← BatchSpawnerBase.get_req_subvars;
  s ← get;
  msg ← concat_str_int "Stopping ssh tunnel on port: " (port s);
  log INFO msg;;
  stop_from_tunnel subvars now.

End RemoteSlurmSpawner.

(* ===================================================================== *)
(** ** A regular expression engine for ASCII texts

    [re.search] is external to the spawner.  For concrete runs this module
    gives a backtracking matcher for the part of the syntax of [re] that the
    spawner's default patterns use: literals, [^], [$], [.], classes, the
    escapes [\s], [\w], [\d], groups, [|], and the greedy [*], [+], [?].
    Any other pattern, and any text outside ASCII, is refused. *)
(* ===================================================================== *)

Module PyRe.

Inductive re :=
| Empty
| Chars (negated : bool) (ranges : list (nat * nat))
| Bol
| Eol
| Cat (a b : re)
| Alt (a b : re)
| Star (r : re)
| Group (index : nat) (r : re).

Definition word_ranges : list (nat * nat) :=
  [(48, 57); (65, 90); (95, 95); (97, 122)]%nat.
Definition space_ranges : list (nat * nat) := [(9, 13); (28, 32)]%nat.
Definition digit_ranges : list (nat * nat) := [(48, 57)]%nat.

Definition single (c : ascii) : list (nat * nat) :=
  [(nat_of_ascii c, nat_of_ascii c)].

Definition is_punct (c : ascii) : bool :=
  let n := nat_of_ascii c in
  ((Nat.leb 33 n && Nat.leb n 47) || (Nat.leb 58 n && Nat.leb n 64)
   || (Nat.leb 91 n && Nat.leb n 96) || (Nat.leb 123 n && Nat.leb n 126))%bool.

(** The set named by the character after a backslash. *)
Definition escape (c : ascii) : option (list (nat * nat)) :=
  if Ascii.eqb c "s" then Some space_ranges
  else if Ascii.eqb c "w" then Some word_ranges
  else if Ascii.eqb c "d" then Some digit_ranges
  else if Ascii.eqb c "n" then Some [(10, 10)%nat]
  else if Ascii.eqb c "t" then Some [(9, 9)%nat]
  else if is_punct c then Some (single c)
  else None.

(** The items of a class up to its closing bracket. *)
Fixpoint class_items (s : string) (acc : list (nat * nat))
  : option (list (nat * nat) * string) :=
  match s with
  | EmptyString => None
  | String c tl =>
      if Ascii.eqb c "]" then Some (acc, tl)
      else if Ascii.eqb c "\" then
        match tl with
        | String e rest =>
            match escape e with
            | Some set => class_items rest (acc ++ set)
            | None => None
            end
        | EmptyString => None
        end
      else
        match tl with
        | String d (String hi rest) =>
            if (Ascii.eqb d "-" && negb (Ascii.eqb hi "]"))%bool
            then class_items rest (acc ++ [(nat_of_ascii c, nat_of_ascii hi)])
            else class_items tl (acc ++ single c)
        | _ => class_items tl (acc ++ single c)
        end
  end.

Definition parse_class (s : string) : option (re * string) :=
  match s with
  | String c tl =>
      if Ascii.eqb c "^" then
        match class_items tl [] with
        | Some (set, rest) => Some (Chars true set, rest)
        | None => None
        end
      else
        match class_items s [] with
        | Some (set, rest) => Some (Chars false set, rest)
        | None => None
        end
  | EmptyString => None
  end.

(** A greedy quantifier after an atom; a second quantifier character
    (lazy or possessive forms) and counted repetition are refused. *)
Definition quantified (a : re) (s : string) : option (re * string) :=
  match s with
  | String q rest =>
      let is_q (c : ascii) :=
        (Ascii.eqb c "*" || Ascii.eqb c "+" || Ascii.eqb c "?" || Ascii.eqb c "{")%bool in
      let next_is_q := match rest with String c _ => is_q c | EmptyString => false end in
      if Ascii.eqb q "{" then None
      else if is_q q then
        if next_is_q then None
        else if Ascii.eqb q "*" then Some (Star a, rest)
        else if Ascii.eqb q "+" then Some (Cat a (Star a), rest)
        else Some (Alt a Empty, rest)
      else Some (a, s)
  | EmptyString => Some (a, s)
  end.

(** Recursive descent; [g] is the number of the next group. *)
Fixpoint parse_alt (fuel : nat) (s : string) (g : nat) : option (re * string * nat) :=
  match fuel with
  | O => None
  | S fuel' =>
      match parse_seq fuel' s g with
      | Some (a, String c rest, g') =>
          if Ascii.eqb c "|" then
            match parse_alt fuel' rest g' with
            | Some (b, rest', g'') => Some (Alt a b, rest', g'')
            | None => None
            end
          else Some (a, String c rest, g')
      | other => other
      end
  end
with parse_seq (fuel : nat) (s : string) (g : nat) : option (re * string * nat) :=
  match fuel with
  | O => None
  | S fuel' =>
      match s with
      | EmptyString => Some (Empty, s, g)
      | String c _ =>
          if (Ascii.eqb c ")" || Ascii.eqb c "|")%bool then Some (Empty, s, g)
          else
            match parse_atom fuel' s g with
            | Some (a, rest, g') =>
                match quantified a rest with
                | Some (a', rest') =>
                    match parse_seq fuel' rest' g' with
                    | Some (b, rest'', g'') => Some (Cat a' b, rest'', g'')
                    | None => None
                    end
                | None => None
                end
            | None => None
            end
      end
  end
with parse_atom (fuel : nat) (s : string) (g : nat) : option (re * string * nat) :=
  match fuel with
  | O => None
  | S fuel' =>
      match s with
      | EmptyString => None
      | String c tl =>
          if Ascii.eqb c "(" then
            match tl with
            | String q tl' =>
                if Ascii.eqb q "?" then
                  match tl' with
                  | String k inner =>
                      if Ascii.eqb k ":" then
                        match parse_alt fuel' inner g with
                        | Some (r, String e rest, g') =>
                            if Ascii.eqb e ")" then Some (r, rest, g') else None
                        | _ => None
                        end
                      else None
                  | EmptyString => None
                  end
                else
                  match parse_alt fuel' tl (S g) with
                  | Some (r, String e rest, g') =>
                      if Ascii.eqb e ")" then Some (Group g r, rest, g') else None
                  | _ => None
                  end
            | EmptyString => None
            end
          else if Ascii.eqb c "[" then
            match parse_class tl with
            | Some (r, rest) => Some (r, rest, g)
            | None => None
            end
          else if Ascii.eqb c "\" then
            match tl with
            | String e rest =>
                match escape e with
                | Some set => Some (Chars false set, rest, g)
                | None => None
                end
            | EmptyString => None
            end
          else if Ascii.eqb c "." then Some (Chars true [(10, 10)%nat], tl, g)
          else if Ascii.eqb c "^" then Some (Bol, tl, g)
          else if Ascii.eqb c "$" then Some (Eol, tl, g)
          else if (Ascii.eqb c "*" || Ascii.eqb c "+" || Ascii.eqb c "?"
                   || Ascii.eqb c "{" || Ascii.eqb c "}" || Ascii.eqb c "]")%bool
          then None
          else Some (Chars false (single c), tl, g)
      end
  end.

(** The pattern as a whole, with its number of groups. *)
Definition compile (pattern : string) : option (re * nat) :=
  match parse_alt (3 * String.length pattern + 3) pattern O with
  | Some (r, EmptyString, g) => Some (r, g)
  | _ => None
  end.

Definition in_ranges (c : ascii) (ranges : list (nat * nat)) : bool :=
  existsb (fun r => (Nat.leb (fst r) (nat_of_ascii c) && Nat.leb (nat_of_ascii c) (snd r))%bool)
          ranges.

(** [$] matches at the end and before a newline that ends the text. *)
Definition at_end (rest : string) : bool :=
  match rest with
  | EmptyString => true
  | String c EmptyString => Ascii.eqb c PyStr.LF
  | _ => false
  end.

Definition captures := list (nat * string).

(** A position in the text: what is left, and how much was read. *)
Definition result : Type := string * nat * captures.

(** Backtracking matcher in continuation-passing style.  An iteration of
    [Star] must read at least one character. *)
Fixpoint run (r : re) (rest : string) (pos : nat) (caps : captures)
         (k : string -> nat -> captures -> option result) {struct r} : option result :=
  match r with
  | Empty => k rest pos caps
  | Chars negated ranges =>
      match rest with
      | String c rest' =>
          if xorb negated (in_ranges c ranges) then k rest' (S pos) caps else None
      | EmptyString => None
      end
  | Bol => if Nat.eqb pos 0 then k rest pos caps else None
  | Eol => if at_end rest then k rest pos caps else None
  | Cat a b => run a rest pos caps (fun rest' pos' caps' => run b rest' pos' caps' k)
  | Alt a b =>
      match run a rest pos caps k with
      | Some x => Some x
      | None => run b rest pos caps k
      end
  | Star a =>
      (fix loop (n : nat) (rest : string) (pos : nat) (caps : captures) : option result :=
         match n with
         | O => k rest pos caps
         | S n' =>
             match run a rest pos caps
                       (fun rest' pos' caps' =>
                          if Nat.ltb pos pos' then loop n' rest' pos' caps' else None) with
             | Some x => Some x
             | None => k rest pos caps
             end
         end) (String.length rest) rest pos caps
  | Group index a =>
      run a rest pos caps
          (fun rest' pos' caps' =>
             k rest' pos' ((index, String.substring 0 (pos' - pos) rest) :: caps'))
  end.

Fixpoint lookup (i : nat) (caps : captures) : option string :=
  match caps with
  | [] => None
  | (j, text) :: more => if Nat.eqb i j then Some text else lookup i more
  end.

(** The leftmost match: try every start position in turn. *)
Fixpoint search_from (r : re) (groups : nat) (text : string) (pos : nat) : option Match :=
  match run r text pos [] (fun rest' pos' caps' => Some (rest', pos', caps')) with
  | Some (_, pos', caps) =>
      Some {| m_text := String.substring 0 (pos' - pos) text;
              m_groups := List.map (fun i => lookup i caps) (seq 0 groups) |}
  | None =>
      match text with
      | EmptyString => None
      | String _ text' => search_from r groups text' (S pos)
      end
  end.

Fixpoint is_ascii (s : string) : bool :=
  match s with
  | EmptyString => true
  | String c rest => (Nat.ltb (nat_of_ascii c) 128 && is_ascii rest)%bool
  end.

Definition search (pattern text : string) : Res (option Match) :=
  if (is_ascii pattern && is_ascii text)%bool then
    match compile pattern with
    | Some (r, groups) => Ok (search_from r groups text O)
    | None => Raise (ExternalError "re: pattern outside the modelled syntax")
    end
  else Raise (ExternalError "re: text outside ASCII").

(** [match.expand(template)] for templates whose only escapes are a
    backslash and the digit of a group; other templates are refused. *)
Fixpoint expand_template (groups : list (option string)) (template : string)
  : option string :=
  match template with
  | EmptyString => Some EmptyString
  | String c tl =>
      if Ascii.eqb c "\" then
        match tl with
        | String d rest =>
            let next_is_digit :=
              match rest with String e _ => PyStr.is_digit e | EmptyString => false end in
            if (PyStr.is_digit d && negb (Ascii.eqb d "0") && negb next_is_digit)%bool then
              match nth_error groups (nat_of_ascii d - 49), expand_template groups rest with
              | Some g, Some more => Some (default EmptyString g +:+ more)
              | _, _ => None
              end
            else None
        | EmptyString => None
        end
      else
        match expand_template groups tl with
        | Some more => Some (String c more)
        | None => None
        end
  end.

Definition expand (m : Match) (template : string) : Res string :=
  match expand_template (m_groups m) template with
  | Some text => Ok text
  | None => Raise (ExternalError "re: template outside the modelled syntax")
  end.

End PyRe.

(* ===================================================================== *)
(** ** Template engines for concrete runs

    [str.format] for templates whose fields are plain names, and jinja2 for
    templates made of text, [{{ name }}] and [{% if name %}] ... [{% endif %}]
    without nesting.  Other templates are refused. *)
(* ===================================================================== *)

Module PyFormat.

Definition refused {A} : Res A :=
  Raise (ExternalError "template outside the modelled syntax").

Definition prepend (c : ascii) (r : Res string) : Res string :=
  match r with
  | Ok text => Ok (String c text)
  | Raise e => Raise e
  | Diverge => Diverge
  end.

Definition prepend_text (t : string) (r : Res string) : Res string :=
  match r with
  | Ok text => Ok (t +:+ text)
  | Raise e => Raise e
  | Diverge => Diverge
  end.

Definition is_word (c : ascii) : bool := PyRe.in_ranges c PyRe.word_ranges.

Fixpoint all_digits (s : string) : bool :=
  match s with
  | EmptyString => true
  | String c rest => (PyStr.is_digit c && all_digits rest)%bool
  end.

(** [field] is the name being read inside braces, if any; a doubled brace
    in the text stands for one brace. *)
Fixpoint format_from (vars : gmap string string) (field : option string) (s : string)
  : Res string :=
  match s with
  | EmptyString =>
      match field with
      | None => Ok EmptyString
      | Some _ => Raise (ValueError "expected '}' before end of string")
      end
  | String c rest =>
      match field with
      | None =>
          if Ascii.eqb c "{" then
            match rest with
            | String d rest' =>
                if Ascii.eqb d "{" then prepend d (format_from vars None rest')
                else format_from vars (Some EmptyString) rest
            | EmptyString => Raise (ValueError "Single '{' encountered in format string")
            end
          else if Ascii.eqb c "}" then
            match rest with
            | String d rest' =>
                if Ascii.eqb d "}" then prepend d (format_from vars None rest')
                else Raise (ValueError "Single '}' encountered in format string")
            | EmptyString => Raise (ValueError "Single '}' encountered in format string")
            end
          else prepend c (format_from vars None rest)
      | Some name =>
          if Ascii.eqb c "}" then
            if all_digits name
            then Raise (IndexError "Replacement index out of range for positional args tuple")
            else match vars !! name with
                 | Some v => prepend_text v (format_from vars None rest)
                 | None => Raise (KeyError name)
                 end
          else if is_word c then format_from vars (Some (name +:+ String c EmptyString)) rest
          else refused
      end
  end.

Definition str_format (template : string) (vars : gmap string string) : Res string :=
  format_from vars None template.

Fixpoint is_name (s : string) : bool :=
  match s with
  | EmptyString => true
  | String c rest => (is_word c && is_name rest)%bool
  end.

(** The name inside a tag, without the blanks around it. *)
Definition tag_name (body : string) : option string :=
  let name := PyStr.strip " " body in
  if (negb (PyStr.is_empty name) && is_name name)%bool then Some name else None.

Inductive mode := Text | Expr (body : string) | Stmt (body : string).

(** A variable that is not defined renders as the empty text and is false. *)
Definition value (vars : gmap string string) (name : string) : string :=
  default EmptyString (vars !! name).

(** [cond] is the condition of the enclosing [if], if any. *)
Definition shown (cond : option bool) : bool := default true cond.

Fixpoint render_from (vars : gmap string string) (m : mode) (cond : option bool)
         (s : string) : Res string :=
  match s with
  | EmptyString =>
      match m, cond with
      | Text, None => Ok EmptyString
      | _, _ => refused
      end
  | String c tl =>
      match m with
      | Text =>
          match tl with
          | String d rest =>
              if (Ascii.eqb c "{" && Ascii.eqb d "{")%bool then render_from vars (Expr EmptyString) cond rest
              else if (Ascii.eqb c "{" && Ascii.eqb d "%")%bool then render_from vars (Stmt EmptyString) cond rest
              else if (Ascii.eqb c "{" && Ascii.eqb d "#")%bool then refused
              else if shown cond then prepend c (render_from vars Text cond tl)
                   else render_from vars Text cond tl
          | EmptyString =>
              if shown cond then prepend c (render_from vars Text cond tl)
              else render_from vars Text cond tl
          end
      | Expr body =>
          match tl with
          | String d rest =>
              if (Ascii.eqb c "}" && Ascii.eqb d "}")%bool then
                match tag_name body with
                | Some name =>
                    if shown cond then prepend_text (value vars name) (render_from vars Text cond rest)
                    else render_from vars Text cond rest
                | None => refused
                end
              else render_from vars (Expr (body +:+ String c EmptyString)) cond tl
          | EmptyString => refused
          end
      | Stmt body =>
          match tl with
          | String d rest =>
              if (Ascii.eqb c "%" && Ascii.eqb d "}")%bool then
                let stmt := PyStr.strip " " body in
                if String.eqb stmt "endif" then
                  match cond with
                  | Some _ => render_from vars Text None rest
                  | None => refused
                  end
                else if PyStr.starts_with "if " stmt then
                  match cond, tag_name (String.substring 3 (String.length stmt - 3) stmt) with
                  | None, Some name =>
                      render_from vars Text
                                  (Some (negb (PyStr.is_empty (value vars name)))) rest
                  | _, _ => refused
                  end
                else refused
              else render_from vars (Stmt (body +:+ String c EmptyString)) cond tl
          | EmptyString => refused
          end
      end
  end.

(** jinja2 drops one newline at the very end of a template. *)
Fixpoint drop_final_newline (s : string) : string :=
  match s with
  | EmptyString => EmptyString
  | String c EmptyString => if Ascii.eqb c PyStr.LF then EmptyString else s
  | String c rest => String c (drop_final_newline rest)
  end.

Definition jinja_render (template : string) (vars : gmap string string) : Res string :=
  render_from vars Text None (drop_final_newline template).

End PyFormat.

(* ===================================================================== *)
(** ** The classification named by the specification *)
(* ===================================================================== *)

(** Precedence Running > Pending > Unknown > NotFound, over the truth values
    of the three tests. *)
Definition by_precedence (running pending unknown : bool) : JobStatus :=
  if running then RUNNING
  else if pending then PENDING
  else if unknown then UNKNOWN
  else NOTFOUND.

(** [pattern] matches somewhere in [text], for the engine of [ctx]. *)
Definition matches (ctx : Ctx) (pattern text : string) : Prop :=
  exists m, re_search (world ctx) pattern text = Ok (Some m).

Definition no_match (ctx : Ctx) (pattern text : string) : Prop :=
  re_search (world ctx) pattern text = Ok None.

(** Two states of a spawner agree when they differ at most in [ip] and
    [port]. *)
Definition agree (s1 s2 : St) : Prop :=
  job_id s1 = job_id s2 /\ job_status s1 = job_status s2
  /\ tick s1 = tick s2 /\ trace s1 = trace s2.

(** A computation is blind to [ip] and [port] when states that agree give
    the same outcome and states that agree. *)
Definition blind {A} (c : M A) : Prop :=
  forall ctx s1 s2, agree s1 s2 ->
    fst (c ctx s1) = fst (c ctx s2) /\ agree (snd (c ctx s1)) (snd (c ctx s2)).

(** A spawner created anew at the same point of the world's history. *)
Definition fresh_at (c : Config) (s : St) : St :=
  {| job_id := EmptyString; job_status := EmptyString;
     ip := ip_default c; port := port_default c;
     tick := tick s; trace := trace s |}.

(** The state after the log line and the sleep that follow a query of the
    start loop which found the job pending or unknown. *)
Definition after_startup_wait (ctx : Ctx) (status : JobStatus) (s : St) : St :=
  let word := match status with PENDING => " still pending" | _ => " still unknown" end in
  snd ((log DEBUG ("Job " +:+ job_id s +:+ word) ≫= fun _ => BatchSpawnerBase.startup_sleep)
         ctx s).

(** [start_waits ctx k s s']: from [s], [k] queries of the start loop in a
    row found the job pending or unknown, each followed by its log line and
    sleep; the loop is at [s'], about to query again. *)
Inductive start_waits `{self.Spawner} (ctx : Ctx) : nat -> St -> St -> Prop :=
| start_waits_done s : start_waits ctx O s s
| start_waits_turn k s status s1 s' :
    self.query_job_status ctx s = (Ok status, s1) ->
    status = PENDING \/ status = UNKNOWN ->
    start_waits ctx k (after_startup_wait ctx status s1) s' ->
    start_waits ctx (S k) s s'.

(** The state in which the start loop gives up after a query that left [s]. *)
Definition given_up (s : St) : St :=
  set_job_status EmptyString
    (set_job_id EmptyString
       (emit (EvLog WARNING ("Job " +:+ job_id s +:+ " neither pending nor running."
                             +:+ PyStr.nl +:+ job_status s)) s)).

(** The state after the one-second sleep of the stop loop. *)
Definition after_stop_wait (ctx : Ctx) (s : St) : St := snd (sleep 1 ctx s).

(** [stop_polls ctx k s s']: from [s], [k] queries of the stop loop in a row
    found the job running or unknown, each followed by a sleep of one
    second; the loop is at [s']. *)
Inductive stop_polls `{self.Spawner} (ctx : Ctx) : nat -> St -> St -> Prop :=
| stop_polls_done s : stop_polls ctx O s s
| stop_polls_turn k s status s1 s' :
    self.query_job_status ctx s = (Ok status, s1) ->
    status = RUNNING \/ status = UNKNOWN ->
    stop_polls ctx k (after_stop_wait ctx s1) s' ->
    stop_polls ctx (S k) s s'.

(** How the stop loop ends on a query that does not find the job running or
    unknown: it returns, or the failure of the query goes up. *)
Definition settle (r : Res JobStatus) : Res unit :=
  match r with
  | Ok _ => Ok tt
  | Raise e => Raise e
  | Diverge => Diverge
  end.

Definition still_there (r : Res JobStatus) : Prop := r = Ok RUNNING \/ r = Ok UNKNOWN.

(** The warning that ends a stop whose ten queries all found the job. *)
Definition stop_warning (s : St) : event :=
  EvLog WARNING ("Notebook server job " +:+ job_id s +:+ " at " +:+ ip s
                 +:+ ":" +:+ str_of_int (port s) +:+ " possibly failed to terminate").

(** The log line of [state_gethost] for a status text without a host. *)
Definition no_host_error (s : St) : event :=
  EvLog ERROR ("Spawner unable to match host addr in job status: " +:+ job_status s).

Definition gethostbyname_type_error : exn :=
  TypeError "gethostbyname() argument 1 must be str, bytes or bytearray".

(** A query keeps the job id, and without a job id it reports NotFound. *)
Definition keeps_job_id (q : M JobStatus) : Prop :=
  forall ctx s r s', q ctx s = (r, s') ->
    job_id s' = job_id s /\ (job_id s = EmptyString -> r = Ok NOTFOUND).

(** A computation that leaves the job id as it is. *)
Definition keeps_id {A} (c : M A) : Prop :=
  forall ctx s, job_id (snd (c ctx s)) = job_id s.

(** What [self.job_status and re.search(...)] yields for a search result. *)
Definition search_value (m : option Match) : pyval :=
  match m with Some m => PyMatch m | None => PyNone end.

(* ===================================================================== *)
(** ** Concrete configurations and scripted worlds *)
(* ===================================================================== *)

Module Scenario.

Definition dquote : string := RemoteSlurmSpawner.dquote.

(** The default [batch_script] of [RemoteSlurmSpawner]. *)
Definition slurm_batch_script : string :=
  "#!/bin/bash
#SBATCH --output={{homedir}}/jupyterhub_slurmspawner_%j.log
#SBATCH --job-name=spawner-jupyterhub
#SBATCH --chdir={{homedir}}
#SBATCH --export={{keepvars}}
#SBATCH --get-user-env=L
{% if partition  %}#SBATCH --partition={{partition}}
{% endif %}{% if runtime    %}#SBATCH --time={{runtime}}
{% endif %}{% if memory     %}#SBATCH --mem={{memory}}
{% endif %}{% if gres       %}#SBATCH --gres={{gres}}
{% endif %}{% if nprocs     %}#SBATCH --cpus-per-task={{nprocs}}
{% endif %}{% if reservation%}#SBATCH --reservation={{reservation}}
{% endif %}{% if options    %}#SBATCH {{options}}{% endif %}

set -euo pipefail

trap 'echo SIGTERM received' TERM
{{prologue}}
which jupyterhub-singleuser
{% if srun %}{{srun}} {% endif %}{{cmd}}
echo " +:+ dquote +:+ "jupyterhub-singleuser ended gracefully" +:+ dquote +:+ "
{{epilogue}}
".

(** The [req_xyz] traits of [RemoteSlurmSpawner] for the user alice. *)
Definition slurm_req : gmap string string :=
  list_to_map
    [("queue", EmptyString); ("host", EmptyString); ("memory", "4G");
     ("nprocs", EmptyString); ("ngpus", EmptyString); ("runtime", "1:00:00");
     ("partition", "batch"); ("account", EmptyString); ("options", EmptyString);
     ("prologue", EmptyString); ("epilogue", EmptyString);
     ("username", "alice"); ("homedir", "/home/alice");
     ("keepvars", "PATH,JUPYTERHUB_API_TOKEN,USER,HOME,SHELL");
     ("keepvars_extra", EmptyString);
     ("cluster", EmptyString); ("qos", EmptyString); ("srun", "srun");
     ("reservation", EmptyString); ("gres", EmptyString);
     ("sshPwdFile", "~/.passwd"); ("sshUser", "alice");
     ("sshHost", "login.cluster.example"); ("sshTunnelsFolder", "~/.tunnels")].

(** A SLURM deployment for the user alice: the commands and patterns that
    [batchspawner/remote_slurm.py] gives as defaults.  [RemoteSlurmSpawner]
    of [remote_slurm_spawner.py] has the same defaults but for
    [batch_query_cmd], which its class body defines a second time as the
    empty text, so that a deployment has to set it; here it is set to the
    [squeue] line of the first definition. *)
Definition slurm_config : Config := {|
  exec_prefix := "sudo -E -u {username}";
  batch_script := slurm_batch_script;
  batchspawner_singleuser_cmd := "batchspawner-singleuser";
  batch_submit_cmd := "sbatch --parsable";
  batch_query_cmd := "squeue -h -j {job_id} -o '%T %B'";
  batch_cancel_cmd := "scancel {job_id}";
  state_pending_re := "^(?:PENDING|CONFIGURING)";
  state_running_re := "^(?:RUNNING|COMPLETING)";
  state_exechost_re := "\s+((?:[\w_-]+\.?)+)$";
  state_exechost_exp := EmptyString;
  state_unknown_re :=
    "^slurm_load_jobs error: (?:Socket timed out on send/recv|Unable to contact slurm controller)";
  startup_poll_interval := 1 # 2;
  req := slurm_req;
  cmd := ["jupyterhub-singleuser"];
  args := ["--port=0"];
  user_options := Some ∅;
  user_name := "alice";
  pw_dir := "/home/alice";
  pw_shell := "/bin/bash";
  hub_env := [("PATH", "/usr/bin"); ("JUPYTERHUB_API_TOKEN", "0123abcd")];
  ip_default := "0.0.0.0";
  port_default := 0;
  mock_port := None;
  hub_version := (1, 1)%nat;
  has_server := true
|}.

(** The same configuration with other state patterns. *)
Definition with_patterns (pending running unknown : string) (c : Config) : Config := {|
  exec_prefix := exec_prefix c;
  batch_script := batch_script c;
  batchspawner_singleuser_cmd := batchspawner_singleuser_cmd c;
  batch_submit_cmd := batch_submit_cmd c;
  batch_query_cmd := batch_query_cmd c;
  batch_cancel_cmd := batch_cancel_cmd c;
  state_pending_re := pending;
  state_running_re := running;
  state_exechost_re := state_exechost_re c;
  state_exechost_exp := state_exechost_exp c;
  state_unknown_re := unknown;
  startup_poll_interval := startup_poll_interval c;
  req := req c;
  cmd := cmd c;
  args := args c;
  user_options := user_options c;
  user_name := user_name c;
  pw_dir := pw_dir c;
  pw_shell := pw_shell c;
  hub_env := hub_env c;
  ip_default := ip_default c;
  port_default := port_default c;
  mock_port := mock_port c;
  hub_version := hub_version c;
  has_server := has_server c
|}.

Definition resolver (host : string) : Res string :=
  if String.eqb host "compute-0-1" then Ok "10.0.0.42"
  else Raise (ExternalError "socket.gaierror").

(** A world from scripts for the local processes, the ssh sessions, the
    tunnel commands and the port reports; the libraries are the engines
    above. *)
Definition scripted (procs : nat -> string -> option string -> ProcOutcome)
           (sessions : nat -> string -> SshOutcome)
           (tunnels : nat -> string -> option exn)
           (ports : nat -> option Z) : World := {|
  proc := procs;
  ssh := sessions;
  popen := tunnels;
  hub_port := ports;
  db_commit := fun _ => None;
  gethostbyname := resolver;
  re_search := PyRe.search;
  match_expand := PyRe.expand;
  str_format := PyFormat.str_format;
  jinja_render := PyFormat.jinja_render
|}.

(** A world in which every command succeeds and prints nothing. *)
Definition quiet : World :=
  scripted (fun _ _ _ => ProcExit EmptyString EmptyString 0)
           (fun _ _ => SshOutput "[]" "[]")
           (fun _ _ => None)
           (fun _ => None).

(** A spawner that has not submitted anything. *)
Definition idle : St := {|
  job_id := EmptyString; job_status := EmptyString;
  ip := "0.0.0.0"; port := 0; tick := O; trace := []
|}.

(** A spawner that watches job [id] and last read [status]. *)
Definition watching (id status : string) : St :=
  set_job_status status (set_job_id id idle).

(** Patterns that both match the text RUNNING compute-0-1. *)
Definition overlapping : Ctx :=
  {| cfg := with_patterns "ING" "^RUNNING" EmptyString slurm_config; world := quiet |}.

(** Patterns that match the empty text. *)
Definition matching_empty : Ctx :=
  {| cfg := with_patterns "^" "$" "^$" slurm_config; world := quiet |}.

(** No pattern for the unknown state. *)
Definition without_unknown : Ctx :=
  {| cfg := with_patterns "^(?:PENDING|CONFIGURING)" "^(?:RUNNING|COMPLETING)"
                          EmptyString slurm_config;
     world := quiet |}.

(** A cluster reached by local commands: [sbatch] prints [submit_out],
    [squeue] prints [status n] at interaction [n], [scancel] prints
    nothing; the hub learns the port as [ports] says. *)
Definition local_cluster (submit_out : string) (status : nat -> string)
           (ports : nat -> option Z) : World :=
  scripted
    (fun n line _ =>
       if PyStr.contains "sbatch" line then ProcExit submit_out EmptyString 0
       else if PyStr.contains "squeue" line then ProcExit (status n) EmptyString 0
       else ProcExit EmptyString EmptyString 0)
    (fun _ _ => SshConnectError (ExternalError "ssh is not used"))
    (fun _ _ => None)
    ports.

(** The job is pending at the first two queries and then reported as
    completed. *)
Definition job_vanishes : Ctx :=
  {| cfg := slurm_config;
     world := local_cluster ("209" +:+ PyStr.nl)
                            (fun n => if Nat.ltb n 4 then "PENDING n/a"
                                      else "COMPLETED compute-0-1")
                            (fun _ => None) |}.

(** The job keeps running whatever is done: every query finds it. *)
Definition job_lingers : Ctx :=
  {| cfg := slurm_config;
     world := local_cluster ("209" +:+ PyStr.nl)
                            (fun _ => "RUNNING compute-0-1")
                            (fun _ => None) |}.

(** A spawner whose job 209 runs on compute-0-1 and listens on 8888. *)
Definition serving : St :=
  set_port 8888 (set_ip "compute-0-1" (watching "209" "RUNNING compute-0-1")).

(** A cluster reached over ssh: the session that runs [sbatch] yields
    [submit_repr], a session that runs [squeue] at interaction [n] yields
    [status_repr n]; [tunnels] scripts the ssh commands of the tunnel and
    [cancel] the local [scancel]. *)
Definition remote_cluster (submit_repr : string) (status_repr : nat -> string)
           (ports : nat -> option Z) (tunnels : nat -> string -> option exn)
           (cancel : ProcOutcome) : World :=
  scripted
    (fun _ _ _ => cancel)
    (fun n line =>
       if PyStr.contains "sbatch" line then SshOutput submit_repr "b''"
       else SshOutput (status_repr n) "[]")
    tunnels
    ports.

Definition timeout_expired : exn := ExternalError "subprocess.TimeoutExpired".

(** The command that closes the tunnel does not end in time. *)
Definition tunnel_stuck : Ctx :=
  {| cfg := slurm_config;
     world := remote_cluster "b'209\n'" (fun _ => "['RUNNING compute-0-1\n']")
                             (fun _ => None) (fun _ _ => Some timeout_expired)
                             (ProcExit EmptyString EmptyString 0) |}.

Definition invalid_job_id : string :=
  "scancel: error: Kill job error on job id 209: Invalid job id specified".

(** The job is already gone: [scancel] fails and [squeue] prints nothing. *)
Definition job_gone : Ctx :=
  {| cfg := slurm_config;
     world := remote_cluster "b'209\n'" (fun _ => "[]")
                             (fun _ => None) (fun _ _ => None)
                             (ProcExit EmptyString invalid_job_id 1) |}.

(** The job ends when it is cancelled: [scancel] succeeds and [squeue]
    prints nothing. *)
Definition job_ends : Ctx :=
  {| cfg := slurm_config;
     world := remote_cluster "b'209\n'" (fun _ => "[]")
                             (fun _ => None) (fun _ _ => None)
                             (ProcExit EmptyString EmptyString 0) |}.

(** The job is pending at the first query and then runs on compute-0-1;
    the hub learns the port 8888 during the first sleep. *)
Definition remote_job_starts : Ctx :=
  {| cfg := slurm_config;
     world := remote_cluster "b'209\n'"
                             (fun n => if Nat.ltb n 3 then "['PENDING n/a\n']"
                                       else "['RUNNING compute-0-1\n']")
                             (fun n => if Nat.leb 2 n then Some 8888 else None)
                             (fun _ _ => None)
                             (ProcExit EmptyString EmptyString 0) |}.

(** The job runs on node1: [squeue] prints the state and the host, of
    which [query_job_status] keeps the state alone. *)
Definition remote_job_on_node1 : Ctx :=
  {| cfg := slurm_config;
     world := remote_cluster "b'209\n'" (fun _ => "['RUNNING node1\n']")
                             (fun n => if Nat.leb 2 n then Some 8888 else None)
                             (fun _ _ => None)
                             (ProcExit EmptyString EmptyString 0) |}.

(** The same job seen by the spawner of [batchspawner/remote_slurm.py],
    when [squeue] prints the state without a host. *)
Definition local_job_without_host : Ctx :=
  {| cfg := slurm_config;
     world := local_cluster ("209" +:+ PyStr.nl) (fun _ => "RUNNING")
                            (fun _ => Some 8888) |}.

(** [sbatch] without [--parsable] semantics: it prints a sentence. *)
Definition verbose_sbatch : Ctx :=
  {| cfg := slurm_config;
     world := local_cluster ("Submitted batch job 209" +:+ PyStr.nl)
                            (fun _ => "RUNNING compute-0-1")
                            (fun _ => Some 8888) |}.

(** The same over ssh: the session that runs [sbatch] yields the text of
    the bytes of that sentence. *)
Definition verbose_remote_sbatch : Ctx :=
  {| cfg := slurm_config;
     world := remote_cluster "b'Submitted batch job 209\n'"
                             (fun _ => "['RUNNING compute-0-1\n']")
                             (fun _ => Some 8888) (fun _ _ => None)
                             (ProcExit EmptyString EmptyString 0) |}.

End Scenario.

(* ===================================================================== *)
(** ** Notions used to state further properties *)
(* ===================================================================== *)

(** [env[key]] on a dictionary kept in insertion order. *)
Fixpoint dict_get (key : string) (env : list (string * string)) : option string :=
  match env with
  | [] => None
  | (k, v) :: rest => if String.eqb k key then Some v else dict_get key rest
  end.

(** The line that [submit_batch_script] of the remote spawner writes for one
    variable. *)
Definition export_line (kv : string * string) : string :=
  "export " +:+ fst kv +:+ "=" +:+ snd kv +:+ " " +:+ PyStr.nl.

Definition names_jupyterhub (kv : string * string) : bool :=
  PyStr.contains "JUPYTERHUB" (fst kv).

(** A text without bracket, quote, blank followed by n, and backslash
    followed by n: the characters at which [query_job_status] of the remote
    spawner cuts. *)
Definition plain (text : string) : Prop :=
  PyStr.contains "[" text = false /\ PyStr.contains "'" text = false
  /\ PyStr.contains " n" text = false /\ PyStr.contains "\n" text = false.

(** The three ways in which a spawner acts outside itself: a command run
    through [run_command], a shell process started with [subprocess.Popen],
    an ssh session opened with paramiko. *)
Definition is_run_command (e : event) : bool :=
  match e with EvRun _ _ => true | _ => false end.

Definition is_popen (e : event) : bool :=
  match e with EvPopen _ => true | _ => false end.

Definition is_ssh_session (e : event) : bool :=
  match e with EvSsh _ => true | _ => false end.

(** A process on the hub's machine, however it is started. *)
Definition is_local_process (e : event) : bool := (is_run_command e || is_popen e)%bool.

(** What [start] of the remote spawner may do: nothing through
    [run_command], and no shell process but the ssh command of the tunnel. *)
Definition tunnel_or_session (e : event) : bool :=
  match e with
  | EvRun _ _ => false
  | EvPopen line => PyStr.starts_with "nohup sshpass -f " line
  | _ => true
  end.

(** What the local spawner may do: no ssh session and no [Popen]. *)
Definition without_ssh (e : event) : bool := negb (is_ssh_session e || is_popen e)%bool.

(** [c] only appends events to the trace, and all of them satisfy [P]. *)
Definition emits_only {A} (P : event -> bool) (c : M A) : Prop :=
  forall ctx s, exists evs : list event,
      trace (snd (c ctx s)) = (trace s ++ evs)%list /\ Forall (fun e => P e = true) evs.

(** [text.replace(c, empty)] for a single character [c]. *)
Definition remove_char (c : ascii) (s : string) : string :=
  PyStr.replace (String c EmptyString) EmptyString s.

(** A text made of decimal digits only. *)
Fixpoint only_digits (s : string) : bool :=
  match s with
  | EmptyString => true
  | String c rest => (PyStr.is_digit c && only_digits rest)%bool
  end.

(** A character that [repr] of a text shows as it is between single
    quotes: printable ASCII other than the quote and the backslash. *)
Definition repr_verbatim (c : ascii) : bool :=
  let n := nat_of_ascii c in
  (Nat.leb 32 n && Nat.leb n 126 && negb (Nat.eqb n 39) && negb (Nat.eqb n 92))%bool.

(** A text that [repr] shows as it is: for a line [text] of such
    characters, [str(lines)] of the one-element list that holds the line
    with its newline is the text between the bracket and quote and the
    escaped newline, quote and bracket. *)
Fixpoint shown_verbatim (s : string) : bool :=
  match s with
  | EmptyString => true
  | String c rest => (repr_verbatim c && shown_verbatim rest)%bool
  end.

(** Further scenarios: failing infrastructure, and a local job that starts. *)
Module Cases.

(** Every local command hangs until it is killed after its time limit. *)
Definition squeue_hangs : Ctx :=
  {| cfg := Scenario.slurm_config;
     world := Scenario.scripted
                (fun _ _ _ => ProcFail CleanTimeout)
                (fun _ _ => SshConnectError (ExternalError "ssh is not used"))
                (fun _ _ => None)
                (fun _ => None) |}.

(** The login node refuses every ssh connection. *)
Definition ssh_down : Ctx :=
  {| cfg := Scenario.slurm_config;
     world := Scenario.scripted
                (fun _ _ _ => ProcExit EmptyString EmptyString 0)
                (fun _ _ => SshConnectError (ExternalError "paramiko.SSHException"))
                (fun _ _ => None)
                (fun _ => None) |}.

(** The job is pending at the first query and then runs on compute-0-1;
    the hub learns the port 8888 during the first sleep. *)
Definition local_job_starts : Ctx :=
  {| cfg := Scenario.slurm_config;
     world := Scenario.local_cluster ("209" +:+ PyStr.nl)
                (fun n => if Nat.ltb n 3 then "PENDING n/a" else "RUNNING compute-0-1")
                (fun n => if Nat.leb 2 n then Some 8888 else None) |}.

End Cases.

(* ===================================================================== *)
(** ** Reasoning about the monad *)
(* ===================================================================== *)

Section MonadLemmas.
Context {A B : Type}.

Lemma bind_eq (c : M A) (k : A -> M B) ctx s :
  (c ≫= k) ctx s =
  match c ctx s with
  | (Ok a, s') => k a ctx s'
  | (Raise e, s') => (Raise e, s')
  | (Diverge, s') => (Diverge, s')
  end.
Proof. reflexivity. Qed.

Lemma bind_Ok (c : M A) (k : A -> M B) ctx s a s' :
  c ctx s = (Ok a, s') -> (c ≫= k) ctx s = k a ctx s'.
Proof. intros E. rewrite bind_eq, E. reflexivity. Qed.

Lemma bind_Raise (c : M A) (k : A -> M B) ctx s e s' :
  c ctx s = (Raise e, s') -> (c ≫= k) ctx s = (Raise e, s').
Proof. intros E. rewrite bind_eq, E. reflexivity. Qed.

Lemma bind_Diverge (c : M A) (k : A -> M B) ctx s s' :
  c ctx s = (Diverge, s') -> (c ≫= k) ctx s = (Diverge, s').
Proof. intros E. rewrite bind_eq, E. reflexivity. Qed.

Lemma bind_Ok_inv (c : M A) (k : A -> M B) ctx s b s' :
  (c ≫= k) ctx s = (Ok b, s') ->
  exists a s1, c ctx s = (Ok a, s1) /\ k a ctx s1 = (Ok b, s').
Proof.
  rewrite bind_eq. destruct (c ctx s) as [[a | e |] s1]; intros E;
    [exists a, s1; split; [reflexivity | exact E] | discriminate | discriminate].
Qed.

Lemma bind_Raise_inv (c : M A) (k : A -> M B) ctx s e s' :
  (c ≫= k) ctx s = (Raise e, s') ->
  c ctx s = (Raise e, s') \/
  exists a s1, c ctx s = (Ok a, s1) /\ k a ctx s1 = (Raise e, s').
Proof.
  rewrite bind_eq. destruct (c ctx s) as [[a | e0 |] s1]; intros E.
  - right. exists a, s1. split; [reflexivity | exact E].
  - left. injection E as -> ->. reflexivity.
  - discriminate.
Qed.

Lemma bind_Diverge_inv (c : M A) (k : A -> M B) ctx s s' :
  (c ≫= k) ctx s = (Diverge, s') ->
  c ctx s = (Diverge, s') \/
  exists a s1, c ctx s = (Ok a, s1) /\ k a ctx s1 = (Diverge, s').
Proof.
  rewrite bind_eq. destruct (c ctx s) as [[a | e0 |] s1]; intros E.
  - right. exists a, s1. split; [reflexivity | exact E].
  - discriminate.
  - left. injection E as ->. reflexivity.
Qed.

End MonadLemmas.

Lemma is_empty_true s : PyStr.is_empty s = true <-> s = EmptyString.
Proof. destruct s; simpl; split; congruence. Qed.

Lemma is_empty_false s : PyStr.is_empty s = false <-> s <> EmptyString.
Proof. destruct s; simpl; split; congruence. Qed.

(** Unfolding of the primitive actions. *)
Ltac run_prims :=
  cbv [mbind M_bind mret M_ret ask get modify lift raise diverge log try_except].

(* ===================================================================== *)
(** ** The state tests of [BatchSpawnerRegexStates] *)
(* ===================================================================== *)

Section RegexStates.
Import BatchSpawnerRegexStates.
Variables (ctx : Ctx) (s : St).

Lemma status_and_search_empty pattern :
  job_status s = EmptyString ->
  status_and_search pattern ctx s = (Ok (PyStr EmptyString), s).
Proof. intros E. unfold status_and_search. run_prims. rewrite E. reflexivity. Qed.

Lemma status_and_search_text pattern :
  job_status s <> EmptyString ->
  status_and_search pattern ctx s =
  (match re_search (world ctx) pattern (job_status s) with
   | Ok m => Ok (search_value m)
   | Raise e => Raise e
   | Diverge => Diverge
   end, s).
Proof.
  intros E. apply is_empty_false in E. unfold status_and_search. run_prims.
  simpl. rewrite E. simpl.
  destruct (re_search (world ctx) pattern (job_status s)) as [[m |] | e |]; reflexivity.
Qed.

Lemma status_and_search_pure pattern : snd (status_and_search pattern ctx s) = s.
Proof.
  destruct (PyStr.is_empty (job_status s)) eqn:E.
  - apply is_empty_true in E. rewrite (status_and_search_empty _ E). reflexivity.
  - apply is_empty_false in E. rewrite (status_and_search_text _ E). reflexivity.
Qed.

Lemma state_isrunning_pure : snd (state_isrunning ctx s) = s.
Proof.
  unfold state_isrunning. run_prims.
  destruct (PyStr.is_empty (state_running_re (cfg ctx))); [reflexivity |].
  apply status_and_search_pure.
Qed.

Lemma state_ispending_pure : snd (state_ispending ctx s) = s.
Proof.
  unfold state_ispending. run_prims.
  destruct (PyStr.is_empty (state_pending_re (cfg ctx))); [reflexivity |].
  apply status_and_search_pure.
Qed.

Lemma state_isunknown_pure : snd (state_isunknown ctx s) = s.
Proof.
  unfold state_isunknown. run_prims.
  destruct (PyStr.is_empty (state_unknown_re (cfg ctx))); simpl; [reflexivity |].
  apply status_and_search_pure.
Qed.

Lemma state_isrunning_matches m :
  state_running_re (cfg ctx) <> EmptyString ->
  job_status s <> EmptyString ->
  re_search (world ctx) (state_running_re (cfg ctx)) (job_status s) = Ok (Some m) ->
  state_isrunning ctx s = (Ok (PyMatch m), s).
Proof.
  intros Hre Hst Hm. apply is_empty_false in Hre.
  unfold state_isrunning. run_prims. rewrite Hre.
  rewrite (status_and_search_text _ Hst), Hm. reflexivity.
Qed.

Lemma state_isunknown_unset :
  state_unknown_re (cfg ctx) = EmptyString ->
  state_isunknown ctx s = (Ok PyNone, s).
Proof. intros E. unfold state_isunknown. run_prims. rewrite E. reflexivity. Qed.

End RegexStates.

(* ===================================================================== *)
(** ** Classification of the status text *)
(* ===================================================================== *)

Section Classification.
Import BatchSpawnerRegexStates.
Variables (ctx : Ctx) (s : St).

#[local] Abbreviation classify := (@BatchSpawnerBase.classify leaf_methods).

(** The chain of tests, read off the results of the three tests. *)
Lemma classify_eq :
  classify ctx s =
  match state_isrunning ctx s with
  | (Ok vr, s1) =>
      if truthy vr then (Ok RUNNING, s1)
      else match state_ispending ctx s1 with
           | (Ok vp, s2) =>
               if truthy vp then (Ok PENDING, s2)
               else match state_isunknown ctx s2 with
                    | (Ok vu, s3) => (Ok (if truthy vu then UNKNOWN else NOTFOUND), s3)
                    | (Raise e, s3) => (Raise e, s3)
                    | (Diverge, s3) => (Diverge, s3)
                    end
           | (Raise e, s2) => (Raise e, s2)
           | (Diverge, s2) => (Diverge, s2)
           end
  | (Raise e, s1) => (Raise e, s1)
  | (Diverge, s1) => (Diverge, s1)
  end.
Proof.
  unfold BatchSpawnerBase.classify. simpl self.state_isrunning.
  simpl self.state_ispending. simpl self.state_isunknown.
  rewrite bind_eq. destruct (state_isrunning ctx s) as [[vr | e |] s1]; try reflexivity.
  destruct (truthy vr); [reflexivity |].
  rewrite bind_eq. destruct (state_ispending ctx s1) as [[vp | e |] s2]; try reflexivity.
  destruct (truthy vp); [reflexivity |].
  rewrite bind_eq. destruct (state_isunknown ctx s2) as [[vu | e |] s3]; try reflexivity.
  destruct (truthy vu); reflexivity.
Qed.

Lemma classify_running v :
  state_isrunning ctx s = (Ok v, s) -> truthy v = true ->
  classify ctx s = (Ok RUNNING, s).
Proof. intros E T. rewrite classify_eq, E, T. reflexivity. Qed.

Lemma classify_by_precedence vr vp vu :
  state_isrunning ctx s = (Ok vr, s) ->
  state_ispending ctx s = (Ok vp, s) ->
  state_isunknown ctx s = (Ok vu, s) ->
  classify ctx s = (Ok (by_precedence (truthy vr) (truthy vp) (truthy vu)), s).
Proof.
  intros Er Ep Eu. rewrite classify_eq, Er. unfold by_precedence.
  destruct (truthy vr); [reflexivity |]. rewrite Ep.
  destruct (truthy vp); [reflexivity |]. rewrite Eu.
  destruct (truthy vu); reflexivity.
Qed.

(** The state tests leave the spawner as it is. *)
Lemma classify_pure : snd (classify ctx s) = s.
Proof.
  rewrite classify_eq.
  pose proof (state_isrunning_pure ctx s) as Hr.
  destruct (state_isrunning ctx s) as [[vr | e |] s1]; simpl in Hr; subst s1;
    try reflexivity.
  destruct (truthy vr); [reflexivity |].
  pose proof (state_ispending_pure ctx s) as Hp.
  destruct (state_ispending ctx s) as [[vp | e |] s2]; simpl in Hp; subst s2;
    try reflexivity.
  destruct (truthy vp); [reflexivity |].
  pose proof (state_isunknown_pure ctx s) as Hu.
  destruct (state_isunknown ctx s) as [[vu | e |] s3]; simpl in Hu; subst s3;
    reflexivity.
Qed.

End Classification.

(** C4 as stated fails for the empty status text: with patterns that match
    the empty text, it matches both the pending and the running pattern and
    is classified NotFound, not Running. *)
Lemma classification_of_empty_text_is_not_running :
  matches Scenario.matching_empty
          (state_pending_re (cfg Scenario.matching_empty)) EmptyString
  /\ matches Scenario.matching_empty
             (state_running_re (cfg Scenario.matching_empty)) EmptyString
  /\ job_status (Scenario.watching "209" EmptyString) = EmptyString
  /\ @BatchSpawnerBase.classify BatchSpawnerRegexStates.leaf_methods
       Scenario.matching_empty (Scenario.watching "209" EmptyString)
     = (Ok NOTFOUND, Scenario.watching "209" EmptyString)
  /\ fst (@BatchSpawnerBase.classify BatchSpawnerRegexStates.leaf_methods
            Scenario.matching_empty (Scenario.watching "209" EmptyString))
     <> Ok RUNNING.
Proof.
  split; [eexists; vm_compute; reflexivity |].
  split; [eexists; vm_compute; reflexivity |].
  split; [reflexivity |].
  split; [vm_compute; reflexivity |].
  vm_compute. discriminate.
Qed.

(** C4, amended.  Classification follows the precedence Running > Pending >
    Unknown > NotFound over the three state tests, and a non-empty status
    text that matches both the pending and the running pattern is
    classified Running. *)
Theorem classification_precedence (ctx : Ctx) (s : St) :
  (forall vr vp vu,
      BatchSpawnerRegexStates.state_isrunning ctx s = (Ok vr, s) ->
      BatchSpawnerRegexStates.state_ispending ctx s = (Ok vp, s) ->
      BatchSpawnerRegexStates.state_isunknown ctx s = (Ok vu, s) ->
      @BatchSpawnerBase.classify BatchSpawnerRegexStates.leaf_methods ctx s
      = (Ok (by_precedence (truthy vr) (truthy vp) (truthy vu)), s))
  /\ (state_running_re (cfg ctx) <> EmptyString ->
      job_status s <> EmptyString ->
      matches ctx (state_pending_re (cfg ctx)) (job_status s) ->
      matches ctx (state_running_re (cfg ctx)) (job_status s) ->
      @BatchSpawnerBase.classify BatchSpawnerRegexStates.leaf_methods ctx s
      = (Ok RUNNING, s)).
Proof.
  split.
  - intros vr vp vu. apply classify_by_precedence.
  - intros Hre Hst _ [m Hm].
    apply (classify_running ctx s (PyMatch m)); [| reflexivity].
    apply state_isrunning_matches; assumption.
Qed.

Lemma classification_precedence_witness :
  let ctx := Scenario.overlapping in
  let s := Scenario.watching "209" "RUNNING compute-0-1" in
  matches ctx (state_pending_re (cfg ctx)) (job_status s)
  /\ matches ctx (state_running_re (cfg ctx)) (job_status s)
  /\ @BatchSpawnerBase.classify BatchSpawnerRegexStates.leaf_methods ctx s
     = (Ok RUNNING, s).
Proof.
  intros ctx s.
  assert (Hp : matches ctx (state_pending_re (cfg ctx)) (job_status s))
    by (eexists; vm_compute; reflexivity).
  assert (Hr : matches ctx (state_running_re (cfg ctx)) (job_status s))
    by (eexists; vm_compute; reflexivity).
  split; [exact Hp |]. split; [exact Hr |].
  apply (proj2 (classification_precedence ctx s)); [| | exact Hp | exact Hr];
    vm_compute; discriminate.
Defined.

(** C10.  With pending and running patterns configured and an empty status
    text, the three state tests are falsy, whatever the patterns match, and
    the classification is NotFound. *)
Theorem empty_status_is_notfound (ctx : Ctx) (s : St) :
  state_pending_re (cfg ctx) <> EmptyString ->
  state_running_re (cfg ctx) <> EmptyString ->
  job_status s = EmptyString ->
  (exists v, BatchSpawnerRegexStates.state_ispending ctx s = (Ok v, s) /\ truthy v = false)
  /\ (exists v, BatchSpawnerRegexStates.state_isrunning ctx s = (Ok v, s) /\ truthy v = false)
  /\ (exists v, BatchSpawnerRegexStates.state_isunknown ctx s = (Ok v, s) /\ truthy v = false)
  /\ @BatchSpawnerBase.classify BatchSpawnerRegexStates.leaf_methods ctx s
     = (Ok NOTFOUND, s).
Proof.
  intros Hp Hr Hs.
  apply is_empty_false in Hp. apply is_empty_false in Hr.
  assert (Ep : BatchSpawnerRegexStates.state_ispending ctx s = (Ok (PyStr EmptyString), s)).
  { unfold BatchSpawnerRegexStates.state_ispending. run_prims. rewrite Hp.
    apply status_and_search_empty, Hs. }
  assert (Er : BatchSpawnerRegexStates.state_isrunning ctx s = (Ok (PyStr EmptyString), s)).
  { unfold BatchSpawnerRegexStates.state_isrunning. run_prims. rewrite Hr.
    apply status_and_search_empty, Hs. }
  assert (Eu : exists v, BatchSpawnerRegexStates.state_isunknown ctx s = (Ok v, s)
                         /\ truthy v = false).
  { unfold BatchSpawnerRegexStates.state_isunknown. run_prims.
    destruct (PyStr.is_empty (state_unknown_re (cfg ctx))); simpl.
    - exists PyNone. split; reflexivity.
    - exists (PyStr EmptyString). split; [apply status_and_search_empty, Hs | reflexivity]. }
  split; [exists (PyStr EmptyString); split; [exact Ep | reflexivity] |].
  split; [exists (PyStr EmptyString); split; [exact Er | reflexivity] |].
  split; [exact Eu |].
  destruct Eu as [vu [Eu Tu]].
  rewrite (classify_by_precedence ctx s _ _ _ Er Ep Eu), Tu. reflexivity.
Qed.

Lemma empty_status_is_notfound_witness :
  let ctx := Scenario.matching_empty in
  let s := Scenario.watching "209" EmptyString in
  matches ctx (state_pending_re (cfg ctx)) EmptyString
  /\ matches ctx (state_running_re (cfg ctx)) EmptyString
  /\ matches ctx (state_unknown_re (cfg ctx)) EmptyString
  /\ @BatchSpawnerBase.classify BatchSpawnerRegexStates.leaf_methods ctx s
     = (Ok NOTFOUND, s).
Proof.
  intros ctx s.
  split; [eexists; vm_compute; reflexivity |].
  split; [eexists; vm_compute; reflexivity |].
  split; [eexists; vm_compute; reflexivity |].
  apply (empty_status_is_notfound ctx s); [vm_compute; discriminate .. | reflexivity].
Defined.

(** C5 as stated fails: without an unknown pattern [state_isunknown] does
    not return the boolean False. *)
Lemma isunknown_unset_is_not_False :
  state_unknown_re (cfg Scenario.without_unknown) = EmptyString
  /\ fst (BatchSpawnerRegexStates.state_isunknown Scenario.without_unknown
            (Scenario.watching "209" "PENDING n/a"))
     <> Ok (PyBool false).
Proof. split; [reflexivity | vm_compute; discriminate]. Qed.

(** C5, amended.  Without an unknown pattern [state_isunknown] returns
    [None] for every status text: a falsy value that is not the boolean
    False, so the classification is never Unknown. *)
Theorem isunknown_unset_is_None (ctx : Ctx) (s : St) :
  state_unknown_re (cfg ctx) = EmptyString ->
  BatchSpawnerRegexStates.state_isunknown ctx s = (Ok PyNone, s)
  /\ truthy PyNone = false
  /\ PyNone <> PyBool false
  /\ fst (@BatchSpawnerBase.classify BatchSpawnerRegexStates.leaf_methods ctx s)
     <> Ok UNKNOWN.
Proof.
  intros Hu.
  pose proof (state_isunknown_unset ctx s Hu) as Eu.
  split; [exact Eu |]. split; [reflexivity |]. split; [discriminate |].
  rewrite classify_eq.
  pose proof (state_isrunning_pure ctx s) as Hr.
  destruct (BatchSpawnerRegexStates.state_isrunning ctx s) as [[vr | e |] s1];
    simpl in Hr; subst s1; try (simpl; discriminate).
  destruct (truthy vr); [simpl; discriminate |].
  pose proof (state_ispending_pure ctx s) as Hp.
  destruct (BatchSpawnerRegexStates.state_ispending ctx s) as [[vp | e |] s2];
    simpl in Hp; subst s2; try (simpl; discriminate).
  destruct (truthy vp); [simpl; discriminate |].
  rewrite Eu. simpl. discriminate.
Qed.

Lemma isunknown_unset_is_None_witness :
  BatchSpawnerRegexStates.state_isunknown Scenario.without_unknown
    (Scenario.watching "209" "PENDING n/a")
  = (Ok PyNone, Scenario.watching "209" "PENDING n/a").
Proof.
  apply (isunknown_unset_is_None Scenario.without_unknown
           (Scenario.watching "209" "PENDING n/a")).
  reflexivity.
Defined.

(* ===================================================================== *)
(** ** Parsing the job id *)
(* ===================================================================== *)

Section ParseJobId.
Variables (ctx : Ctx) (s : St).

(** The token that [parse_job_id] checks, in each of the two files. *)
Lemma remote_slurm_parse_eq output :
  fst (remote_slurm.parse_job_id output ctx s) =
  match remote_slurm.last_line output with
  | None => Raise (IndexError "list index out of range")
  | Some line =>
      if PyStr.int_accepts (PyStr.split_head ";" line)
      then Ok (PyStr.split_head ";" line)
      else Raise (remote_slurm.int_error (PyStr.split_head ";" line))
  end.
Proof.
  unfold remote_slurm.parse_job_id.
  destruct (remote_slurm.last_line output) as [line |]; [| reflexivity].
  destruct (PyStr.int_accepts (PyStr.split_head ";" line)); reflexivity.
Qed.

Lemma spawner_parse_eq output :
  fst (RemoteSlurmSpawner.parse_job_id output ctx s) =
  match remote_slurm.last_line output with
  | None => Raise (TypeError "can only concatenate str (not an exception) to str")
  | Some line =>
      let id := PyStr.split_head ";" (RemoteSlurmSpawner.clean_line line) in
      if PyStr.int_accepts id then Ok id
      else Raise (TypeError "can only concatenate str (not an exception) to str")
  end.
Proof.
  unfold RemoteSlurmSpawner.parse_job_id, try_except.
  destruct (remote_slurm.last_line output) as [line |]; [| reflexivity].
  cbv zeta. rewrite bind_eq. unfold log at 1, modify at 1.
  destruct (PyStr.int_accepts (PyStr.split_head ";" (RemoteSlurmSpawner.clean_line line)));
    reflexivity.
Qed.

End ParseJobId.

(** What the parsers return does not depend on the state of the spawner. *)
Lemma remote_slurm_parse_any ctx s s0 output :
  fst (remote_slurm.parse_job_id output ctx s) = fst (remote_slurm.parse_job_id output ctx s0).
Proof. rewrite !remote_slurm_parse_eq. reflexivity. Qed.

Lemma spawner_parse_any ctx s s0 output :
  fst (RemoteSlurmSpawner.parse_job_id output ctx s)
  = fst (RemoteSlurmSpawner.parse_job_id output ctx s0).
Proof. rewrite !spawner_parse_eq. reflexivity. Qed.

Section SubmitStores.

Lemma remote_slurm_parse_accepts output ctx s id s' :
  remote_slurm.parse_job_id output ctx s = (Ok id, s') -> PyStr.int_accepts id = true.
Proof.
  intros E. pose proof (remote_slurm_parse_eq ctx s output) as F. rewrite E in F.
  simpl in F. destruct (remote_slurm.last_line output) as [line |]; [| discriminate].
  destruct (PyStr.int_accepts (PyStr.split_head ";" line)) eqn:Ea; [| discriminate].
  injection F as ->. exact Ea.
Qed.

Lemma spawner_parse_accepts output ctx s id s' :
  RemoteSlurmSpawner.parse_job_id output ctx s = (Ok id, s') -> PyStr.int_accepts id = true.
Proof.
  intros E. pose proof (spawner_parse_eq ctx s output) as F. rewrite E in F.
  simpl in F. destruct (remote_slurm.last_line output) as [line |]; [| discriminate].
  destruct (PyStr.int_accepts (PyStr.split_head ";" (RemoteSlurmSpawner.clean_line line)))
    eqn:Ea; [| discriminate].
  injection F as ->. exact Ea.
Qed.

(** The [try] block that ends both [submit_batch_script]: the job id is
    what the parser returned, and the empty text when the parser raised. *)
Lemma store_parsed (parse : string -> M string) msg1 msg2 out ctx s a s' :
  try_except
    (log INFO msg1;; id ← parse out; modify (set_job_id id))
    (fun _ => log ERROR msg2;; modify (set_job_id EmptyString)) ctx s = (Ok a, s') ->
  job_id s' = match fst (parse out ctx (emit (EvLog INFO msg1) s)) with
              | Ok id => id
              | _ => EmptyString
              end.
Proof.
  unfold try_except. rewrite bind_eq. unfold log at 1, modify at 1.
  rewrite bind_eq.
  destruct (parse out ctx (emit (EvLog INFO msg1) s)) as [[id | e |] s1] eqn:Ep.
  - run_prims. intros E. injection E as _ <-. reflexivity.
  - run_prims. intros E. injection E as _ <-. reflexivity.
  - discriminate.
Qed.

(** When the local [submit_batch_script] returns, it returns [None], the
    submit command has given an output, and the job id is what
    [parse_job_id] makes of that output. *)
Lemma local_submit_inv ctx s r s2 :
  @BatchSpawnerBase.submit_batch_script remote_slurm.leaf_methods ctx s = (Ok r, s2) ->
  r = PyNone
  /\ exists line script sa sb out,
      BatchSpawnerBase.run_command line (Some script) ctx sa = (Ok out, sb)
      /\ forall s0,
          job_id s2 = match fst (remote_slurm.parse_job_id out ctx s0) with
                      | Ok id => id
                      | _ => EmptyString
                      end.
Proof.
  intros E. unfold BatchSpawnerBase.submit_batch_script in E.
  apply bind_Ok_inv in E as (c0 & ? & _ & E).
  apply bind_Ok_inv in E as (subvars & ? & _ & E).
  apply bind_Ok_inv in E as (line & ? & _ & E).
  apply bind_Ok_inv in E as (inner & ? & _ & E).
  apply bind_Ok_inv in E as (script & ? & _ & E).
  do 2 (apply bind_Ok_inv in E as (? & ? & _ & E)).
  apply bind_Ok_inv in E as (out & sb & Erun & E).
  apply bind_Ok_inv in E as (? & s3 & Et & E).
  injection E as <- <-. split; [reflexivity |].
  exists line, script. do 2 eexists. exists out. split; [exact Erun |].
  intros s0. apply store_parsed in Et. rewrite Et.
  change (@self.parse_job_id remote_slurm.leaf_methods) with remote_slurm.parse_job_id.
  rewrite (remote_slurm_parse_any _ _ s0). reflexivity.
Qed.

(** The same for the remote [submit_batch_script], which returns the job
    id and whose output is that of the ssh session. *)
Lemma remote_submit_inv ctx s r s2 :
  RemoteSlurmSpawner.submit_batch_script ctx s = (Ok r, s2) ->
  r = PyStr (job_id s2)
  /\ exists subvars between line sa sb out err,
      RemoteSlurmSpawner.ssh_session subvars between line ctx sa = (Ok (out, err), sb)
      /\ forall s0,
          job_id s2 = match fst (RemoteSlurmSpawner.parse_job_id out ctx s0) with
                      | Ok id => id
                      | _ => EmptyString
                      end.
Proof.
  intros E. unfold RemoteSlurmSpawner.submit_batch_script in E.
  do 7 (apply bind_Ok_inv in E as (? & ? & _ & E)).
  apply bind_Ok_inv in E as ([out err] & sb & Essh & E).
  do 4 (apply bind_Ok_inv in E as (? & ? & _ & E)).
  apply bind_Ok_inv in E as (? & s3 & Et & E).
  revert E. run_prims. intros E. injection E as <- <-. split; [reflexivity |].
  do 4 eexists. exists sb, out, err. split; [exact Essh |].
  intros s0. apply store_parsed in Et. rewrite Et.
  rewrite (spawner_parse_any _ _ s0). reflexivity.
Qed.

End SubmitStores.

(** [get_req_subvars] reads the configuration alone. *)
Lemma get_req_subvars_state ctx s s0 :
  BatchSpawnerBase.get_req_subvars ctx s = (fst (BatchSpawnerBase.get_req_subvars ctx s0), s).
Proof.
  unfold BatchSpawnerBase.get_req_subvars. run_prims.
  destruct (req (cfg ctx) !! "keepvars_extra") as [extra |]; [| reflexivity].
  destruct (PyStr.is_empty extra); [reflexivity |].
  destruct (req (cfg ctx) !! "keepvars"); reflexivity.
Qed.

Lemma reset_endpoint_ok ctx s :
  BatchSpawnerBase.reset_endpoint ctx s = (Ok tt, snd (BatchSpawnerBase.reset_endpoint ctx s)).
Proof.
  unfold BatchSpawnerBase.reset_endpoint. run_prims.
  destruct (_ && _)%bool; reflexivity.
Qed.

(** When [submit_batch_script] leaves the job id empty, [start] fails with
    the submission error. *)
Lemma start_without_job_id `{self.Spawner} fuel ctx s s1 v s2 :
  BatchSpawnerBase.reset_endpoint ctx s = (Ok tt, s1) ->
  self.submit_batch_script ctx s1 = (Ok v, s2) ->
  job_id s2 = EmptyString ->
  BatchSpawnerBase.start fuel ctx s
  = (Raise (RuntimeError BatchSpawnerBase.submission_failure_msg), s2).
Proof.
  intros Er Es Ej. unfold BatchSpawnerBase.start.
  rewrite (bind_Ok _ _ _ _ _ _ Er), (bind_Ok _ _ _ _ _ _ Es).
  run_prims. rewrite Ej. reflexivity.
Qed.

Lemma remote_start_without_job_id fuel ctx s s1 v s2 :
  BatchSpawnerBase.reset_endpoint ctx s = (Ok tt, s1) ->
  RemoteSlurmSpawner.submit_batch_script ctx s1 = (Ok v, s2) ->
  job_id s2 = EmptyString ->
  RemoteSlurmSpawner.start fuel ctx s
  = (Raise (RuntimeError BatchSpawnerBase.submission_failure_msg), s2).
Proof.
  intros Er Es Ej. unfold RemoteSlurmSpawner.start.
  rewrite (bind_Ok _ _ _ _ _ _ Er), (bind_Ok _ _ _ _ _ _ Es).
  assert (Hsub : exists subvars, BatchSpawnerBase.get_req_subvars ctx s2 = (Ok subvars, s2)).
  { unfold RemoteSlurmSpawner.submit_batch_script in Es.
    change ((ask ≫= ?k) ctx s1) with (k ctx ctx s1) in Es. cbv beta in Es.
    apply bind_Ok_inv in Es as (subvars & sa & Eg & _).
    exists subvars. rewrite (get_req_subvars_state ctx s2 s1), Eg. reflexivity. }
  destruct Hsub as (subvars & Hsub). rewrite (bind_Ok _ _ _ _ _ _ Hsub).
  run_prims. rewrite Ej. reflexivity.
Qed.

(** C3 as stated fails: the sentence that [sbatch] prints without
    [--parsable] is not mapped to 209; both parsers raise. *)
Lemma parse_job_id_rejects_sentence :
  fst (remote_slurm.parse_job_id ("Submitted batch job 209" +:+ PyStr.nl)
         Scenario.verbose_sbatch Scenario.idle)
  = Raise (remote_slurm.invalid_literal "Submitted batch job 209")
  /\ fst (RemoteSlurmSpawner.parse_job_id ("Submitted batch job 209" +:+ PyStr.nl)
            Scenario.verbose_sbatch Scenario.idle)
     = Raise (TypeError "can only concatenate str (not an exception) to str").
Proof. split; vm_compute; reflexivity. Qed.

(** C3, amended.  [parse_job_id] keeps the last line of the submit output
    (after the removal of newline artifacts, quotes and the letter b in
    [remote_slurm_spawner.py]), takes what precedes the first semicolon and
    returns it exactly when [int] accepts it; otherwise it raises.  So the
    output of [sbatch --parsable], 209 and a newline, gives 209, also with a
    cluster name after a semicolon, after lines of banner and, in
    [remote_slurm_spawner.py], inside the text of a bytes literal.  When
    [submit_batch_script] returns, the job id is the token that the parser
    returned for the output of the submit command, and it is empty when the
    parser raised, whatever the job id was before; [start] then fails with
    the submission error.  The sentence Submitted batch job 209 is such an
    output. *)
Theorem parse_job_id_checks_token (ctx : Ctx) (s : St) :
  let parse1 output := fst (remote_slurm.parse_job_id output ctx s) in
  let parse2 output := fst (RemoteSlurmSpawner.parse_job_id output ctx s) in
  let stored (r : Res string) := match r with Ok id => id | _ => EmptyString end in
  let failure := RuntimeError BatchSpawnerBase.submission_failure_msg in
  parse1 ("209" +:+ PyStr.nl) = Ok "209"
  /\ parse2 ("209" +:+ PyStr.nl) = Ok "209"
  /\ parse1 ("209;cluster" +:+ PyStr.nl) = Ok "209"
  /\ parse1 ("sbatch: a line of banner" +:+ PyStr.nl +:+ "209" +:+ PyStr.nl) = Ok "209"
  /\ parse2 "b'209\n'" = Ok "209"
  /\ (forall output id, parse1 output = Ok id <->
        exists line, remote_slurm.last_line output = Some line
                     /\ id = PyStr.split_head ";" line
                     /\ PyStr.int_accepts id = true)
  /\ (forall output id, parse2 output = Ok id <->
        exists line, remote_slurm.last_line output = Some line
                     /\ id = PyStr.split_head ";" (RemoteSlurmSpawner.clean_line line)
                     /\ PyStr.int_accepts id = true)
  /\ (forall output,
        (forall line, remote_slurm.last_line output = Some line ->
                      PyStr.int_accepts (PyStr.split_head ";" line) = false) ->
        exists e, parse1 output = Raise e)
  /\ (forall output,
        (forall line, remote_slurm.last_line output = Some line ->
                      PyStr.int_accepts
                        (PyStr.split_head ";" (RemoteSlurmSpawner.clean_line line)) = false) ->
        exists e, parse2 output = Raise e)
  /\ (forall fuel s0 r s2,
        @BatchSpawnerBase.submit_batch_script remote_slurm.leaf_methods ctx
          (snd (BatchSpawnerBase.reset_endpoint ctx s0)) = (Ok r, s2) ->
        exists line script sa sb out,
          BatchSpawnerBase.run_command line (Some script) ctx sa = (Ok out, sb)
          /\ job_id s2 = stored (parse1 out)
          /\ ((exists e, parse1 out = Raise e) ->
              job_id s2 = EmptyString
              /\ @BatchSpawnerBase.start remote_slurm.methods fuel ctx s0
                 = (Raise failure, s2)))
  /\ (forall fuel s0 r s2,
        RemoteSlurmSpawner.submit_batch_script ctx
          (snd (BatchSpawnerBase.reset_endpoint ctx s0)) = (Ok r, s2) ->
        exists subvars between line sa sb out err,
          RemoteSlurmSpawner.ssh_session subvars between line ctx sa = (Ok (out, err), sb)
          /\ job_id s2 = stored (parse2 out)
          /\ ((exists e, parse2 out = Raise e) ->
              job_id s2 = EmptyString
              /\ RemoteSlurmSpawner.start fuel ctx s0 = (Raise failure, s2)))
  /\ (let stale := Scenario.watching "7" "RUNNING compute-0-1" in
      fst (@BatchSpawnerBase.start remote_slurm.methods 5 Scenario.verbose_sbatch stale)
      = Raise failure
      /\ job_id (snd (@BatchSpawnerBase.start remote_slurm.methods 5
                        Scenario.verbose_sbatch stale)) = EmptyString
      /\ fst (RemoteSlurmSpawner.start 5 Scenario.verbose_remote_sbatch stale)
         = Raise failure
      /\ job_id (snd (RemoteSlurmSpawner.start 5 Scenario.verbose_remote_sbatch stale))
         = EmptyString).
Proof.
  cbv zeta.
  do 5 (split; [rewrite ?remote_slurm_parse_eq, ?spawner_parse_eq; reflexivity |]).
  split; [| split; [| split; [| split; [| split; [| split]]]]].
  - intros output id. rewrite remote_slurm_parse_eq. split.
    + destruct (remote_slurm.last_line output) as [line |]; [| discriminate].
      destruct (PyStr.int_accepts (PyStr.split_head ";" line)) eqn:E; [| discriminate].
      intros [= <-]. exists line. auto.
    + intros (line & -> & -> & Ha). rewrite Ha. reflexivity.
  - intros output id. rewrite spawner_parse_eq. split.
    + destruct (remote_slurm.last_line output) as [line |]; [| discriminate].
      cbv zeta.
      destruct (PyStr.int_accepts (PyStr.split_head ";" (RemoteSlurmSpawner.clean_line line)))
        eqn:E; [| discriminate].
      intros [= <-]. exists line. auto.
    + intros (line & -> & -> & Ha). cbv zeta. rewrite Ha. reflexivity.
  - intros output Hno. rewrite remote_slurm_parse_eq.
    destruct (remote_slurm.last_line output) as [line |]; [| eauto].
    rewrite (Hno line eq_refl). eauto.
  - intros output Hno. rewrite spawner_parse_eq.
    destruct (remote_slurm.last_line output) as [line |]; [| eauto].
    cbv zeta. rewrite (Hno line eq_refl). eauto.
  - intros fuel s0 r s2 Hsub.
    destruct (local_submit_inv _ _ _ _ Hsub) as (_ & line & script & sa & sb & out & Hrun & Hid).
    exists line, script, sa, sb, out. split; [exact Hrun |].
    split; [apply Hid |].
    intros [e He].
    assert (Hempty : job_id s2 = EmptyString) by (rewrite (Hid s), He; reflexivity).
    split; [exact Hempty |].
    exact (@start_without_job_id remote_slurm.methods fuel ctx s0 _ r s2
             (reset_endpoint_ok ctx s0) Hsub Hempty).
  - intros fuel s0 r s2 Hsub.
    destruct (remote_submit_inv _ _ _ _ Hsub)
      as (_ & subvars & between & line & sa & sb & out & err & Hssh & Hid).
    exists subvars, between, line, sa, sb, out, err. split; [exact Hssh |].
    split; [apply Hid |].
    intros [e He].
    assert (Hempty : job_id s2 = EmptyString) by (rewrite (Hid s), He; reflexivity).
    split; [exact Hempty |].
    exact (remote_start_without_job_id fuel ctx s0 _ r s2
             (reset_endpoint_ok ctx s0) Hsub Hempty).
  - repeat split; vm_compute; reflexivity.
Qed.

Lemma parse_job_id_checks_token_witness :
  exists e, fst (RemoteSlurmSpawner.parse_job_id "b'Submitted batch job 209\n'"
                   Scenario.verbose_sbatch Scenario.idle) = Raise e.
Proof.
  apply (parse_job_id_checks_token Scenario.verbose_sbatch Scenario.idle).
  intros line E. vm_compute in E. injection E as <-. vm_compute. reflexivity.
Defined.

(* ===================================================================== *)
(** ** Computations that do not read [ip] and [port] *)
(* ===================================================================== *)

Section Blind.

Lemma agree_refl s : agree s s.
Proof. repeat split. Qed.

Lemma blind_ret {A} (a : A) : blind (mret a).
Proof. intros ctx s1 s2 Hag. split; [reflexivity | exact Hag]. Qed.

Lemma blind_raise {A} e : blind (@raise A e).
Proof. intros ctx s1 s2 Hag. split; [reflexivity | exact Hag]. Qed.

Lemma blind_lift {A} (r : Res A) : blind (lift r).
Proof. intros ctx s1 s2 Hag. split; [reflexivity | exact Hag]. Qed.

Lemma blind_bind {A B} (c : M A) (k : A -> M B) :
  blind c -> (forall a, blind (k a)) -> blind (c ≫= k).
Proof.
  intros Hc Hk ctx s1 s2 Hag. rewrite !bind_eq.
  destruct (Hc ctx s1 s2 Hag) as [Hr Hs].
  destruct (c ctx s1) as [r1 t1], (c ctx s2) as [r2 t2]. simpl in Hr, Hs. subst r2.
  destruct r1 as [a | e |]; [apply Hk; exact Hs | split; [reflexivity | exact Hs] ..].
Qed.

(** Reading the state is harmless when what is done next only looks at
    the fields that agree. *)
Lemma blind_get {B} (k : St -> M B) :
  (forall s1 s2, agree s1 s2 -> k s1 = k s2) ->
  (forall s, blind (k s)) ->
  blind (get ≫= k).
Proof.
  intros Hk Hb ctx s1 s2 Hag.
  change ((get ≫= k) ctx s1) with (k s1 ctx s1).
  change ((get ≫= k) ctx s2) with (k s2 ctx s2).
  rewrite (Hk s1 s2 Hag). apply Hb, Hag.
Qed.

Lemma blind_ask {B} (k : Ctx -> M B) :
  (forall ctx, blind (k ctx)) -> blind (ask ≫= k).
Proof. intros Hb ctx s1 s2 Hag. apply (Hb ctx ctx s1 s2 Hag). Qed.

Lemma blind_modify (f : St -> St) :
  (forall s1 s2, agree s1 s2 -> agree (f s1) (f s2)) -> blind (modify f).
Proof. intros Hf ctx s1 s2 Hag. split; [reflexivity | apply Hf, Hag]. Qed.

Lemma blind_try_except {A} (c : M A) (h : exn -> M A) :
  blind c -> (forall e, blind (h e)) -> blind (try_except c h).
Proof.
  intros Hc Hh ctx s1 s2 Hag. unfold try_except.
  destruct (Hc ctx s1 s2 Hag) as [Hr Hs].
  destruct (c ctx s1) as [r1 t1], (c ctx s2) as [r2 t2]. simpl in Hr, Hs. subst r2.
  destruct r1 as [a | e |]; [split; [reflexivity | exact Hs] | apply Hh, Hs
                            | split; [reflexivity | exact Hs]].
Qed.

Lemma agree_emit e s1 s2 : agree s1 s2 -> agree (emit e s1) (emit e s2).
Proof. intros (? & ? & ? & Ht). repeat split; simpl; congruence. Qed.

Lemma agree_set_job_id v s1 s2 : agree s1 s2 -> agree (set_job_id v s1) (set_job_id v s2).
Proof. intros (? & ? & ? & ?). repeat split; simpl; congruence. Qed.

Lemma agree_set_job_status v s1 s2 :
  agree s1 s2 -> agree (set_job_status v s1) (set_job_status v s2).
Proof. intros (? & ? & ? & ?). repeat split; simpl; congruence. Qed.

Lemma agree_set_port p q s1 s2 : agree s1 s2 -> agree (set_port p s1) (set_port q s2).
Proof. intros (? & ? & ? & ?). repeat split; simpl; congruence. Qed.

Lemma agree_set_ip p q s1 s2 : agree s1 s2 -> agree (set_ip p s1) (set_ip q s2).
Proof. intros (? & ? & ? & ?). repeat split; simpl; congruence. Qed.

Lemma agree_set_tick n s1 s2 : agree s1 s2 -> agree (set_tick n s1) (set_tick n s2).
Proof. intros (? & ? & ? & ?). repeat split; simpl; congruence. Qed.

Lemma blind_log l msg : blind (log l msg).
Proof. apply blind_modify. intros. apply agree_emit. assumption. Qed.

Lemma blind_suspend : blind suspend.
Proof.
  intros ctx s1 s2 Hag. unfold suspend. simpl.
  split; [reflexivity |].
  destruct Hag as (Hi & Hs & Ht & Hr). rewrite Ht.
  apply agree_set_tick.
  destruct (hub_port (world ctx) (tick s2));
    [apply agree_set_port |]; repeat split; assumption.
Qed.

End Blind.

Create HintDb blind.
#[export] Hint Resolve blind_ret blind_raise blind_lift blind_log blind_suspend
  agree_emit agree_set_job_id agree_set_job_status agree_set_tick : blind.

(** One step of a proof of blindness: split a bind, open a test. *)
Ltac blind_step :=
  lazymatch goal with
  | |- blind (ask ≫= _) => apply blind_ask; intros ?
  | |- blind (get ≫= _) =>
      apply blind_get;
      [ let H1 := fresh in let H2 := fresh in let H3 := fresh in let H4 := fresh in
        intros ? ? (H1 & H2 & H3 & H4); cbv beta;
        rewrite ?H1, ?H2, ?H3, ?H4; reflexivity
      | intros ? ]
  | |- blind (_ ≫= _) => apply blind_bind; [| intros ?]
  | |- blind (try_except _ _) => apply blind_try_except; [| intros ?]
  | |- blind (modify _) => apply blind_modify; intros ? ? ?; auto with blind
  | |- blind (if ?b then _ else _) => destruct b
  | |- blind (match ?x with _ => _ end) => destruct x
  | |- blind _ => solve [auto with blind]
  end.

Section BlindMethods.

Lemma blind_format_template t v : blind (format_template t v).
Proof. unfold format_template. repeat blind_step. Qed.

Lemma blind_get_req_subvars : blind BatchSpawnerBase.get_req_subvars.
Proof. unfold BatchSpawnerBase.get_req_subvars. repeat blind_step. Qed.

Lemma blind_prefixed_cmd t v : blind (BatchSpawnerBase.prefixed_cmd t v).
Proof.
  unfold BatchSpawnerBase.prefixed_cmd.
  blind_step. blind_step; [apply blind_format_template |].
  blind_step; [apply blind_format_template |]. blind_step.
Qed.

Lemma blind_run_command line input : blind (BatchSpawnerBase.run_command line input).
Proof. unfold BatchSpawnerBase.run_command. repeat blind_step. Qed.

Lemma blind_status_and_search pattern :
  blind (BatchSpawnerRegexStates.status_and_search pattern).
Proof. unfold BatchSpawnerRegexStates.status_and_search. repeat blind_step. Qed.

Lemma blind_clear_state : blind BatchSpawnerBase.clear_state.
Proof. unfold BatchSpawnerBase.clear_state. repeat blind_step. Qed.

End BlindMethods.

Section BlindQueries.

Lemma blind_classify `{self.LeafMethods} :
  blind self.state_isrunning -> blind self.state_ispending ->
  blind self.state_isunknown -> blind BatchSpawnerBase.classify.
Proof.
  intros Hr Hp Hu. unfold BatchSpawnerBase.classify.
  blind_step; [exact Hr |]. blind_step; [blind_step |].
  blind_step; [exact Hp |]. blind_step; [blind_step |].
  blind_step; [exact Hu |]. repeat blind_step.
Qed.

Lemma blind_base_query `{self.LeafMethods} :
  blind self.state_isrunning -> blind self.state_ispending ->
  blind self.state_isunknown -> blind BatchSpawnerBase.query_job_status.
Proof.
  intros Hr Hp Hu. unfold BatchSpawnerBase.query_job_status.
  blind_step. blind_step; [repeat blind_step |].
  blind_step. blind_step; [apply blind_get_req_subvars |].
  blind_step; [apply blind_prefixed_cmd |].
  blind_step; [blind_step |].
  blind_step; [| apply blind_classify; assumption].
  blind_step.
  - blind_step; [apply blind_run_command | blind_step].
  - repeat blind_step.
Qed.

Lemma blind_regex_tests :
  blind BatchSpawnerRegexStates.state_isrunning
  /\ blind BatchSpawnerRegexStates.state_ispending
  /\ blind BatchSpawnerRegexStates.state_isunknown.
Proof.
  unfold BatchSpawnerRegexStates.state_isrunning,
    BatchSpawnerRegexStates.state_ispending, BatchSpawnerRegexStates.state_isunknown.
  split; [| split]; blind_step; blind_step;
    first [apply blind_status_and_search | blind_step].
Qed.

Lemma blind_ssh_session subvars between line :
  blind between -> blind (RemoteSlurmSpawner.ssh_session subvars between line).
Proof.
  intros Hb. unfold RemoteSlurmSpawner.ssh_session.
  blind_step. blind_step.
  blind_step.
  { unfold RemoteSlurmSpawner.ssh_credentials, RemoteSlurmSpawner.subvar.
    repeat blind_step. }
  blind_step; [blind_step |]. blind_step; [blind_step |].
  blind_step; [blind_step; [exact Hb | blind_step] | blind_step
              | blind_step; [exact Hb | blind_step]].
Qed.

Lemma blind_remote_query : blind RemoteSlurmSpawner.query_job_status.
Proof.
  destruct blind_regex_tests as (Hr & Hp & Hu).
  unfold RemoteSlurmSpawner.query_job_status.
  blind_step. blind_step; [repeat blind_step |].
  blind_step. blind_step; [apply blind_get_req_subvars |].
  blind_step; [apply blind_prefixed_cmd |].
  blind_step; [blind_step |].
  blind_step; [| apply (@blind_classify RemoteSlurmSpawner.leaf_methods); assumption].
  blind_step.
  - blind_step; [apply blind_ssh_session; blind_step |].
    repeat blind_step.
  - repeat blind_step.
Qed.

Lemma blind_poll `{self.Spawner} :
  blind self.query_job_status -> blind BatchSpawnerBase.poll.
Proof.
  intros Hq. unfold BatchSpawnerBase.poll.
  blind_step; [exact Hq |].
  destruct a; repeat blind_step. apply blind_clear_state.
Qed.

End BlindQueries.

(* ===================================================================== *)
(** ** Saving and loading the state *)
(* ===================================================================== *)

Section SavedState.
Variable s : St.

Lemma get_state_job_id :
  BatchSpawnerBase.get_state s !! "job_id"
  = if PyStr.is_empty (job_id s) then None else Some (job_id s).
Proof.
  unfold BatchSpawnerBase.get_state.
  destruct (PyStr.is_empty (job_id s)), (PyStr.is_empty (job_status s)); simpl;
    by simplify_map_eq.
Qed.

Lemma get_state_job_status :
  BatchSpawnerBase.get_state s !! "job_status"
  = if PyStr.is_empty (job_status s) then None else Some (job_status s).
Proof.
  unfold BatchSpawnerBase.get_state.
  destruct (PyStr.is_empty (job_id s)), (PyStr.is_empty (job_status s)); simpl;
    by simplify_map_eq.
Qed.

Lemma get_state_other key :
  key <> "job_id" -> key <> "job_status" ->
  BatchSpawnerBase.get_state s !! key = None.
Proof.
  intros H1 H2. unfold BatchSpawnerBase.get_state.
  destruct (PyStr.is_empty (job_id s)), (PyStr.is_empty (job_status s)); simpl;
    by simplify_map_eq.
Qed.

Lemma default_saved (v : string) :
  default EmptyString (if PyStr.is_empty v then None else Some v) = v.
Proof. destruct v; reflexivity. Qed.

End SavedState.

(** C9.  [get_state] saves the job id and the status text and nothing else
    (an empty text is left out and read back as empty), [load_state] sets
    these two fields and no other, and a new spawner that loads the saved
    state polls as the original does: same result, same commands, same job
    id and status text afterwards. *)
Theorem saved_state_round_trip (ctx : Ctx) (s : St) :
  let state := BatchSpawnerBase.get_state s in
  let loaded := snd (BatchSpawnerBase.load_state state ctx (fresh_at (cfg ctx) s)) in
  (forall key,
      state !! key =
      if String.eqb key "job_id"
      then (if PyStr.is_empty (job_id s) then None else Some (job_id s))
      else if String.eqb key "job_status"
           then (if PyStr.is_empty (job_status s) then None else Some (job_status s))
           else None)
  /\ (forall (saved : gmap string string) (f : St),
         BatchSpawnerBase.load_state saved ctx f
         = (Ok tt, set_job_status (default EmptyString (saved !! "job_status"))
                     (set_job_id (default EmptyString (saved !! "job_id")) f)))
  /\ job_id loaded = job_id s
  /\ job_status loaded = job_status s
  /\ ip loaded = ip_default (cfg ctx)
  /\ port loaded = port_default (cfg ctx)
  /\ (fst (@BatchSpawnerBase.poll BatchSpawnerRegexStates.methods ctx loaded)
      = fst (@BatchSpawnerBase.poll BatchSpawnerRegexStates.methods ctx s)
      /\ agree (snd (@BatchSpawnerBase.poll BatchSpawnerRegexStates.methods ctx loaded))
               (snd (@BatchSpawnerBase.poll BatchSpawnerRegexStates.methods ctx s)))
  /\ (fst (@BatchSpawnerBase.poll RemoteSlurmSpawner.methods ctx loaded)
      = fst (@BatchSpawnerBase.poll RemoteSlurmSpawner.methods ctx s)
      /\ agree (snd (@BatchSpawnerBase.poll RemoteSlurmSpawner.methods ctx loaded))
               (snd (@BatchSpawnerBase.poll RemoteSlurmSpawner.methods ctx s))).
Proof.
  cbv zeta.
  assert (Hload : forall (saved : gmap string string) (f : St),
             BatchSpawnerBase.load_state saved ctx f
             = (Ok tt, set_job_status (default EmptyString (saved !! "job_status"))
                         (set_job_id (default EmptyString (saved !! "job_id")) f)))
    by reflexivity.
  assert (Hag : agree (snd (BatchSpawnerBase.load_state (BatchSpawnerBase.get_state s) ctx
                              (fresh_at (cfg ctx) s))) s).
  { rewrite Hload, get_state_job_id, get_state_job_status, !default_saved.
    repeat split. }
  split.
  { intros key. destruct (String.eqb_spec key "job_id") as [-> | Hid].
    - apply get_state_job_id.
    - destruct (String.eqb_spec key "job_status") as [-> | Hst].
      + apply get_state_job_status.
      + apply get_state_other; assumption. }
  split; [exact Hload |].
  destruct Hag as (Hid & Hst & Htick & Htrace) eqn:Eag.
  split; [exact Hid |]. split; [exact Hst |].
  split; [rewrite Hload; reflexivity |]. split; [rewrite Hload; reflexivity |].
  destruct blind_regex_tests as (Hr & Hp & Hu).
  split.
  - apply (@blind_poll BatchSpawnerRegexStates.methods);
      [apply (@blind_base_query BatchSpawnerRegexStates.leaf_methods); assumption |].
    repeat split; assumption.
  - apply (@blind_poll RemoteSlurmSpawner.methods); [apply blind_remote_query |].
    repeat split; assumption.
Qed.

(* ===================================================================== *)
(** ** The polling loop of [start] *)
(* ===================================================================== *)

Section StartLoop.
Context `{self.Spawner}.
Variable ctx : Ctx.

(** One turn of the loop, by the outcome of its query. *)
Lemma wait_until_running_turn fuel s :
  BatchSpawnerBase.wait_until_running (S fuel) ctx s =
  match self.query_job_status ctx s with
  | (Ok RUNNING, s1) => (Ok tt, s1)
  | (Ok PENDING, s1) =>
      BatchSpawnerBase.wait_until_running fuel ctx (after_startup_wait ctx PENDING s1)
  | (Ok UNKNOWN, s1) =>
      BatchSpawnerBase.wait_until_running fuel ctx (after_startup_wait ctx UNKNOWN s1)
  | (Ok NOTFOUND, s1) => (Raise (RuntimeError BatchSpawnerBase.disappeared_msg), given_up s1)
  | (Raise e, s1) => (Raise e, s1)
  | (Diverge, s1) => (Diverge, s1)
  end.
Proof.
  simpl BatchSpawnerBase.wait_until_running. rewrite bind_eq.
  destruct (self.query_job_status ctx s) as [[[] | e |] s1]; reflexivity.
Qed.

Lemma wait_until_running_gives_up k :
  forall s s' s1 fuel,
    start_waits ctx k s s' ->
    self.query_job_status ctx s' = (Ok NOTFOUND, s1) ->
    (k < fuel)%nat ->
    BatchSpawnerBase.wait_until_running fuel ctx s
    = (Raise (RuntimeError BatchSpawnerBase.disappeared_msg), given_up s1).
Proof.
  induction k as [| k IH]; intros s s' s1 fuel Hw Hq Hf.
  - inversion Hw; subst. destruct fuel as [| fuel]; [lia |].
    rewrite wait_until_running_turn, Hq. reflexivity.
  - inversion Hw as [| k' s0 status s2 s'' Hq1 Hst Hrest]; subst.
    destruct fuel as [| fuel]; [lia |].
    rewrite wait_until_running_turn, Hq1.
    destruct Hst as [-> | ->]; apply (IH _ _ _ _ Hrest Hq); lia.
Qed.

Lemma given_up_cleared s : job_id (given_up s) = EmptyString
                           /\ job_status (given_up s) = EmptyString.
Proof. split; reflexivity. Qed.

End StartLoop.

(** C1.  In the polling loop of [start], a query classified as neither
    Pending nor Running nor Unknown makes the spawner log a warning, clear
    the job id and the status text, and fail with the error that the job has
    disappeared or died at once; this holds at the first query and after any
    number of pending or unknown ones. *)
Theorem start_fails_when_job_not_found `{self.Spawner}
        (ctx : Ctx) (s0 s s' s1 : St) (v : pyval) (k fuel : nat) :
  self.submit_batch_script ctx (snd (BatchSpawnerBase.reset_endpoint ctx s0)) = (Ok v, s) ->
  job_id s <> EmptyString ->
  start_waits ctx k s s' ->
  self.query_job_status ctx s' = (Ok NOTFOUND, s1) ->
  (k < fuel)%nat ->
  BatchSpawnerBase.start fuel ctx s0
  = (Raise (RuntimeError BatchSpawnerBase.disappeared_msg), given_up s1)
  /\ job_id (given_up s1) = EmptyString
  /\ job_status (given_up s1) = EmptyString.
Proof.
  intros Hsub Hid Hw Hq Hf. split; [| apply given_up_cleared].
  unfold BatchSpawnerBase.start.
  assert (Hreset : BatchSpawnerBase.reset_endpoint ctx s0
                   = (Ok tt, snd (BatchSpawnerBase.reset_endpoint ctx s0))).
  { unfold BatchSpawnerBase.reset_endpoint. run_prims.
    destruct (_ && _)%bool; reflexivity. }
  rewrite (bind_Ok _ _ _ _ _ _ Hreset), (bind_Ok _ _ _ _ _ _ Hsub).
  apply is_empty_false in Hid.
  change ((get ≫= ?k) ctx s) with (k s ctx s). cbv beta. rewrite Hid.
  apply bind_Raise. eapply wait_until_running_gives_up; eassumption.
Qed.

Lemma start_fails_when_job_not_found_witness :
  fst (@BatchSpawnerBase.start remote_slurm.methods 5 Scenario.job_vanishes Scenario.idle)
  = Raise (RuntimeError BatchSpawnerBase.disappeared_msg)
  /\ job_id (snd (@BatchSpawnerBase.start remote_slurm.methods 5
                    Scenario.job_vanishes Scenario.idle)) = EmptyString
  /\ job_status (snd (@BatchSpawnerBase.start remote_slurm.methods 5
                        Scenario.job_vanishes Scenario.idle)) = EmptyString.
Proof.
  edestruct (@start_fails_when_job_not_found remote_slurm.methods
               Scenario.job_vanishes Scenario.idle)
    with (k := 2%nat) (fuel := 5%nat) as (E & Hid & Hst).
  - vm_compute. reflexivity.
  - vm_compute. discriminate.
  - eapply start_waits_turn; [vm_compute; reflexivity | left; reflexivity |].
    eapply start_waits_turn; [vm_compute; reflexivity | left; reflexivity |].
    apply start_waits_done.
  - vm_compute. reflexivity.
  - lia.
  - rewrite E. split; [reflexivity |]. split; [exact Hid | exact Hst].
Defined.

(* ===================================================================== *)
(** ** The confirmation loop of [stop] *)
(* ===================================================================== *)

Section StopLoop.
Context `{self.Spawner}.
Variable ctx : Ctx.

Lemma confirm_stopped_turn n s :
  BatchSpawnerBase.confirm_stopped (S n) ctx s =
  match self.query_job_status ctx s with
  | (Ok RUNNING, s1) | (Ok UNKNOWN, s1) =>
      BatchSpawnerBase.confirm_stopped n ctx (after_stop_wait ctx s1)
  | (r, s1) => (settle r, s1)
  end.
Proof.
  simpl BatchSpawnerBase.confirm_stopped. rewrite bind_eq.
  destruct (self.query_job_status ctx s) as [[[] | e |] s1]; reflexivity.
Qed.

Lemma confirm_stopped_end s :
  BatchSpawnerBase.confirm_stopped O ctx s =
  (Ok tt, if PyStr.is_empty (job_id s) then s else emit (stop_warning s) s).
Proof.
  simpl. run_prims. destruct (PyStr.is_empty (job_id s)); reflexivity.
Qed.

(** The loop makes at most [n] queries: [k] of them find the job and are
    followed by a sleep; then either the [n] turns are used up, or one
    more query ends the loop. *)
Lemma confirm_stopped_runs n :
  forall s,
  exists k s2,
    (k <= n)%nat /\ stop_polls ctx k s s2 /\
    ((k = n /\ BatchSpawnerBase.confirm_stopped n ctx s
               = BatchSpawnerBase.confirm_stopped O ctx s2)
     \/ (k < n /\ exists r s3,
            self.query_job_status ctx s2 = (r, s3) /\ ~ still_there r /\
            BatchSpawnerBase.confirm_stopped n ctx s = (settle r, s3)))%nat.
Proof.
  induction n as [| n IH]; intros s.
  - exists O, s. split; [lia |]. split; [constructor |]. left. split; reflexivity.
  - rewrite confirm_stopped_turn.
    destruct (self.query_job_status ctx s) as [r s1] eqn:Eq.
    assert (Hgo : forall status, r = Ok status -> status = RUNNING \/ status = UNKNOWN ->
               exists k s2,
                 (k <= S n)%nat /\ stop_polls ctx k s s2 /\
                 ((k = S n /\ BatchSpawnerBase.confirm_stopped n ctx (after_stop_wait ctx s1)
                              = BatchSpawnerBase.confirm_stopped O ctx s2)
                  \/ (k < S n /\ exists r' s3,
                         self.query_job_status ctx s2 = (r', s3) /\ ~ still_there r' /\
                         BatchSpawnerBase.confirm_stopped n ctx (after_stop_wait ctx s1)
                         = (settle r', s3)))%nat).
    { intros status -> Hst.
      destruct (IH (after_stop_wait ctx s1)) as (k & s2 & Hk & Hp & Hend).
      exists (S k), s2. split; [lia |].
      split; [econstructor; eassumption |].
      destruct Hend as [[-> E] | [Hlt E]]; [left | right]; (split; [lia | exact E]). }
    assert (Hstop : ~ still_there r ->
               exists k s2,
                 (k <= S n)%nat /\ stop_polls ctx k s s2 /\
                 ((k = S n /\ (settle r, s1) = BatchSpawnerBase.confirm_stopped O ctx s2)
                  \/ (k < S n /\ exists r' s3,
                         self.query_job_status ctx s2 = (r', s3) /\ ~ still_there r' /\
                         (settle r, s1) = (settle r', s3)))%nat).
    { intros Hno. exists O, s. split; [lia |]. split; [constructor |].
      right. split; [lia |]. exists r, s1. auto. }
    destruct r as [[] | e |];
      first [ apply (Hgo _ eq_refl); auto
            | apply Hstop; intros [? | ?]; discriminate ].
Qed.

Lemma confirm_stopped_exhausted n :
  forall s s2, stop_polls ctx n s s2 ->
    BatchSpawnerBase.confirm_stopped n ctx s = BatchSpawnerBase.confirm_stopped O ctx s2.
Proof.
  induction n as [| n IH]; intros s s2 Hp.
  - inversion Hp; subst. reflexivity.
  - inversion Hp as [| k s0 status s1 s' Hq Hst Hrest]; subst.
    rewrite confirm_stopped_turn, Hq.
    destruct Hst as [-> | ->]; apply IH, Hrest.
Qed.

Lemma after_stop_wait_job_id s : job_id (after_stop_wait ctx s) = job_id s.
Proof.
  unfold after_stop_wait, sleep, suspend. run_prims. simpl.
  destruct (hub_port (world ctx) (tick s)); reflexivity.
Qed.

Hypothesis Hkeeps : keeps_job_id self.query_job_status.

Lemma stop_polls_job_id k :
  forall s s2, stop_polls ctx k s s2 -> job_id s2 = job_id s.
Proof.
  induction k as [| k IH]; intros s s2 Hp.
  - inversion Hp; subst. reflexivity.
  - inversion Hp as [| k' s0 status s1 s' Hq Hst Hrest]; subst.
    rewrite (IH _ _ Hrest), after_stop_wait_job_id.
    apply (Hkeeps _ _ _ _ Hq).
Qed.

(** A query that found the job was made with a job id. *)
Lemma stop_polls_has_job k s s2 :
  stop_polls ctx (S k) s s2 -> job_id s2 <> EmptyString.
Proof.
  intros Hp. rewrite (stop_polls_job_id _ _ _ Hp).
  inversion Hp as [| k' s0 status s1 s' Hq Hst Hrest]; subst.
  intros Hempty. destruct (Hkeeps _ _ _ _ Hq) as [_ Hnf].
  specialize (Hnf Hempty). destruct Hst as [-> | ->]; discriminate.
Qed.

Lemma confirm_stopped_warns n s s2 :
  stop_polls ctx (S n) s s2 ->
  BatchSpawnerBase.confirm_stopped (S n) ctx s = (Ok tt, emit (stop_warning s2) s2).
Proof.
  intros Hp. rewrite (confirm_stopped_exhausted _ _ _ Hp), confirm_stopped_end.
  apply stop_polls_has_job, is_empty_false in Hp. rewrite Hp. reflexivity.
Qed.

End StopLoop.

(* ===================================================================== *)
(** ** Queries keep the job id *)
(* ===================================================================== *)

Section KeepsId.

Lemma keeps_ret {A} (a : A) : keeps_id (mret a).
Proof. intros ctx s. reflexivity. Qed.

Lemma keeps_raise {A} e : keeps_id (@raise A e).
Proof. intros ctx s. reflexivity. Qed.

Lemma keeps_lift {A} (r : Res A) : keeps_id (lift r).
Proof. intros ctx s. reflexivity. Qed.

Lemma keeps_bind {A B} (c : M A) (k : A -> M B) :
  keeps_id c -> (forall a, keeps_id (k a)) -> keeps_id (c ≫= k).
Proof.
  intros Hc Hk ctx s. rewrite bind_eq. specialize (Hc ctx s).
  destruct (c ctx s) as [[a | e |] s1]; simpl in *; [| assumption ..].
  rewrite Hk. exact Hc.
Qed.

Lemma keeps_get {B} (k : St -> M B) :
  (forall s, keeps_id (k s)) -> keeps_id (get ≫= k).
Proof. intros Hk ctx s. apply (Hk s ctx s). Qed.

Lemma keeps_ask {B} (k : Ctx -> M B) :
  (forall ctx, keeps_id (k ctx)) -> keeps_id (ask ≫= k).
Proof. intros Hk ctx s. apply (Hk ctx ctx s). Qed.

Lemma keeps_modify (f : St -> St) :
  (forall s, job_id (f s) = job_id s) -> keeps_id (modify f).
Proof. intros Hf ctx s. apply Hf. Qed.

Lemma keeps_try_except {A} (c : M A) (h : exn -> M A) :
  keeps_id c -> (forall e, keeps_id (h e)) -> keeps_id (try_except c h).
Proof.
  intros Hc Hh ctx s. unfold try_except. specialize (Hc ctx s).
  destruct (c ctx s) as [[a | e |] s1]; simpl in *; [assumption | | assumption].
  rewrite Hh. exact Hc.
Qed.

Lemma keeps_log l msg : keeps_id (log l msg).
Proof. intros ctx s. reflexivity. Qed.

Lemma keeps_suspend : keeps_id suspend.
Proof.
  intros ctx s. unfold suspend. simpl.
  destruct (hub_port (world ctx) (tick s)); reflexivity.
Qed.

End KeepsId.

Create HintDb keeps.
#[export] Hint Resolve keeps_ret keeps_raise keeps_lift keeps_log keeps_suspend : keeps.

Ltac keeps_step :=
  lazymatch goal with
  | |- keeps_id (ask ≫= _) => apply keeps_ask; intros ?
  | |- keeps_id (get ≫= _) => apply keeps_get; intros ?
  | |- keeps_id (_ ≫= _) => apply keeps_bind; [| intros ?]
  | |- keeps_id (try_except _ _) => apply keeps_try_except; [| intros ?]
  | |- keeps_id (modify _) => apply keeps_modify; intros ?; reflexivity
  | |- keeps_id (if ?b then _ else _) => destruct b
  | |- keeps_id (match ?x with _ => _ end) => destruct x
  | |- keeps_id _ => solve [auto with keeps]
  end.

Section KeepsIdMethods.

Lemma keeps_prefixed_cmd t v : keeps_id (BatchSpawnerBase.prefixed_cmd t v).
Proof.
  unfold BatchSpawnerBase.prefixed_cmd, format_template. repeat keeps_step.
Qed.

Lemma keeps_get_req_subvars : keeps_id BatchSpawnerBase.get_req_subvars.
Proof. unfold BatchSpawnerBase.get_req_subvars. repeat keeps_step. Qed.

Lemma keeps_run_command line input : keeps_id (BatchSpawnerBase.run_command line input).
Proof. unfold BatchSpawnerBase.run_command. repeat keeps_step. Qed.

Lemma keeps_regex_classify :
  keeps_id (@BatchSpawnerBase.classify BatchSpawnerRegexStates.leaf_methods).
Proof.
  intros ctx s. rewrite classify_pure. reflexivity.
Qed.

Lemma keeps_ssh_session subvars between line :
  keeps_id between -> keeps_id (RemoteSlurmSpawner.ssh_session subvars between line).
Proof.
  intros Hb.
  unfold RemoteSlurmSpawner.ssh_session, RemoteSlurmSpawner.ssh_credentials,
    RemoteSlurmSpawner.subvar.
  repeat first [assumption | keeps_step].
Qed.

Lemma base_query_keeps_job_id :
  keeps_job_id (@BatchSpawnerBase.query_job_status BatchSpawnerRegexStates.leaf_methods).
Proof.
  intros ctx s r s' E. split.
  - assert (K : keeps_id (@BatchSpawnerBase.query_job_status
                            BatchSpawnerRegexStates.leaf_methods)).
    { unfold BatchSpawnerBase.query_job_status.
      keeps_step. keeps_step; [repeat keeps_step |].
      keeps_step. keeps_step; [apply keeps_get_req_subvars |].
      keeps_step; [apply keeps_prefixed_cmd |].
      keeps_step; [keeps_step |].
      keeps_step; [| apply keeps_regex_classify].
      keeps_step; [keeps_step; [apply keeps_run_command | keeps_step] |].
      repeat keeps_step. }
    specialize (K ctx s). rewrite E in K. exact K.
  - intros Hempty. unfold BatchSpawnerBase.query_job_status in E.
    change ((get ≫= ?k) ctx s) with (k s ctx s) in E. cbv beta in E.
    rewrite Hempty in E. simpl in E. injection E as <- <-. reflexivity.
Qed.

Lemma remote_query_keeps_job_id : keeps_job_id RemoteSlurmSpawner.query_job_status.
Proof.
  intros ctx s r s' E. split.
  - assert (K : keeps_id RemoteSlurmSpawner.query_job_status).
    { unfold RemoteSlurmSpawner.query_job_status.
      keeps_step. keeps_step; [repeat keeps_step |].
      keeps_step. keeps_step; [apply keeps_get_req_subvars |].
      keeps_step; [apply keeps_prefixed_cmd |].
      keeps_step; [keeps_step |].
      keeps_step; [| apply keeps_regex_classify].
      keeps_step; [keeps_step; [apply keeps_ssh_session; keeps_step |]; repeat keeps_step |].
      repeat keeps_step. }
    specialize (K ctx s). rewrite E in K. exact K.
  - intros Hempty. unfold RemoteSlurmSpawner.query_job_status in E.
    change ((get ≫= ?k) ctx s) with (k s ctx s) in E. cbv beta in E.
    rewrite Hempty in E. simpl in E. injection E as <- <-. reflexivity.
Qed.

End KeepsIdMethods.

(** C7.  Once the cancel command has been issued, [stop] with [now=True]
    returns at once, without any query.  With [now=False] it makes at most
    ten queries, each query that still finds the job running or unknown
    being followed by a sleep of one second; it returns at the first query
    that does not find the job, and when all ten find it, it logs the
    warning and returns all the same. *)
Theorem stop_confirms_at_most_ten_times (ctx : Ctx) (s s1 : St) :
  BatchSpawnerBase.cancel_batch_job ctx
    (emit (EvLog INFO ("Stopping server job " +:+ job_id s)) s) = (Ok tt, s1) ->
  @BatchSpawnerBase.stop BatchSpawnerRegexStates.methods true ctx s = (Ok tt, s1)
  /\ (exists k s2,
         (k <= 10)%nat
         /\ @stop_polls BatchSpawnerRegexStates.methods ctx k s1 s2
         /\ ((k = 10%nat
              /\ @BatchSpawnerBase.stop BatchSpawnerRegexStates.methods false ctx s
                 = (Ok tt, emit (stop_warning s2) s2))
             \/ ((k < 10)%nat
                 /\ exists r s3,
                     @BatchSpawnerBase.query_job_status
                       BatchSpawnerRegexStates.leaf_methods ctx s2 = (r, s3)
                     /\ ~ still_there r
                     /\ @BatchSpawnerBase.stop BatchSpawnerRegexStates.methods false ctx s
                        = (settle r, s3))))
  /\ (forall s2,
         @stop_polls BatchSpawnerRegexStates.methods ctx 10 s1 s2 ->
         @BatchSpawnerBase.stop BatchSpawnerRegexStates.methods false ctx s
         = (Ok tt, emit (stop_warning s2) s2)).
Proof.
  intros Hcancel.
  assert (Hstop : forall now,
             @BatchSpawnerBase.stop BatchSpawnerRegexStates.methods now ctx s
             = if now then (Ok tt, s1)
               else @BatchSpawnerBase.confirm_stopped BatchSpawnerRegexStates.methods
                      10 ctx s1).
  { intros now. unfold BatchSpawnerBase.stop.
    change ((get ≫= ?k) ctx s) with (k s ctx s). cbv beta.
    rewrite bind_eq. unfold log at 1, modify at 1.
    rewrite (bind_Ok _ _ _ _ _ _ Hcancel). destruct now; reflexivity. }
  split; [apply (Hstop true) |].
  assert (Hwarn : forall s2,
             @stop_polls BatchSpawnerRegexStates.methods ctx 10 s1 s2 ->
             @BatchSpawnerBase.stop BatchSpawnerRegexStates.methods false ctx s
             = (Ok tt, emit (stop_warning s2) s2)).
  { intros s2 Hp. rewrite (Hstop false).
    apply (@confirm_stopped_warns BatchSpawnerRegexStates.methods ctx
             base_query_keeps_job_id 9 s1 s2 Hp). }
  split; [| exact Hwarn].
  destruct (@confirm_stopped_runs BatchSpawnerRegexStates.methods ctx 10 s1)
    as (k & s2 & Hk & Hp & Hend).
  exists k, s2. split; [exact Hk |]. split; [exact Hp |].
  destruct Hend as [[-> _] | [Hlt (r & s3 & Hq & Hno & E)]].
  - left. split; [reflexivity | apply Hwarn, Hp].
  - right. split; [exact Hlt |]. exists r, s3.
    split; [exact Hq |]. split; [exact Hno |]. rewrite (Hstop false). exact E.
Qed.

Lemma stop_confirms_at_most_ten_times_witness :
  @BatchSpawnerBase.stop BatchSpawnerRegexStates.methods true
    Scenario.job_lingers Scenario.serving
  = (Ok tt, snd (@BatchSpawnerBase.stop BatchSpawnerRegexStates.methods true
                   Scenario.job_lingers Scenario.serving))
  /\ exists s2,
      @BatchSpawnerBase.stop BatchSpawnerRegexStates.methods false
        Scenario.job_lingers Scenario.serving
      = (Ok tt, emit (stop_warning s2) s2).
Proof.
  edestruct (stop_confirms_at_most_ten_times Scenario.job_lingers Scenario.serving)
    as (Hnow & _ & Hall).
  - vm_compute. reflexivity.
  - split; [rewrite Hnow; reflexivity |].
    eexists. apply Hall.
    do 10 (eapply stop_polls_turn; [vm_compute; reflexivity | left; reflexivity |]).
    apply stop_polls_done.
Defined.

(* ===================================================================== *)
(** ** [stop] of the remote spawner *)
(* ===================================================================== *)

(** C2.  [stop] of [RemoteSlurmSpawner] never returns: whatever the state
    of the spawner and of the cluster, and for both values of [now], its
    first statement adds the integer port to a text and raises [TypeError]
    (or the substitution variables cannot be built and [KeyError] is raised
    before).  Nothing has been done at that point: the tunnel is not torn
    down and the job is not cancelled.  [stop] of [BatchSpawnerBase], which
    this method copies from its second log line on, returns for the same
    input. *)
Theorem remote_stop_always_raises (now : bool) (ctx : Ctx) (s : St) :
  (exists e,
      RemoteSlurmSpawner.stop now ctx s = (Raise e, s)
      /\ (e = TypeError "can only concatenate str (not int) to str"
          \/ (e = KeyError "keepvars"
              /\ fst (BatchSpawnerBase.get_req_subvars ctx s) = Raise e)))
  /\ RemoteSlurmSpawner.stop now Scenario.job_ends Scenario.serving
     = (Raise (TypeError "can only concatenate str (not int) to str"), Scenario.serving)
  /\ fst (@BatchSpawnerBase.stop BatchSpawnerRegexStates.methods now
            Scenario.job_ends Scenario.serving) = Ok tt.
Proof.
  split; [| split].
  - unfold RemoteSlurmSpawner.stop, RemoteSlurmSpawner.concat_str_int.
    rewrite bind_eq, (get_req_subvars_state ctx s s).
    destruct (fst (BatchSpawnerBase.get_req_subvars ctx s)) as [subvars | e |] eqn:E.
    + eexists. split; [reflexivity | left; reflexivity].
    + exists e. split; [reflexivity |]. right. split; [| reflexivity].
      revert E. unfold BatchSpawnerBase.get_req_subvars. run_prims.
      destruct (req (cfg ctx) !! "keepvars_extra") as [extra |]; [| discriminate].
      destruct (PyStr.is_empty extra); [discriminate |].
      destruct (req (cfg ctx) !! "keepvars"); [discriminate |].
      simpl. congruence.
    + exfalso. revert E. unfold BatchSpawnerBase.get_req_subvars. run_prims.
      destruct (req (cfg ctx) !! "keepvars_extra") as [extra |]; [| discriminate].
      destruct (PyStr.is_empty extra); [discriminate |].
      destruct (req (cfg ctx) !! "keepvars"); discriminate.
  - destruct now; reflexivity.
  - destruct now; vm_compute; reflexivity.
Qed.

(* ===================================================================== *)
(** ** [start] of the remote spawner *)
(* ===================================================================== *)

Section RemoteStart.
Variable ctx : Ctx.

(** When the [try] block of [start] succeeds, the tunnel command was run
    with the spawner's port on both sides of the forward, towards the
    host held in [ip], and the port is unchanged. *)
Lemma open_tunnel_ok subvars s s1 :
  RemoteSlurmSpawner.open_tunnel subvars ctx s = (Ok tt, s1) ->
  port s1 = port s /\ job_id s1 = job_id s
  /\ exists pwd_file user host folder,
      In (EvPopen (RemoteSlurmSpawner.open_tunnel_cmd pwd_file user host
                     (port s) (ip s) (port s) folder (port s) (port s)))
         (trace s1).
Proof.
  unfold RemoteSlurmSpawner.open_tunnel, try_except, RemoteSlurmSpawner.subvar.
  change ((get ≫= ?k) ctx s) with (k s ctx s). cbv beta.
  destruct (subvars !! "sshPwdFile") as [pwd_file |]; [| discriminate].
  destruct (subvars !! "sshUser") as [user |]; [| discriminate].
  destruct (subvars !! "sshHost") as [host |]; [| discriminate].
  destruct (subvars !! "sshTunnelsFolder") as [folder |]; [| discriminate].
  unfold RemoteSlurmSpawner.run_popen. run_prims. simpl.
  destruct (popen (world ctx) (tick s) _) as [e |]; [discriminate |].
  intros [= <-]. simpl. split; [reflexivity |]. split; [reflexivity |].
  exists pwd_file, user, host, folder.
  rewrite <- !app_assoc. apply in_or_app. right. simpl. auto.
Qed.

Lemma register_server_ok s h p s1 :
  BatchSpawnerBase.register_server ctx s = (Ok (h, p), s1) ->
  h = ip s /\ p = port s /\ ip s1 = ip s /\ port s1 = port s
  /\ forall e, In e (trace s) -> In e (trace s1).
Proof.
  unfold BatchSpawnerBase.register_server. run_prims.
  destruct (BatchSpawnerBase.version_lt_0_7 _); simpl;
    destruct (db_commit (world ctx) (tick s)); try discriminate;
    intros [= <- <- <-]; simpl; repeat split; try reflexivity;
    intros e He; rewrite <- ?app_assoc; apply in_or_app; left; exact He.
Qed.

Lemma wait_for_port_ok fuel :
  forall s s1, BatchSpawnerBase.wait_for_port fuel ctx s = (Ok tt, s1) -> port s1 <> 0.
Proof.
  induction fuel as [| fuel IH]; intros s s1; simpl;
    change ((get ≫= ?k) ctx s) with (k s ctx s); cbv beta;
    destruct (port s =? 0) eqn:Ep.
  - discriminate.
  - intros [= <-]. apply Z.eqb_neq, Ep.
  - change ((ask ≫= ?k) ctx s) with (k ctx ctx s). cbv beta.
    rewrite bind_eq.
    destruct (BatchSpawnerBase.startup_sleep ctx s) as [[[] | e |] s2]; try discriminate.
    rewrite bind_eq.
    destruct (mock_port (cfg ctx)); simpl; apply IH.
  - intros [= <-]. apply Z.eqb_neq, Ep.
Qed.

End RemoteStart.

(** C8.  When [start] of the remote spawner succeeds, it returns the
    loopback address with the spawner's port, and the tunnel it opened
    forwards that same port number on the local side to that same port
    number on the execution host. *)
Theorem remote_start_endpoint (ctx : Ctx) (fuel : nat) (s0 s1 : St)
        (address : string) (p : Z) :
  RemoteSlurmSpawner.start fuel ctx s0 = (Ok (address, p), s1) ->
  address = RemoteSlurmSpawner.loopback
  /\ ip s1 = RemoteSlurmSpawner.loopback
  /\ port s1 = p
  /\ p <> 0
  /\ exists pwd_file user host exec_host folder,
      In (EvPopen (RemoteSlurmSpawner.open_tunnel_cmd pwd_file user host
                     p exec_host p folder p p))
         (trace s1).
Proof.
  unfold RemoteSlurmSpawner.start. intros E.
  apply bind_Ok_inv in E as ([] & sa & _ & E).
  apply bind_Ok_inv in E as (v & sb & _ & E).
  apply bind_Ok_inv in E as (subvars & sc & _ & E).
  change ((get ≫= ?k) ctx sc) with (k sc ctx sc) in E. cbv beta in E.
  destruct (PyStr.is_empty (job_id sc)); [discriminate |].
  apply bind_Ok_inv in E as ([] & sd & _ & E).
  apply bind_Ok_inv in E as (exec_host & se & _ & E).
  apply bind_Ok_inv in E as ([] & sf & _ & E).
  apply bind_Ok_inv in E as ([] & sg & Hport & E).
  apply bind_Ok_inv in E as ([] & sh & Htunnel & E).
  apply wait_for_port_ok in Hport.
  apply open_tunnel_ok in Htunnel as (Hp & _ & pwd_file & user & host & folder & Hin).
  rewrite bind_eq in E. unfold modify at 1 in E.
  change ((get ≫= ?k) ctx ?s) with (k s ctx s) in E. cbv beta in E.
  rewrite bind_eq in E. unfold log at 1, modify at 1 in E.
  apply register_server_ok in E as (-> & -> & Hip & Hpt & Htr).
  simpl in *. rewrite Hip, Hpt, Hp.
  split; [reflexivity |]. split; [reflexivity |]. split; [reflexivity |].
  split; [exact Hport |].
  exists pwd_file, user, host, (ip sg), folder.
  apply Htr. apply in_or_app. left. exact Hin.
Qed.

Lemma remote_start_endpoint_witness :
  exists s1,
    RemoteSlurmSpawner.start 5 Scenario.remote_job_starts Scenario.idle
    = (Ok (RemoteSlurmSpawner.loopback, 8888), s1)
    /\ ip s1 = RemoteSlurmSpawner.loopback
    /\ port s1 = 8888.
Proof.
  eexists.
  assert (E : RemoteSlurmSpawner.start 5 Scenario.remote_job_starts Scenario.idle
              = (Ok (RemoteSlurmSpawner.loopback, 8888), _))
    by (vm_compute; reflexivity).
  split; [exact E |].
  destruct (remote_start_endpoint _ _ _ _ _ _ E) as (_ & Hip & Hport & _).
  split; [exact Hip | exact Hport].
Defined.

(* ===================================================================== *)
(** ** The execution host *)
(* ===================================================================== *)

Section ExecutionHost.
Variables (ctx : Ctx) (s : St).
Hypothesis Hre : state_exechost_re (cfg ctx) <> EmptyString.
Hypothesis Hno : no_match ctx (state_exechost_re (cfg ctx)) (job_status s).

(** Without a match [BatchSpawnerRegexStates.state_gethost] logs the
    error and returns [None]. *)
Lemma regex_gethost_no_match :
  BatchSpawnerRegexStates.state_gethost ctx s = (Ok PyNone, emit (no_host_error s) s).
Proof.
  apply is_empty_false in Hre. unfold BatchSpawnerRegexStates.state_gethost.
  run_prims. rewrite Hre, Hno. reflexivity.
Qed.

(** The remote spawner hands that [None] to [socket.gethostbyname]. *)
Lemma remote_gethost_no_match :
  RemoteSlurmSpawner.state_gethost ctx s
  = (Raise gethostbyname_type_error, emit (no_host_error s) s).
Proof.
  unfold RemoteSlurmSpawner.state_gethost.
  rewrite (bind_Ok _ _ _ _ _ _ regex_gethost_no_match). reflexivity.
Qed.

End ExecutionHost.

(** C6.  For a status text without a host the extraction logs the error;
    in [BatchSpawnerRegexStates] it returns [None], and [start] fails when
    it assigns that to [ip]; in [RemoteSlurmSpawner] the name resolution is
    called on [None] and raises [TypeError], which ends [start].  The remote
    case arises for a job on node1, of whose line RUNNING node1 the query
    keeps only RUNNING. *)
Theorem gethost_without_match_is_fatal :
  let s := Scenario.watching "209" "RUNNING" in
  no_match Scenario.remote_job_on_node1
           (state_exechost_re Scenario.slurm_config) "RUNNING"
  /\ BatchSpawnerRegexStates.state_gethost Scenario.remote_job_on_node1 s
     = (Ok PyNone, emit (no_host_error s) s)
  /\ RemoteSlurmSpawner.state_gethost Scenario.remote_job_on_node1 s
     = (Raise gethostbyname_type_error, emit (no_host_error s) s)
  /\ RemoteSlurmSpawner.status_of_lines "['RUNNING node1\n']" = "RUNNING"
  /\ fst (RemoteSlurmSpawner.start 5 Scenario.remote_job_on_node1 Scenario.idle)
     = Raise gethostbyname_type_error
  /\ fst (@BatchSpawnerBase.start remote_slurm.methods 5
            Scenario.local_job_without_host Scenario.idle)
     = Raise (TraitError "The 'ip' trait expected a unicode string").
Proof.
  intros s.
  assert (Hno : no_match Scenario.remote_job_on_node1
                  (state_exechost_re Scenario.slurm_config) "RUNNING")
    by (vm_compute; reflexivity).
  split; [exact Hno |].
  split; [apply regex_gethost_no_match; [vm_compute; discriminate | exact Hno] |].
  split; [apply remote_gethost_no_match; [vm_compute; discriminate | exact Hno] |].
  repeat split; vm_compute; reflexivity.
Qed.

(* ===================================================================== *)
(** ** The environment of the job *)
(* ===================================================================== *)

Section UserEnv.

Lemma dict_get_set_eq key v env :
  dict_get key (UserEnvMixin.dict_set key v env) = Some v.
Proof.
  induction env as [| [k w] env IH]; simpl.
  - rewrite String.eqb_refl. reflexivity.
  - destruct (String.eqb k key) eqn:E; simpl; rewrite E; [reflexivity | exact IH].
Qed.

Lemma dict_get_set_ne key k v env :
  k <> key -> dict_get k (UserEnvMixin.dict_set key v env) = dict_get k env.
Proof.
  intros Hne. induction env as [| [k0 w] env IH]; simpl.
  - destruct (String.eqb_spec key k); [congruence | reflexivity].
  - destruct (String.eqb_spec k0 key) as [-> | Hk]; simpl.
    + destruct (String.eqb_spec key k); [congruence | reflexivity].
    + destruct (String.eqb k0 k); [reflexivity | exact IH].
Qed.

Lemma dict_set_keys key v env :
  map fst (UserEnvMixin.dict_set key v env)
  = if existsb (String.eqb key) (map fst env) then map fst env
    else (map fst env ++ [key])%list.
Proof.
  induction env as [| [k w] env IH]; simpl; [reflexivity |].
  rewrite (String.eqb_sym key k).
  destruct (String.eqb k key) eqn:E; simpl; [reflexivity |].
  rewrite IH. destruct (existsb (String.eqb key) (map fst env)); reflexivity.
Qed.

Lemma dict_set_nodup key v env :
  NoDup (map fst env) -> NoDup (map fst (UserEnvMixin.dict_set key v env)).
Proof.
  intros Hnd. rewrite dict_set_keys.
  destruct (existsb (String.eqb key) (map fst env)) eqn:E; [exact Hnd |].
  apply NoDup_app. split; [exact Hnd |]. split; [| apply NoDup_singleton].
  intros x Hx Hin. apply list_elem_of_singleton in Hin. subst x.
  assert (Ht : existsb (String.eqb key) (map fst env) = true).
  { apply existsb_exists. exists key. split; [| apply String.eqb_refl].
    apply list_elem_of_In. exact Hx. }
  congruence.
Qed.

End UserEnv.

(** X1.  [get_env] of [UserEnvMixin] sets USER to the user's name, sets
    HOME and SHELL when the account has them, leaves every other variable
    of the hub's environment as it is, and never makes a name occur
    twice. *)
Theorem get_env_sets_user_home_shell (c : Config) :
  let env := UserEnvMixin.get_env c in
  dict_get "USER" env = Some (user_name c)
  /\ dict_get "HOME" env
     = (if PyStr.is_empty (pw_dir c) then dict_get "HOME" (hub_env c)
        else Some (pw_dir c))
  /\ dict_get "SHELL" env
     = (if PyStr.is_empty (pw_shell c) then dict_get "SHELL" (hub_env c)
        else Some (pw_shell c))
  /\ (forall k, k <> "USER" -> k <> "HOME" -> k <> "SHELL" ->
                dict_get k env = dict_get k (hub_env c))
  /\ (NoDup (map fst (hub_env c)) -> NoDup (map fst env)).
Proof.
  cbv zeta. unfold UserEnvMixin.get_env, UserEnvMixin.user_env.
  destruct (PyStr.is_empty (pw_dir c)), (PyStr.is_empty (pw_shell c)); simpl negb; cbv iota.
  all: repeat split.
  all: try (intros k H1 H2 H3; rewrite ?dict_get_set_ne by congruence; reflexivity).
  all: try (intros Hnd; repeat apply dict_set_nodup; exact Hnd).
  all: rewrite ?dict_get_set_eq; try reflexivity.
  all: repeat (rewrite dict_get_set_ne by discriminate); rewrite ?dict_get_set_eq;
    reflexivity.
Qed.

(* ===================================================================== *)
(** ** The variables exported to the remote job *)
(* ===================================================================== *)

Section ExportLines.

Lemma export_lines_cons kv env :
  RemoteSlurmSpawner.export_lines (kv :: env)
  = (if names_jupyterhub kv then export_line kv else EmptyString)
    +:+ RemoteSlurmSpawner.export_lines env.
Proof. destruct kv as [k v]. reflexivity. Qed.

Lemma export_lines_dict_set key v env :
  PyStr.contains "JUPYTERHUB" key = false ->
  RemoteSlurmSpawner.export_lines (UserEnvMixin.dict_set key v env)
  = RemoteSlurmSpawner.export_lines env.
Proof.
  intros Hkey. induction env as [| [k w] env IH].
  - simpl. rewrite Hkey. reflexivity.
  - cbn [UserEnvMixin.dict_set]. destruct (String.eqb_spec k key) as [-> | Hne].
    + rewrite !export_lines_cons. unfold names_jupyterhub. simpl fst.
      rewrite Hkey. reflexivity.
    + rewrite !export_lines_cons, IH. reflexivity.
Qed.

End ExportLines.

(** X2.  The remote [submit_batch_script] exports exactly the variables
    whose name contains JUPYTERHUB, one line each and in the order of the
    environment; USER, HOME and SHELL, which [UserEnvMixin] adds, are never
    among them. *)
Theorem export_lines_only_jupyterhub (c : Config) (env : list (string * string)) :
  RemoteSlurmSpawner.export_lines env
  = fold_right String.append EmptyString
               (map export_line (List.filter names_jupyterhub env))
  /\ RemoteSlurmSpawner.export_lines (UserEnvMixin.get_env c)
     = RemoteSlurmSpawner.export_lines (hub_env c).
Proof.
  split.
  - induction env as [| kv env IH]; [reflexivity |].
    rewrite export_lines_cons, IH. cbn [List.filter].
    destruct (names_jupyterhub kv); reflexivity.
  - unfold UserEnvMixin.get_env, UserEnvMixin.user_env.
    destruct (PyStr.is_empty (pw_dir c)), (PyStr.is_empty (pw_shell c)); simpl negb;
      cbv iota; rewrite ?export_lines_dict_set by reflexivity; reflexivity.
Qed.

(* ===================================================================== *)
(** ** Only the last line of the submit output counts *)
(* ===================================================================== *)

Section LastLine.




End LastLine.



(* ===================================================================== *)
(** ** What the remote query keeps of the output of squeue *)
(* ===================================================================== *)

Section Prefixes.

Lemma starts_with_trans a :
  forall b c, PyStr.starts_with a b = true -> PyStr.starts_with b c = true ->
              PyStr.starts_with a c = true.
Proof.
  induction a as [| x a IH]; intros b c Hab Hbc; [reflexivity |].
  destruct b as [| y b]; [discriminate |].
  destruct c as [| z c]; [discriminate |].
  simpl in *.
  destruct (Ascii.eqb_spec x y) as [-> |]; [| discriminate].
  destruct (Ascii.eqb y z); [| discriminate].
  eapply IH; eassumption.
Qed.

Lemma contains_eq sub s :
  PyStr.contains sub s =
  if PyStr.starts_with sub s then true
  else match s with
       | EmptyString => false
       | String _ rest => PyStr.contains sub rest
       end.
Proof. destruct s; reflexivity. Qed.

Lemma contains_cons_false sub c s :
  PyStr.contains sub (String c s) = false ->
  PyStr.starts_with sub (String c s) = false /\ PyStr.contains sub s = false.
Proof.
  rewrite contains_eq. destruct (PyStr.starts_with sub (String c s)); [discriminate |].
  auto.
Qed.

(** A prefix of a text without [sub] is without [sub]. *)
Lemma prefix_without sub t :
  forall s, PyStr.starts_with t s = true -> PyStr.contains sub s = false ->
            PyStr.contains sub t = false.
Proof.
  induction t as [| a t IH]; intros s Hp Hs.
  - destruct sub; [destruct s; discriminate | reflexivity].
  - destruct s as [| b s]; [discriminate |].
    assert (Hp' := Hp). simpl in Hp.
    destruct (Ascii.eqb_spec a b) as [-> |]; [| discriminate].
    apply contains_cons_false in Hs as [Hs1 Hs2].
    rewrite contains_eq.
    destruct (PyStr.starts_with sub (String b t)) eqn:E.
    + rewrite (starts_with_trans _ _ _ E Hp') in Hs1. discriminate.
    + eapply IH; eassumption.
Qed.

Lemma split_head_prefix sep s : PyStr.starts_with (PyStr.split_head sep s) s = true.
Proof.
  induction s as [| c s IH]; [reflexivity |].
  cbn [PyStr.split_head]. destruct (PyStr.starts_with sep (String c s)); [reflexivity |].
  simpl. rewrite Ascii.eqb_refl. exact IH.
Qed.

Lemma split_head_without_sep sep s :
  sep <> EmptyString -> PyStr.contains sep (PyStr.split_head sep s) = false.
Proof.
  intros Hsep. induction s as [| c s IH].
  - destruct sep; [congruence | reflexivity].
  - cbn [PyStr.split_head]. destruct (PyStr.starts_with sep (String c s)) eqn:E.
    + destruct sep; [congruence | reflexivity].
    + rewrite contains_eq.
      destruct (PyStr.starts_with sep (String c (PyStr.split_head sep s))) eqn:E2;
        [| exact IH].
      assert (Hp : PyStr.starts_with (String c (PyStr.split_head sep s)) (String c s) = true)
        by (simpl; rewrite Ascii.eqb_refl; apply split_head_prefix).
      rewrite (starts_with_trans _ _ _ E2 Hp) in E. discriminate.
Qed.

Lemma split_head_whole sep s :
  PyStr.contains sep s = false -> PyStr.split_head sep s = s.
Proof.
  induction s as [| c s IH]; intros H; [reflexivity |].
  apply contains_cons_false in H as [H1 H2].
  cbn [PyStr.split_head]. rewrite H1, (IH H2). reflexivity.
Qed.

(** Cutting at a separator of two different characters [x], [y]. *)
Lemma split_head_at x y state :
  x <> y ->
  forall rest,
    PyStr.contains (String x (String y EmptyString)) state = false ->
    PyStr.split_head (String x (String y EmptyString))
                     (state +:+ String x (String y rest)) = state.
Proof.
  intros Hxy rest. induction state as [| c st IH]; intros H.
  - simpl. rewrite !Ascii.eqb_refl. reflexivity.
  - apply contains_cons_false in H as [H1 H2].
    change (String c st +:+ String x (String y rest))
      with (String c (st +:+ String x (String y rest))).
    cbn [PyStr.split_head].
    assert (E : PyStr.starts_with (String x (String y EmptyString))
                  (String c (st +:+ String x (String y rest))) = false).
    { simpl. destruct (Ascii.eqb x c) eqn:Exc; [| reflexivity].
      destruct st as [| d st]; simpl.
      - destruct (Ascii.eqb_spec y x); [congruence | reflexivity].
      - simpl in H1. rewrite Exc in H1.
        destruct (Ascii.eqb y d); [discriminate | reflexivity]. }
    rewrite E, (IH H2). reflexivity.
Qed.

Lemma contains_app x y s t :
  PyStr.contains (String x (String y EmptyString)) s = false ->
  PyStr.contains (String x (String y EmptyString)) t = false ->
  match t with String h _ => h <> y | EmptyString => True end ->
  PyStr.contains (String x (String y EmptyString)) (s +:+ t) = false.
Proof.
  intros Hs Ht Hh. induction s as [| c s IH]; [exact Ht |].
  apply contains_cons_false in Hs as [H1 H2].
  change (String c s +:+ t) with (String c (s +:+ t)).
  rewrite contains_eq, (IH H2).
  assert (E : PyStr.starts_with (String x (String y EmptyString)) (String c (s +:+ t))
              = false); [| rewrite E; reflexivity].
  simpl. destruct (Ascii.eqb x c) eqn:Exc; [| reflexivity].
  destruct s as [| d s]; simpl.
  - destruct t as [| h t]; [reflexivity |]. simpl.
    destruct (Ascii.eqb_spec y h); [congruence | reflexivity].
  - simpl in H1. rewrite Exc in H1.
    destruct (Ascii.eqb y d); [discriminate | reflexivity].
Qed.

End Prefixes.

Section RemoveChar.
Variable c : ascii.

#[local] Abbreviation remove := (remove_char c).

Lemma remove_cons h s :
  remove (String h s) = if Ascii.eqb c h then remove s else String h (remove s).
Proof.
  unfold remove_char, PyStr.replace. cbn [PyStr.replace_from PyStr.starts_with].
  destruct (Ascii.eqb c h); reflexivity.
Qed.

Lemma contains_char d s : PyStr.contains (String d EmptyString) s = PyStr.mem d s.
Proof.
  induction s as [| h s IH]; [reflexivity |].
  rewrite contains_eq. cbn [PyStr.starts_with PyStr.mem].
  destruct (Ascii.eqb d h); [reflexivity | exact IH].
Qed.

Lemma remove_prefix_free s : PyStr.mem c (remove s) = false.
Proof.
  induction s as [| h s IH]; [reflexivity |].
  rewrite remove_cons. destruct (Ascii.eqb c h) eqn:E; [exact IH |].
  simpl. rewrite E. exact IH.
Qed.

Lemma remove_keeps_free d s : PyStr.mem d s = false -> PyStr.mem d (remove s) = false.
Proof.
  induction s as [| h s IH]; intros H; [reflexivity |].
  simpl in H. destruct (Ascii.eqb d h) eqn:E; [discriminate |].
  rewrite remove_cons. destruct (Ascii.eqb c h); [exact (IH H) |].
  simpl. rewrite E. exact (IH H).
Qed.

Lemma remove_app a b : remove (a +:+ b) = remove a +:+ remove b.
Proof.
  induction a as [| h a IH]; [reflexivity |].
  change (String h a +:+ b) with (String h (a +:+ b)).
  rewrite !remove_cons, IH. destruct (Ascii.eqb c h); reflexivity.
Qed.

Lemma remove_none s : PyStr.mem c s = false -> remove s = s.
Proof.
  induction s as [| h s IH]; intros H; [reflexivity |].
  simpl in H. rewrite remove_cons. destruct (Ascii.eqb c h); [discriminate |].
  rewrite (IH H). reflexivity.
Qed.

End RemoveChar.

Section StatusOfLines.

Lemma status_of_lines_eq out :
  RemoteSlurmSpawner.status_of_lines out
  = PyStr.split_head "\n"
      (PyStr.split_head " n" (remove_char "'" (remove_char "[" out))).
Proof. reflexivity. Qed.

Lemma plain_chars text :
  plain text -> PyStr.mem "[" text = false /\ PyStr.mem "'" text = false.
Proof. intros (H1 & H2 & _). rewrite <- !contains_char. auto. Qed.

(** A text without the first character of [sub] is without [sub]. *)
Lemma contains_needs_first a sub s :
  PyStr.mem a s = false -> PyStr.contains (String a sub) s = false.
Proof.
  induction s as [| h s IH]; intros H; [reflexivity |].
  simpl in H. destruct (Ascii.eqb a h) eqn:E; [discriminate |].
  rewrite contains_eq. cbn [PyStr.starts_with]. rewrite E. exact (IH H).
Qed.

(** A text that [repr] shows as it is holds neither quote nor backslash. *)
Lemma shown_verbatim_chars text :
  shown_verbatim text = true ->
  PyStr.mem "'" text = false /\ PyStr.mem "\" text = false.
Proof.
  induction text as [| c text IH]; intros H; [split; reflexivity |].
  simpl in H. apply andb_true_iff in H as [Hc H]. destruct (IH H) as [IH1 IH2].
  cbn [PyStr.mem]. rewrite IH1, IH2.
  destruct (Ascii.eqb_spec "'" c) as [<- |]; [discriminate Hc |].
  destruct (Ascii.eqb_spec "\" c) as [<- |]; [discriminate Hc |].
  split; reflexivity.
Qed.

Lemma shown_verbatim_plain text :
  shown_verbatim text = true ->
  PyStr.contains "[" text = false -> PyStr.contains " n" text = false -> plain text.
Proof.
  intros Hv Hb Hn. destruct (shown_verbatim_chars text Hv) as [Hq Hs].
  split; [exact Hb |]. split; [rewrite contains_char; exact Hq |].
  split; [exact Hn |]. apply contains_needs_first, Hs.
Qed.

End StatusOfLines.

(** X4.  The status text that the remote [query_job_status] stores never
    holds a bracket, a quote, a blank followed by n, or a backslash followed
    by n, whatever the ssh session printed. *)
Theorem status_of_lines_is_plain (out : string) :
  plain (RemoteSlurmSpawner.status_of_lines out).
Proof.
  rewrite status_of_lines_eq.
  set (r := remove_char "'" (remove_char "[" out)).
  assert (Hb : PyStr.contains "[" r = false).
  { rewrite contains_char. apply remove_keeps_free, remove_prefix_free. }
  assert (Hq : PyStr.contains "'" r = false).
  { rewrite contains_char. apply remove_prefix_free. }
  set (a := PyStr.split_head " n" r).
  assert (Hpa : PyStr.starts_with a r = true) by apply split_head_prefix.
  assert (Hpt : PyStr.starts_with (PyStr.split_head "\n" a) a = true)
    by apply split_head_prefix.
  assert (Hn : PyStr.contains " n" a = false)
    by (apply split_head_without_sep; discriminate).
  repeat split.
  - eapply prefix_without; [exact Hpt |]. eapply prefix_without; eassumption.
  - eapply prefix_without; [exact Hpt |]. eapply prefix_without; eassumption.
  - eapply prefix_without; eassumption.
  - apply split_head_without_sep. discriminate.
Qed.

(** X5.  Take a line of squeue made of printable ASCII characters other
    than the quote and the backslash, which [repr] shows as they are, and
    without an opening bracket, so that [str(readlines())] is the line
    between the bracket and quote and the escaped newline, quote and
    bracket.  The remote [query_job_status] keeps the whole line when no
    blank followed by n occurs in it, and it keeps only what precedes the
    first blank followed by n otherwise: the name of a host that begins
    with n is cut off. *)
Theorem status_of_lines_cuts_at_blank_n (text rest : string) :
  shown_verbatim text = true ->
  PyStr.contains "[" text = false ->
  PyStr.contains " n" text = false ->
  RemoteSlurmSpawner.status_of_lines ("['" +:+ text +:+ "\n']") = text
  /\ RemoteSlurmSpawner.status_of_lines ("['" +:+ text +:+ " n" +:+ rest) = text.
Proof.
  intros Hv Hbr Hbn. pose proof (shown_verbatim_plain text Hv Hbr Hbn) as Hplain.
  destruct (plain_chars text Hplain) as [Hb Hq].
  destruct Hplain as (_ & _ & Hn & Hs).
  rewrite !status_of_lines_eq. split.
  - rewrite !remove_app, (remove_none "[" text Hb).
    change (remove_char "[" "['") with "'".
    change (remove_char "[" "\n']") with "\n']".
    rewrite (remove_none "'" text Hq).
    change (remove_char "'" "'") with EmptyString.
    change (remove_char "'" "\n']") with "\n]".
    change (EmptyString +:+ text +:+ "\n]") with (text +:+ "\n]").
    rewrite (split_head_whole " n" (text +:+ "\n]")).
    + apply (split_head_at "\" "n" text); [discriminate | exact Hs].
    + apply contains_app; [exact Hn | reflexivity | discriminate].
  - rewrite !remove_app, (remove_none "[" text Hb).
    change (remove_char "[" "['") with "'".
    change (remove_char "[" " n") with " n".
    rewrite (remove_none "'" text Hq).
    change (remove_char "'" "'") with EmptyString.
    change (remove_char "'" " n") with " n".
    set (rest' := remove_char "'" (remove_char "[" rest)).
    change (EmptyString +:+ text +:+ " n" +:+ rest')
      with (text +:+ String " " (String "n" rest')).
    rewrite (split_head_at " " "n" text); [| discriminate | exact Hn].
    apply split_head_whole, Hs.
Qed.

Lemma status_of_lines_cuts_at_blank_n_witness :
  RemoteSlurmSpawner.status_of_lines ("['" +:+ "RUNNING" +:+ " n" +:+ "ode1\n']")
  = "RUNNING".
Proof.
  apply (status_of_lines_cuts_at_blank_n "RUNNING" "ode1\n']"); reflexivity.
Defined.

(* ===================================================================== *)
(** ** Running a local command *)
(* ===================================================================== *)

Section StripWs.

Lemma rstrip_ws_cons c s :
  PyStr.rstrip_ws (String c s)
  = match PyStr.rstrip_ws s with
    | EmptyString => if PyStr.is_space c then EmptyString else String c EmptyString
    | kept => String c kept
    end.
Proof. reflexivity. Qed.

Lemma rstrip_ws_idem s : PyStr.rstrip_ws (PyStr.rstrip_ws s) = PyStr.rstrip_ws s.
Proof.
  induction s as [| c s IH]; [reflexivity |].
  rewrite rstrip_ws_cons. destruct (PyStr.rstrip_ws s) as [| k r] eqn:E.
  - destruct (PyStr.is_space c) eqn:Ec; [reflexivity |].
    rewrite rstrip_ws_cons. simpl PyStr.rstrip_ws. rewrite Ec. reflexivity.
  - rewrite rstrip_ws_cons, IH. reflexivity.
Qed.

(** A text that does not begin with a blank keeps its beginning. *)
Lemma lstrip_rstrip_ws c s :
  PyStr.is_space c = false ->
  PyStr.lstrip_ws (PyStr.rstrip_ws (String c s)) = PyStr.rstrip_ws (String c s).
Proof.
  intros Ec. rewrite rstrip_ws_cons.
  destruct (PyStr.rstrip_ws s); rewrite ?Ec; simpl; rewrite Ec; reflexivity.
Qed.

Lemma lstrip_ws_head s :
  match PyStr.lstrip_ws s with
  | EmptyString => True
  | String c _ => PyStr.is_space c = false
  end.
Proof.
  induction s as [| c s IH]; [exact I |].
  simpl. destruct (PyStr.is_space c) eqn:Ec; [exact IH | exact Ec].
Qed.

Lemma strip_ws_idem s : PyStr.strip_ws (PyStr.strip_ws s) = PyStr.strip_ws s.
Proof.
  unfold PyStr.strip_ws. pose proof (lstrip_ws_head s) as Hh.
  destruct (PyStr.lstrip_ws s) as [| c t]; [reflexivity |].
  rewrite (lstrip_rstrip_ws c t Hh). apply rstrip_ws_idem.
Qed.

End StripWs.

(** X6.  [run_command] returns a text only when the process ended with
    exit status 0, and then it is the output without the blanks around it,
    or when the clean-up after a failed [communicate] timed out, and then it
    is the empty text; the text it returns never begins or ends with a
    blank.  An exit status other than 0 is raised as a [RuntimeError] that
    carries the error output without the blanks around it. *)
Theorem run_command_outcomes (ctx : Ctx) (s : St) (line : string)
        (input : option string) :
  let outcome := proc (world ctx) (tick s) line (BatchSpawnerBase.inbytes input) in
  (forall out s1,
      BatchSpawnerBase.run_command line input ctx s = (Ok out, s1) ->
      PyStr.strip_ws out = out
      /\ ((exists o e, outcome = ProcExit o e 0 /\ out = PyStr.strip_ws o)
          \/ (outcome = ProcFail CleanTimeout /\ out = EmptyString)))
  /\ (forall o e rc,
         outcome = ProcExit o e rc -> rc <> 0 ->
         fst (BatchSpawnerBase.run_command line input ctx s)
         = Raise (RuntimeError (PyStr.strip_ws e))).
Proof.
  cbv zeta. unfold BatchSpawnerBase.run_command. run_prims. unfold suspend. simpl.
  split.
  - intros out s1.
    destruct (proc (world ctx) (tick s) line (BatchSpawnerBase.inbytes input))
      as [o e rc | [o e rc | | e0] | e0]; simpl; try discriminate.
    + destruct (rc =? 0) eqn:Erc; simpl; [| discriminate].
      intros [= <- _]. apply Z.eqb_eq in Erc. subst rc.
      split; [apply strip_ws_idem |]. left. eauto.
    + intros [= <- _]. split; [reflexivity |]. right. auto.
  - intros o e rc -> Hrc. apply Z.eqb_neq in Hrc. simpl. rewrite Hrc. reflexivity.
Qed.

Lemma run_command_outcomes_witness :
  fst (BatchSpawnerBase.run_command "sudo -E -u alice scancel 209" None
         Scenario.job_gone Scenario.serving)
  = Raise (RuntimeError Scenario.invalid_job_id).
Proof.
  apply (proj2 (run_command_outcomes Scenario.job_gone Scenario.serving
                  "sudo -E -u alice scancel 209" None)
           EmptyString Scenario.invalid_job_id 1); [reflexivity | discriminate].
Defined.

(* ===================================================================== *)
(** ** A query turns the failure of its command into a status text *)
(* ===================================================================== *)

Section QueryAbsorbs.
Variable ctx : Ctx.

Lemma run_command_returns line input s :
  fst (BatchSpawnerBase.run_command line input ctx s) <> Diverge.
Proof.
  unfold BatchSpawnerBase.run_command. run_prims. unfold suspend. simpl.
  destruct (proc (world ctx) (tick s) line (BatchSpawnerBase.inbytes input))
    as [o e rc | [o e rc | | e0] | e0]; simpl; try discriminate.
  destruct (rc =? 0); simpl; discriminate.
Qed.

Lemma run_command_keeps line input s :
  job_id (snd (BatchSpawnerBase.run_command line input ctx s)) = job_id s.
Proof. apply keeps_run_command. Qed.

(** With the pending and running patterns set, an empty status text is
    classified NotFound. *)
Lemma classify_empty s :
  state_pending_re (cfg ctx) <> EmptyString ->
  state_running_re (cfg ctx) <> EmptyString ->
  job_status s = EmptyString ->
  @BatchSpawnerBase.classify BatchSpawnerRegexStates.leaf_methods ctx s = (Ok NOTFOUND, s).
Proof.
  intros Hp Hr Hs. apply is_empty_false in Hp. apply is_empty_false in Hr.
  rewrite classify_eq.
  unfold BatchSpawnerRegexStates.state_isrunning, BatchSpawnerRegexStates.state_ispending,
    BatchSpawnerRegexStates.state_isunknown.
  run_prims. rewrite Hr, Hp, !status_and_search_empty by exact Hs. simpl.
  destruct (PyStr.is_empty (state_unknown_re (cfg ctx))); simpl;
    rewrite ?status_and_search_empty by exact Hs; reflexivity.
Qed.

Lemma classify_misconfigured s :
  state_running_re (cfg ctx) = EmptyString ->
  @BatchSpawnerBase.classify BatchSpawnerRegexStates.leaf_methods ctx s
  = (Raise (AssertionError "Misconfigured: define state_running_re"), s).
Proof.
  intros Hr. rewrite classify_eq. unfold BatchSpawnerRegexStates.state_isrunning.
  run_prims. rewrite Hr. reflexivity.
Qed.

End QueryAbsorbs.

(** X7.  Once its command line is formatted, the local [query_job_status]
    lets no failure of the command out: what the command printed, or the
    message of its [RuntimeError], or the empty text for any other
    exception, becomes the status text, which is then classified.  So a
    command that cannot be run or times out gives NotFound when the pending
    and running patterns are set, and an unset running pattern is an
    [AssertionError] whatever the command did. *)
Theorem query_absorbs_command_failures (ctx : Ctx) (s : St)
        (subvars : gmap string string) (line : string) :
  job_id s <> EmptyString ->
  BatchSpawnerBase.get_req_subvars ctx s = (Ok subvars, s) ->
  BatchSpawnerBase.prefixed_cmd (batch_query_cmd (cfg ctx))
    (<["job_id" := job_id s]> subvars) ctx s = (Ok line, s) ->
  let query := @BatchSpawnerBase.query_job_status BatchSpawnerRegexStates.leaf_methods in
  let ran := BatchSpawnerBase.run_command line None ctx
               (emit (EvLog DEBUG ("Spawner querying job: " +:+ line)) s) in
  let text := match fst ran with
              | Ok out => out
              | Raise e => default EmptyString (as_RuntimeError e)
              | Diverge => EmptyString
              end in
  (exists s2,
      query ctx s = @BatchSpawnerBase.classify BatchSpawnerRegexStates.leaf_methods ctx s2
      /\ job_status s2 = text /\ job_id s2 = job_id s)
  /\ (state_pending_re (cfg ctx) <> EmptyString ->
      state_running_re (cfg ctx) <> EmptyString ->
      text = EmptyString -> fst (query ctx s) = Ok NOTFOUND)
  /\ (state_running_re (cfg ctx) = EmptyString ->
      fst (query ctx s) = Raise (AssertionError "Misconfigured: define state_running_re")).
Proof.
  intros Hid Hsub Hline. cbv zeta.
  set (s1 := emit (EvLog DEBUG ("Spawner querying job: " +:+ line)) s).
  assert (Hq : exists s2,
             @BatchSpawnerBase.query_job_status BatchSpawnerRegexStates.leaf_methods ctx s
             = @BatchSpawnerBase.classify BatchSpawnerRegexStates.leaf_methods ctx s2
             /\ job_status s2
                = match fst (BatchSpawnerBase.run_command line None ctx s1) with
                  | Ok out => out
                  | Raise e => default EmptyString (as_RuntimeError e)
                  | Diverge => EmptyString
                  end
             /\ job_id s2 = job_id s).
  { unfold BatchSpawnerBase.query_job_status.
    change ((get ≫= ?k) ctx s) with (k s ctx s). cbv beta.
    apply is_empty_false in Hid. rewrite Hid.
    change ((ask ≫= ?k) ctx s) with (k ctx ctx s). cbv beta.
    rewrite (bind_Ok _ _ _ _ _ _ Hsub), (bind_Ok _ _ _ _ _ _ Hline).
    rewrite bind_eq. unfold log at 1, modify at 1. fold s1.
    rewrite bind_eq. unfold try_except at 1. rewrite bind_eq.
    pose proof (run_command_returns ctx line None s1) as Hret.
    pose proof (run_command_keeps ctx line None s1) as Hkeep.
    destruct (BatchSpawnerBase.run_command line None ctx s1) as [[out | e |] s2];
      simpl in Hret, Hkeep; [| | congruence].
    - eexists. split; [reflexivity |]. split; [reflexivity | exact Hkeep].
    - cbn [fst]. destruct (as_RuntimeError e) as [stderr |] eqn:Ee; simpl; rewrite ?Ee;
        (eexists; split; [reflexivity |]; split; [reflexivity | exact Hkeep]). }
  destruct Hq as (s2 & Eq & Est & Eid).
  split; [exists s2; auto |]. split.
  - intros Hp Hr Ht. rewrite Eq, classify_empty;
      [reflexivity | assumption | assumption | rewrite Est; exact Ht].
  - intros Hr. rewrite Eq, classify_misconfigured; [reflexivity | exact Hr].
Qed.

Lemma query_absorbs_command_failures_witness :
  fst (@BatchSpawnerBase.query_job_status BatchSpawnerRegexStates.leaf_methods
         Cases.squeue_hangs (Scenario.watching "209" "RUNNING compute-0-1"))
  = Ok NOTFOUND.
Proof.
  destruct (query_absorbs_command_failures Cases.squeue_hangs
              (Scenario.watching "209" "RUNNING compute-0-1") Scenario.slurm_req
              "sudo -E -u alice squeue -h -j 209 -o '%T %B'") as (_ & H & _).
  - vm_compute. discriminate.
  - reflexivity.
  - vm_compute. reflexivity.
  - apply H; vm_compute; [discriminate | discriminate | reflexivity].
Defined.

(* ===================================================================== *)
(** ** A failed ssh session makes the job look lost *)
(* ===================================================================== *)

Section SshFailures.
Variable ctx : Ctx.

Lemma ssh_session_fails subvars line s :
  (forall out err, ssh (world ctx) (tick s) line <> SshOutput out err) ->
  exists e s2,
    RemoteSlurmSpawner.ssh_session subvars (mret tt) line ctx s = (Raise e, s2)
    /\ job_id s2 = job_id s.
Proof.
  intros Hfail. unfold RemoteSlurmSpawner.ssh_session, RemoteSlurmSpawner.ssh_credentials,
    RemoteSlurmSpawner.subvar.
  run_prims.
  destruct (subvars !! "sshPwdFile"); [| do 2 eexists; split; reflexivity].
  destruct (subvars !! "sshHost"); [| do 2 eexists; split; reflexivity].
  destruct (subvars !! "sshUser"); [| do 2 eexists; split; reflexivity].
  run_prims. simpl.
  destruct (ssh (world ctx) (tick s) line) as [out err | e | e].
  - exfalso. exact (Hfail out err eq_refl).
  - do 2 eexists; split; reflexivity.
  - do 2 eexists; split; reflexivity.
Qed.

Lemma remote_classify_empty s :
  state_pending_re (cfg ctx) <> EmptyString ->
  state_running_re (cfg ctx) <> EmptyString ->
  job_status s = EmptyString ->
  @BatchSpawnerBase.classify RemoteSlurmSpawner.leaf_methods ctx s = (Ok NOTFOUND, s).
Proof. exact (classify_empty ctx s). Qed.

End SshFailures.

(** X8.  [RemoteSlurmSpawner.query_job_status] answers NotFound whenever its
    ssh session does not deliver the output of the command (the connection
    or the command fails, or an ssh trait is missing): the exception is
    logged and swallowed, the job id is kept.  In the start loop such a query
    ends [start] with the error that the job disappeared and forgets the job
    id. *)
Theorem remote_query_takes_ssh_failure_for_lost_job (ctx : Ctx) (s : St)
        (subvars : gmap string string) (line : string) :
  job_id s <> EmptyString ->
  state_pending_re (cfg ctx) <> EmptyString ->
  state_running_re (cfg ctx) <> EmptyString ->
  BatchSpawnerBase.get_req_subvars ctx s = (Ok subvars, s) ->
  BatchSpawnerBase.prefixed_cmd (batch_query_cmd (cfg ctx))
    (<["job_id" := job_id s]> subvars) ctx s = (Ok line, s) ->
  (forall out err, ssh (world ctx) (tick s) line <> SshOutput out err) ->
  exists s1,
    RemoteSlurmSpawner.query_job_status ctx s = (Ok NOTFOUND, s1)
    /\ job_id s1 = job_id s
    /\ job_status s1 = EmptyString
    /\ last (trace s1) = Some (EvLog ERROR ("Error querying job " +:+ job_id s))
    /\ forall fuel,
         @BatchSpawnerBase.wait_until_running RemoteSlurmSpawner.methods (S fuel) ctx s
         = (Raise (RuntimeError BatchSpawnerBase.disappeared_msg), given_up s1).
Proof.
  intros Hid Hp Hr Hsub Hline Hfail.
  assert (Hq : exists s1,
             RemoteSlurmSpawner.query_job_status ctx s = (Ok NOTFOUND, s1)
             /\ job_id s1 = job_id s /\ job_status s1 = EmptyString
             /\ last (trace s1) = Some (EvLog ERROR ("Error querying job " +:+ job_id s))).
  { unfold RemoteSlurmSpawner.query_job_status.
    change ((get ≫= ?k) ctx s) with (k s ctx s). cbv beta.
    apply is_empty_false in Hid. rewrite Hid.
    change ((ask ≫= ?k) ctx s) with (k ctx ctx s). cbv beta.
    rewrite (bind_Ok _ _ _ _ _ _ Hsub), (bind_Ok _ _ _ _ _ _ Hline).
    rewrite bind_eq. unfold log at 1, modify at 1.
    set (s0 := emit (EvLog DEBUG ("Spawner querying job: " +:+ line)) s).
    destruct (ssh_session_fails ctx (<["job_id" := job_id s]> subvars) line s0 Hfail)
      as (e & s2 & Es & Ek).
    rewrite bind_eq. unfold try_except at 1. rewrite (bind_Raise _ _ _ _ _ _ Es).
    unfold log. run_prims.
    rewrite remote_classify_empty by (assumption || reflexivity).
    eexists. split; [reflexivity |]. split; [exact Ek |]. split; [reflexivity |].
    simpl. apply last_snoc. }
  destruct Hq as (s1 & Eq & Eid & Est & Elast).
  exists s1. repeat (split; [assumption |]).
  intros fuel.
  rewrite (@wait_until_running_turn RemoteSlurmSpawner.methods ctx fuel s).
  change (@self.query_job_status RemoteSlurmSpawner.methods)
    with RemoteSlurmSpawner.query_job_status.
  rewrite Eq. reflexivity.
Qed.

Lemma remote_query_takes_ssh_failure_for_lost_job_witness :
  exists s1,
    RemoteSlurmSpawner.query_job_status Cases.ssh_down
      (Scenario.watching "209" "PENDING n/a") = (Ok NOTFOUND, s1)
    /\ job_id s1 = "209".
Proof.
  destruct (remote_query_takes_ssh_failure_for_lost_job Cases.ssh_down
              (Scenario.watching "209" "PENDING n/a") Scenario.slurm_req
              "sudo -E -u alice squeue -h -j 209 -o '%T %B'") as (s1 & Hq & Hid & _).
  - vm_compute. discriminate.
  - vm_compute. discriminate.
  - vm_compute. discriminate.
  - reflexivity.
  - vm_compute. reflexivity.
  - intros out err. vm_compute. discriminate.
  - exists s1. split; [exact Hq | exact Hid].
Defined.

(* ===================================================================== *)
(** ** [poll] after the job has ended *)
(* ===================================================================== *)

Section PollExit.
Variable ctx : Ctx.

Lemma poll_exit `{self.Spawner} s code s1 :
  BatchSpawnerBase.poll ctx s = (Ok (Some code), s1) ->
  code = 1 /\ exists s', s1 = set_job_status EmptyString (set_job_id EmptyString s').
Proof.
  unfold BatchSpawnerBase.poll. intros E.
  apply bind_Ok_inv in E as (status & s' & _ & E).
  destruct status; try discriminate E.
  unfold BatchSpawnerBase.clear_state in E. revert E. run_prims. intros E.
  injection E as <- <-. split; [reflexivity | eexists; reflexivity].
Qed.

Lemma base_poll_cleared s :
  @BatchSpawnerBase.poll BatchSpawnerRegexStates.methods ctx
    (set_job_status EmptyString (set_job_id EmptyString s))
  = (Ok (Some 1), set_job_status EmptyString (set_job_id EmptyString s)).
Proof. reflexivity. Qed.

Lemma remote_poll_cleared s :
  @BatchSpawnerBase.poll RemoteSlurmSpawner.methods ctx
    (set_job_status EmptyString (set_job_id EmptyString s))
  = (Ok (Some 1), set_job_status EmptyString (set_job_id EmptyString s)).
Proof. reflexivity. Qed.

End PollExit.

(** X9.  When [poll] of either spawner returns an exit code, the code is 1
    and the job id and status text are cleared; polling again from that
    state returns 1 at once, for both spawners, without running a command
    or changing anything. *)
Theorem poll_exit_is_stable (ctx : Ctx) (s s1 : St) (code : Z) :
  @BatchSpawnerBase.poll BatchSpawnerRegexStates.methods ctx s = (Ok (Some code), s1)
  \/ @BatchSpawnerBase.poll RemoteSlurmSpawner.methods ctx s = (Ok (Some code), s1) ->
  code = 1
  /\ job_id s1 = EmptyString /\ job_status s1 = EmptyString
  /\ @BatchSpawnerBase.poll BatchSpawnerRegexStates.methods ctx s1 = (Ok (Some 1), s1)
  /\ @BatchSpawnerBase.poll RemoteSlurmSpawner.methods ctx s1 = (Ok (Some 1), s1).
Proof.
  intros [E | E]; apply poll_exit in E as (-> & s' & ->);
    (split; [reflexivity |]; split; [reflexivity |]; split; [reflexivity |]; split;
     [apply base_poll_cleared | apply remote_poll_cleared]).
Qed.

Lemma poll_exit_is_stable_witness :
  exists s1,
    @BatchSpawnerBase.poll RemoteSlurmSpawner.methods Scenario.job_gone
      (Scenario.watching "209" "RUNNING compute-0-1") = (Ok (Some 1), s1)
    /\ @BatchSpawnerBase.poll RemoteSlurmSpawner.methods Scenario.job_gone s1
       = (Ok (Some 1), s1).
Proof.
  eexists. 
  assert (E : @BatchSpawnerBase.poll RemoteSlurmSpawner.methods Scenario.job_gone
                (Scenario.watching "209" "RUNNING compute-0-1") = (Ok (Some 1), _))
    by (vm_compute; reflexivity).
  split; [exact E |].
  exact (proj2 (proj2 (proj2 (proj2
           (poll_exit_is_stable Scenario.job_gone _ _ 1 (or_intror E)))))).
Defined.

(* ===================================================================== *)
(** ** The job id that [submit_batch_script] stores *)
(* ===================================================================== *)


Section SubmitJobId.

Lemma stored_token (parse : string -> M string) out ctx s0 id0 :
  (forall ctx s id s', parse out ctx s = (Ok id, s') -> PyStr.int_accepts id = true) ->
  id0 = match fst (parse out ctx s0) with Ok id => id | _ => EmptyString end ->
  id0 = EmptyString \/ PyStr.int_accepts id0 = true.
Proof.
  intros Hparse ->. destruct (parse out ctx s0) as [[id | e |] s1] eqn:E; simpl; auto.
  right. exact (Hparse _ _ _ _ E).
Qed.

End SubmitJobId.

(** X10.  Whenever [submit_batch_script] returns, the job id it leaves is
    either empty or a text that [int()] accepts: an output that cannot be
    parsed never becomes a job id.  The one of the local SLURM spawner
    returns [None], the one of [RemoteSlurmSpawner] returns the job id. *)
Theorem submit_stores_integer_or_nothing (ctx : Ctx) (s s' : St) (r : pyval) :
  (@BatchSpawnerBase.submit_batch_script remote_slurm.leaf_methods ctx s = (Ok r, s') ->
   r = PyNone
   /\ (job_id s' = EmptyString \/ PyStr.int_accepts (job_id s') = true))
  /\ (RemoteSlurmSpawner.submit_batch_script ctx s = (Ok r, s') ->
      r = PyStr (job_id s')
      /\ (job_id s' = EmptyString \/ PyStr.int_accepts (job_id s') = true)).
Proof.
  split; intros E.
  - destruct (local_submit_inv _ _ _ _ E) as (-> & line & script & sa & sb & out & _ & Hid).
    split; [reflexivity |].
    apply (stored_token remote_slurm.parse_job_id out ctx s); [| apply Hid].
    intros c0 s0 id s1. apply remote_slurm_parse_accepts.
  - destruct (remote_submit_inv _ _ _ _ E)
      as (-> & subvars & between & line & sa & sb & out & err & _ & Hid).
    split; [reflexivity |].
    apply (stored_token RemoteSlurmSpawner.parse_job_id out ctx s); [| apply Hid].
    intros c0 s0 id s1. apply spawner_parse_accepts.
Qed.

Lemma submit_stores_integer_or_nothing_witness :
  exists s',
    @BatchSpawnerBase.submit_batch_script remote_slurm.leaf_methods
      Scenario.job_vanishes Scenario.idle = (Ok PyNone, s')
    /\ (job_id s' = EmptyString \/ PyStr.int_accepts (job_id s') = true).
Proof.
  eexists.
  assert (E : @BatchSpawnerBase.submit_batch_script remote_slurm.leaf_methods
                Scenario.job_vanishes Scenario.idle = (Ok PyNone, _))
    by (vm_compute; reflexivity).
  split; [exact E |].
  exact (proj2 (proj1 (submit_stores_integer_or_nothing Scenario.job_vanishes _ _ _) E)).
Defined.

(* ===================================================================== *)
(** ** The [progress] generator *)
(* ===================================================================== *)

Section ProgressLoop.
Context `{self.LeafMethods}.
Variable ctx : Ctx.

(** A turn yields the running message exactly when it is the last one. *)
Lemma progress_turn_message s msg fin s1 :
  BatchSpawnerBase.progress_turn ctx s = (Ok (msg, fin), s1) ->
  if fin then msg = BatchSpawnerBase.running_msg
  else msg = BatchSpawnerBase.pending_msg \/ msg = BatchSpawnerBase.unknown_msg.
Proof.
  unfold BatchSpawnerBase.progress_turn. intros E.
  apply bind_Ok_inv in E as (p & s2 & _ & E).
  destruct (truthy p).
  - injection E as <- <- _. left. reflexivity.
  - apply bind_Ok_inv in E as (r & s3 & _ & E).
    destruct (truthy r); injection E as <- <- _; [reflexivity | right; reflexivity].
Qed.

End ProgressLoop.

(** X11.  Whatever the subclass's state tests are, the messages that
    [progress] yields are pending and unknown messages, followed by the
    running message exactly when the generator has returned: it returns
    after the first running message, and as long as it has not returned it
    yields one message per turn. *)
Theorem progress_returns_at_first_running `{self.LeafMethods} (ctx : Ctx) (s s1 : St)
        (turns : nat) (others : nat -> St -> St) (msgs : list string) (ended : bool) :
  BatchSpawnerBase.progress turns others ctx s = (Ok (msgs, ended), s1) ->
  exists front,
    msgs = (front ++ (if ended then [BatchSpawnerBase.running_msg] else []))%list
    /\ Forall (fun m => m = BatchSpawnerBase.pending_msg
                        \/ m = BatchSpawnerBase.unknown_msg) front
    /\ (if ended then (length front < turns)%nat else length front = turns).
Proof.
  revert others s msgs ended s1.
  induction turns as [| n IH]; intros others s msgs ended s1 E.
  - injection E as <- <- _. exists []%list. repeat split. constructor.
  - simpl in E. apply bind_Ok_inv in E as ([msg fin] & s2 & Et & E).
    apply progress_turn_message in Et. simpl in E. destruct fin.
    + injection E as <- <- _. subst msg. exists []%list.
      split; [reflexivity |]. split; [constructor | simpl; lia].
    + do 2 (apply bind_Ok_inv in E as (? & ? & _ & E)).
      apply bind_Ok_inv in E as ([later fin] & s3 & El & E).
      injection E as <- <- _. apply IH in El as (front & -> & Hall & Hlen).
      exists (msg :: front)%list. split; [reflexivity |]. split.
      * constructor; assumption.
      * simpl. destruct fin; simpl in *; lia.
Qed.

Lemma progress_returns_at_first_running_witness :
  exists front,
    fst (@BatchSpawnerBase.progress BatchSpawnerRegexStates.leaf_methods 5
           (fun k s => if Nat.eqb k 1 then set_job_status "RUNNING compute-0-1" s else s)
           Scenario.without_unknown (Scenario.watching "209" "PENDING n/a"))
    = Ok ((front ++ [BatchSpawnerBase.running_msg])%list, true)
    /\ length front = 2%nat.
Proof.
  assert (E : @BatchSpawnerBase.progress BatchSpawnerRegexStates.leaf_methods 5
                (fun k s => if Nat.eqb k 1 then set_job_status "RUNNING compute-0-1" s else s)
                Scenario.without_unknown (Scenario.watching "209" "PENDING n/a")
              = (Ok ([BatchSpawnerBase.pending_msg; BatchSpawnerBase.pending_msg;
                      BatchSpawnerBase.running_msg], true), _))
    by (vm_compute; reflexivity).
  destruct (@progress_returns_at_first_running BatchSpawnerRegexStates.leaf_methods
              _ _ _ _ _ _ _ E) as (front & Hm & _ & _).
  assert (Hf : front = [BatchSpawnerBase.pending_msg; BatchSpawnerBase.pending_msg]).
  { apply (app_inv_tail [BatchSpawnerBase.running_msg]). symmetry. exact Hm. }
  exists front. rewrite E, Hf. split; reflexivity.
Defined.

Section ProgressPrecedence.
Import BatchSpawnerRegexStates.
Variables (ctx : Ctx) (s : St).

Lemma state_ispending_matches m :
  state_pending_re (cfg ctx) <> EmptyString ->
  job_status s <> EmptyString ->
  re_search (world ctx) (state_pending_re (cfg ctx)) (job_status s) = Ok (Some m) ->
  state_ispending ctx s = (Ok (PyMatch m), s).
Proof.
  intros Hre Hst Hm. apply is_empty_false in Hre.
  unfold state_ispending. run_prims. rewrite Hre.
  rewrite (status_and_search_text _ _ _ Hst), Hm. reflexivity.
Qed.

End ProgressPrecedence.

(** X12.  [progress] and [query_job_status] order the two tests the other
    way round: for a status text that matches both the pending and the
    running pattern, the classification is Running while [progress] yields
    the pending message and goes on. *)
Theorem progress_prefers_pending (ctx : Ctx) (s : St) :
  state_pending_re (cfg ctx) <> EmptyString ->
  state_running_re (cfg ctx) <> EmptyString ->
  job_status s <> EmptyString ->
  matches ctx (state_pending_re (cfg ctx)) (job_status s) ->
  matches ctx (state_running_re (cfg ctx)) (job_status s) ->
  @BatchSpawnerBase.progress_turn BatchSpawnerRegexStates.leaf_methods ctx s
  = (Ok (BatchSpawnerBase.pending_msg, false), s)
  /\ @BatchSpawnerBase.classify BatchSpawnerRegexStates.leaf_methods ctx s = (Ok RUNNING, s).
Proof.
  intros Hp Hr Hst [mp Hmp] [mr Hmr]. split.
  - unfold BatchSpawnerBase.progress_turn.
    change (@self.state_ispending BatchSpawnerRegexStates.leaf_methods)
      with BatchSpawnerRegexStates.state_ispending.
    rewrite (bind_Ok _ _ _ _ _ _ (state_ispending_matches ctx s mp Hp Hst Hmp)).
    reflexivity.
  - apply (classify_running ctx s (PyMatch mr)); [| reflexivity].
    apply state_isrunning_matches; assumption.
Qed.

Lemma progress_prefers_pending_witness :
  let ctx := Scenario.overlapping in
  let s := Scenario.watching "209" "RUNNING compute-0-1" in
  @BatchSpawnerBase.progress_turn BatchSpawnerRegexStates.leaf_methods ctx s
  = (Ok (BatchSpawnerBase.pending_msg, false), s)
  /\ @BatchSpawnerBase.classify BatchSpawnerRegexStates.leaf_methods ctx s = (Ok RUNNING, s).
Proof.
  intros ctx s.
  apply (progress_prefers_pending ctx s).
  - vm_compute. discriminate.
  - vm_compute. discriminate.
  - vm_compute. discriminate.
  - eexists. vm_compute. reflexivity.
  - eexists. vm_compute. reflexivity.
Defined.

(* ===================================================================== *)
(** ** The wait for the port *)
(* ===================================================================== *)

(** X13.  As long as no port is reported (the test attribute [mock_port] is
    absent and the hub never records a port), the second loop of [start]
    does not end: whatever the number of turns, it is still waiting with
    port 0 after one sleep per turn, and the job id and address are
    untouched. *)
Theorem wait_for_port_needs_a_report (ctx : Ctx) (s : St) (fuel : nat) :
  mock_port (cfg ctx) = None ->
  (forall n, hub_port (world ctx) n = None) ->
  port s = 0 ->
  exists s1, BatchSpawnerBase.wait_for_port fuel ctx s = (Diverge, s1)
             /\ port s1 = 0 /\ tick s1 = (tick s + fuel)%nat
             /\ job_id s1 = job_id s /\ ip s1 = ip s.
Proof.
  intros Hmock Hhub. revert s. induction fuel as [| fuel IH]; intros s Hp; simpl;
    change ((get ≫= ?k) ctx s) with (k s ctx s); cbv beta; rewrite Hp; simpl.
  - exists s. repeat split; try assumption. lia.
  - change ((ask ≫= ?k) ctx s) with (k ctx ctx s). cbv beta.
    rewrite Hmock. unfold BatchSpawnerBase.startup_sleep, sleep, suspend.
    run_prims. simpl. rewrite Hhub.
    match goal with |- context [BatchSpawnerBase.wait_for_port fuel ctx ?s2] =>
      destruct (IH s2 Hp) as (s1 & E & Hp1 & Ht & Hj & Hi) end.
    exists s1. split; [exact E |]. split; [exact Hp1 |].
    simpl in Ht. split; [lia |]. split; assumption.
Qed.

Lemma wait_for_port_needs_a_report_witness :
  exists s1, BatchSpawnerBase.wait_for_port 7 Scenario.job_lingers
               (Scenario.watching "209" "RUNNING compute-0-1") = (Diverge, s1)
             /\ tick s1 = 7%nat.
Proof.
  destruct (wait_for_port_needs_a_report Scenario.job_lingers
              (Scenario.watching "209" "RUNNING compute-0-1") 7)
    as (s1 & E & _ & Ht & _).
  - reflexivity.
  - intros n. reflexivity.
  - reflexivity.
  - exists s1. split; [exact E | exact Ht].
Defined.

(* ===================================================================== *)
(** ** What a successful [start] of the local SLURM spawner leaves *)
(* ===================================================================== *)

Section LocalStart.
Variable ctx : Ctx.

Lemma local_submit_stores s r s' :
  @BatchSpawnerBase.submit_batch_script remote_slurm.leaf_methods ctx s = (Ok r, s') ->
  job_id s' = EmptyString \/ PyStr.int_accepts (job_id s') = true.
Proof.
  intros E.
  destruct (local_submit_inv _ _ _ _ E) as (_ & line & script & sa & sb & out & _ & Hid).
  apply (stored_token remote_slurm.parse_job_id out ctx s); [| apply Hid].
  intros c0 s0 id s1. apply remote_slurm_parse_accepts.
Qed.

Lemma keeps_startup_sleep : keeps_id BatchSpawnerBase.startup_sleep.
Proof. unfold BatchSpawnerBase.startup_sleep, sleep. repeat keeps_step. Qed.

Lemma keeps_wait_for_port fuel : keeps_id (BatchSpawnerBase.wait_for_port fuel).
Proof.
  induction fuel as [| fuel IH]; simpl.
  - keeps_step. keeps_step; [intros ? ?; reflexivity | keeps_step].
  - keeps_step. keeps_step; [| keeps_step].
    keeps_step. keeps_step; [apply keeps_startup_sleep |].
    keeps_step; [repeat keeps_step | exact IH].
Qed.

Lemma wait_for_port_ip fuel :
  forall s s1, BatchSpawnerBase.wait_for_port fuel ctx s = (Ok tt, s1) -> ip s1 = ip s.
Proof.
  induction fuel as [| fuel IH]; intros s s1; simpl;
    change ((get ≫= ?k) ctx s) with (k s ctx s); cbv beta;
    destruct (port s =? 0).
  - discriminate.
  - intros [= <-]. reflexivity.
  - change ((ask ≫= ?k) ctx s) with (k ctx ctx s). cbv beta.
    unfold BatchSpawnerBase.startup_sleep, sleep, suspend. run_prims.
    destruct (mock_port (cfg ctx)); simpl; intros E; apply IH in E; rewrite E; simpl;
      destruct (hub_port (world ctx) _); reflexivity.
  - intros [= <-]. reflexivity.
Qed.

Lemma keeps_regex_gethost : keeps_id BatchSpawnerRegexStates.state_gethost.
Proof.
  unfold BatchSpawnerRegexStates.state_gethost. repeat keeps_step.
Qed.

Lemma keeps_assign_ip v : keeps_id (BatchSpawnerBase.assign_ip v).
Proof. unfold BatchSpawnerBase.assign_ip. repeat keeps_step. Qed.

(** The start loop leaves with the job id it was entered with. *)
Lemma wait_until_running_keeps `{self.Spawner} fuel :
  keeps_job_id self.query_job_status ->
  forall s s1,
    BatchSpawnerBase.wait_until_running fuel ctx s = (Ok tt, s1) -> job_id s1 = job_id s.
Proof.
  intros Hq. induction fuel as [| fuel IH]; intros s s1 E; [discriminate |].
  rewrite wait_until_running_turn in E.
  destruct (self.query_job_status ctx s) as [[[] | e |] s2] eqn:Eq; try discriminate;
    destruct (Hq _ _ _ _ Eq) as [Hk _].
  - injection E as <-. exact Hk.
  - apply IH in E. rewrite E. unfold after_startup_wait.
    rewrite (keeps_bind _ _ (keeps_log _ _) (fun _ => keeps_startup_sleep)). exact Hk.
  - apply IH in E. rewrite E. unfold after_startup_wait.
    rewrite (keeps_bind _ _ (keeps_log _ _) (fun _ => keeps_startup_sleep)). exact Hk.
Qed.

End LocalStart.

Section ByStatus.
Variable ctx : Ctx.

(** The state tests and the host extraction read the status text alone. *)
Lemma status_and_search_by_status pattern a b :
  job_status a = job_status b ->
  fst (BatchSpawnerRegexStates.status_and_search pattern ctx a)
  = fst (BatchSpawnerRegexStates.status_and_search pattern ctx b).
Proof.
  intros E. unfold BatchSpawnerRegexStates.status_and_search. run_prims. rewrite E.
  destruct (truthy (PyStr (job_status b))); [| reflexivity].
  destruct (re_search (world ctx) pattern (job_status b)) as [[m |] | e |]; reflexivity.
Qed.

Lemma classify_by_status a b :
  job_status a = job_status b ->
  fst (@BatchSpawnerBase.classify BatchSpawnerRegexStates.leaf_methods ctx a)
  = fst (@BatchSpawnerBase.classify BatchSpawnerRegexStates.leaf_methods ctx b).
Proof.
  intros E.
  assert (Hr : fst (BatchSpawnerRegexStates.state_isrunning ctx a)
               = fst (BatchSpawnerRegexStates.state_isrunning ctx b)).
  { unfold BatchSpawnerRegexStates.state_isrunning. run_prims.
    destruct (PyStr.is_empty _); [reflexivity |]. apply status_and_search_by_status, E. }
  assert (Hp : fst (BatchSpawnerRegexStates.state_ispending ctx a)
               = fst (BatchSpawnerRegexStates.state_ispending ctx b)).
  { unfold BatchSpawnerRegexStates.state_ispending. run_prims.
    destruct (PyStr.is_empty _); [reflexivity |]. apply status_and_search_by_status, E. }
  assert (Hu : fst (BatchSpawnerRegexStates.state_isunknown ctx a)
               = fst (BatchSpawnerRegexStates.state_isunknown ctx b)).
  { unfold BatchSpawnerRegexStates.state_isunknown. run_prims.
    destruct (negb _); [| reflexivity]. apply status_and_search_by_status, E. }
  rewrite !classify_eq.
  pose proof (state_isrunning_pure ctx a) as Ra. pose proof (state_isrunning_pure ctx b) as Rb.
  pose proof (state_ispending_pure ctx a) as Pa. pose proof (state_ispending_pure ctx b) as Pb.
  pose proof (state_isunknown_pure ctx a) as Ua. pose proof (state_isunknown_pure ctx b) as Ub.
  destruct (BatchSpawnerRegexStates.state_isrunning ctx a) as [ra sa],
           (BatchSpawnerRegexStates.state_isrunning ctx b) as [rb sb].
  simpl in Hr, Ra, Rb. subst rb sa sb.
  destruct ra as [vr | e |]; [| reflexivity ..].
  destruct (truthy vr); [reflexivity |].
  destruct (BatchSpawnerRegexStates.state_ispending ctx a) as [pa sa],
           (BatchSpawnerRegexStates.state_ispending ctx b) as [pb sb].
  simpl in Hp, Pa, Pb. subst pb sa sb.
  destruct pa as [vp | e |]; [| reflexivity ..].
  destruct (truthy vp); [reflexivity |].
  destruct (BatchSpawnerRegexStates.state_isunknown ctx a) as [ua sa],
           (BatchSpawnerRegexStates.state_isunknown ctx b) as [ub sb].
  simpl in Hu, Ua, Ub. subst ub sa sb.
  destruct ua as [vu | e |]; reflexivity.
Qed.

Lemma gethost_by_status a b :
  job_status a = job_status b ->
  fst (BatchSpawnerRegexStates.state_gethost ctx a)
  = fst (BatchSpawnerRegexStates.state_gethost ctx b).
Proof.
  intros E. unfold BatchSpawnerRegexStates.state_gethost. run_prims. rewrite E.
  destruct (PyStr.is_empty (state_exechost_re (cfg ctx))); [reflexivity |].
  destruct (re_search (world ctx) _ (job_status b)) as [[m |] | e |]; try reflexivity.
  destruct (PyStr.is_empty (state_exechost_exp (cfg ctx))).
  - destruct (m_groups m) as [| [h |] ?]; reflexivity.
  - destruct (match_expand (world ctx) m _); reflexivity.
Qed.

Lemma gethost_status s :
  job_status (snd (BatchSpawnerRegexStates.state_gethost ctx s)) = job_status s.
Proof.
  unfold BatchSpawnerRegexStates.state_gethost. run_prims.
  destruct (PyStr.is_empty (state_exechost_re (cfg ctx))); [reflexivity |].
  destruct (re_search (world ctx) _ (job_status s)) as [[m |] | e |]; try reflexivity.
  destruct (PyStr.is_empty (state_exechost_exp (cfg ctx))).
  - destruct (m_groups m) as [| [h |] ?]; reflexivity.
  - destruct (match_expand (world ctx) m _); reflexivity.
Qed.

Lemma wait_for_port_status fuel :
  forall s s1, BatchSpawnerBase.wait_for_port fuel ctx s = (Ok tt, s1) ->
               job_status s1 = job_status s.
Proof.
  induction fuel as [| fuel IH]; intros s s1; simpl;
    change ((get ≫= ?k) ctx s) with (k s ctx s); cbv beta;
    destruct (port s =? 0).
  - discriminate.
  - intros [= <-]. reflexivity.
  - change ((ask ≫= ?k) ctx s) with (k ctx ctx s). cbv beta.
    unfold BatchSpawnerBase.startup_sleep, sleep, suspend. run_prims.
    destruct (mock_port (cfg ctx)); simpl; intros E; apply IH in E; rewrite E; simpl;
      destruct (hub_port (world ctx) _); reflexivity.
  - intros [= <-]. reflexivity.
Qed.

(** A local query that answers Running leaves a status text that is
    classified Running. *)
Lemma local_query_running s s1 :
  @BatchSpawnerBase.query_job_status BatchSpawnerRegexStates.leaf_methods ctx s
  = (Ok RUNNING, s1) ->
  @BatchSpawnerBase.classify BatchSpawnerRegexStates.leaf_methods ctx s1 = (Ok RUNNING, s1).
Proof.
  unfold BatchSpawnerBase.query_job_status.
  change ((get ≫= ?k) ctx s) with (k s ctx s). cbv beta.
  destruct (PyStr.is_empty (job_id s)); [discriminate |].
  change ((ask ≫= ?k) ctx s) with (k ctx ctx s). cbv beta. intros E.
  apply bind_Ok_inv in E as (subvars & ? & _ & E).
  apply bind_Ok_inv in E as (line & ? & _ & E).
  apply bind_Ok_inv in E as (? & ? & _ & E).
  apply bind_Ok_inv in E as (? & sy & _ & E).
  pose proof (classify_pure ctx sy) as Hp. rewrite E in Hp. simpl in Hp. subst sy.
  exact E.
Qed.

Lemma wait_until_running_running fuel :
  forall s s1,
    @BatchSpawnerBase.wait_until_running remote_slurm.methods fuel ctx s = (Ok tt, s1) ->
    fst (@BatchSpawnerBase.classify BatchSpawnerRegexStates.leaf_methods ctx s1) = Ok RUNNING.
Proof.
  induction fuel as [| fuel IH]; intros s s1 E; [discriminate |].
  rewrite wait_until_running_turn in E.
  change (@self.query_job_status remote_slurm.methods)
    with (@BatchSpawnerBase.query_job_status BatchSpawnerRegexStates.leaf_methods) in E.
  destruct (@BatchSpawnerBase.query_job_status BatchSpawnerRegexStates.leaf_methods ctx s)
    as [[[] | e |] s2] eqn:Eq; try discriminate.
  - injection E as <-. rewrite (local_query_running _ _ Eq). reflexivity.
  - exact (IH _ _ E).
  - exact (IH _ _ E).
Qed.

End ByStatus.

(** X14.  When [start] of the local SLURM spawner succeeds, the pair it
    returns is the address and port held by the spawner, the port is not 0,
    the job id is a text that [int()] accepts, the status text that the
    spawner holds is classified Running and the address is what
    [state_gethost] reads from that status text, and the last thing done is
    the log line that names job id, address and port. *)
Theorem local_start_endpoint (ctx : Ctx) (fuel : nat) (s0 s1 : St)
        (address : string) (p : Z) :
  @BatchSpawnerBase.start remote_slurm.methods fuel ctx s0 = (Ok (address, p), s1) ->
  ip s1 = address
  /\ port s1 = p
  /\ p <> 0
  /\ PyStr.int_accepts (job_id s1) = true
  /\ fst (@BatchSpawnerBase.classify BatchSpawnerRegexStates.leaf_methods ctx s1) = Ok RUNNING
  /\ fst (BatchSpawnerRegexStates.state_gethost ctx s1) = Ok (PyStr address)
  /\ last (trace s1)
     = Some (EvLog INFO ("Notebook server job " +:+ job_id s1 +:+ " started at "
                         +:+ address +:+ ":" +:+ str_of_int p)).
Proof.
  unfold BatchSpawnerBase.start. intros E.
  apply bind_Ok_inv in E as ([] & sa & _ & E).
  apply bind_Ok_inv in E as (r & sb & Esub & E).
  change ((get ≫= ?k) ctx sb) with (k sb ctx sb) in E. cbv beta in E.
  destruct (PyStr.is_empty (job_id sb)) eqn:Eid; [discriminate |].
  apply is_empty_false in Eid.
  change (@self.submit_batch_script remote_slurm.methods)
    with (@BatchSpawnerBase.submit_batch_script remote_slurm.leaf_methods) in Esub.
  apply local_submit_stores in Esub as [Hempty | Hint]; [contradiction |].
  apply bind_Ok_inv in E as ([] & sc & Ewait & E).
  pose proof (wait_until_running_running ctx fuel _ _ Ewait) as Hrun.
  apply (@wait_until_running_keeps ctx remote_slurm.methods fuel
           base_query_keeps_job_id) in Ewait.
  apply bind_Ok_inv in E as (host & sd & Ehost & E).
  change (@self.state_gethost (@self.leaf remote_slurm.methods))
    with BatchSpawnerRegexStates.state_gethost in Ehost.
  pose proof (keeps_regex_gethost ctx sc) as Kd. rewrite Ehost in Kd. simpl in Kd.
  pose proof (gethost_status ctx sc) as Sd. rewrite Ehost in Sd. simpl in Sd.
  apply bind_Ok_inv in E as ([] & se & Eip & E).
  destruct host as [| | h |]; try discriminate Eip.
  injection Eip as <-.
  apply bind_Ok_inv in E as ([] & sf & Eport & E).
  pose proof (keeps_wait_for_port fuel ctx (set_ip h sd)) as Kf.
  rewrite Eport in Kf. simpl in Kf.
  apply wait_for_port_ip in Eport as Hipf. simpl in Hipf.
  apply wait_for_port_status in Eport as Sf. simpl in Sf.
  apply wait_for_port_ok in Eport as Hport.
  revert E. unfold BatchSpawnerBase.register_server. run_prims.
  destruct (BatchSpawnerBase.version_lt_0_7 _); simpl;
    (destruct (db_commit (world ctx) (tick sf)); [discriminate |]);
    intros [= <- <- <-]; simpl;
    (split; [reflexivity |]; split; [reflexivity |]; split; [exact Hport |];
     split; [rewrite Kf, Kd, Ewait; exact Hint |];
     split; [rewrite (classify_by_status ctx _ sc) by (simpl; congruence); exact Hrun |];
     split; [rewrite (gethost_by_status ctx _ sc) by (simpl; congruence);
             rewrite Ehost, Hipf; reflexivity |];
     apply last_snoc).
Qed.

Lemma local_start_endpoint_witness :
  exists s1,
    @BatchSpawnerBase.start remote_slurm.methods 5 Cases.local_job_starts Scenario.idle
    = (Ok ("compute-0-1", 8888), s1)
    /\ ip s1 = "compute-0-1" /\ port s1 = 8888.
Proof.
  eexists.
  assert (E : @BatchSpawnerBase.start remote_slurm.methods 5 Cases.local_job_starts
                Scenario.idle = (Ok ("compute-0-1", 8888), _))
    by (vm_compute; reflexivity).
  split; [exact E |].
  destruct (local_start_endpoint _ _ _ _ _ _ E) as (Hip & Hport & _).
  split; [exact Hip | exact Hport].
Defined.

(* ===================================================================== *)
(** ** [stop] of a spawner that has no job *)
(* ===================================================================== *)

Section StopWithoutJob.
Variable ctx : Ctx.

Lemma run_command_starts_process line input s :
  exists evs, trace (snd (BatchSpawnerBase.run_command line input ctx s))
              = (trace s ++ EvRun line (BatchSpawnerBase.inbytes input) :: evs)%list.
Proof.
  unfold BatchSpawnerBase.run_command, suspend. run_prims. simpl.
  destruct (hub_port (world ctx) (tick s)); simpl;
    (destruct (proc (world ctx) (tick s) line (BatchSpawnerBase.inbytes input))
       as [o e rc | [o e rc | | e0] | e0]; simpl;
     [destruct (rc =? 0); simpl | ..];
     rewrite <- ?app_assoc; simpl; eexists; reflexivity).
Qed.

Lemma keeps_cancel_batch_job : keeps_id BatchSpawnerBase.cancel_batch_job.
Proof.
  unfold BatchSpawnerBase.cancel_batch_job.
  keeps_step. keeps_step. keeps_step; [apply keeps_get_req_subvars |].
  keeps_step; [apply keeps_prefixed_cmd |].
  keeps_step; [keeps_step |].
  keeps_step; [apply keeps_run_command | keeps_step].
Qed.

Lemma cancel_starts_process s s1 :
  BatchSpawnerBase.cancel_batch_job ctx s = (Ok tt, s1) ->
  exists line, In (EvRun line None) (trace s1).
Proof.
  unfold BatchSpawnerBase.cancel_batch_job. intros E.
  change ((ask ≫= ?k) ctx s) with (k ctx ctx s) in E. cbv beta in E.
  change ((get ≫= ?k) ctx s) with (k s ctx s) in E. cbv beta in E.
  apply bind_Ok_inv in E as (subvars & sa & _ & E).
  apply bind_Ok_inv in E as (line & sb & _ & E).
  apply bind_Ok_inv in E as ([] & sc & _ & E).
  apply bind_Ok_inv in E as (out & sd & Erun & E).
  injection E as <-. exists line.
  destruct (run_command_starts_process line None sc) as (evs & Ht).
  rewrite Erun in Ht. simpl in Ht. rewrite Ht. apply in_or_app. right. left. reflexivity.
Qed.

End StopWithoutJob.

(** X15.  [stop] does not look at the job id before it cancels: on a spawner
    without a job id it still formats and runs the cancel command.  When
    that command succeeds, [stop] returns after a single query, which finds
    no job without running anything, and logs no warning. *)
Theorem stop_without_job_still_cancels (ctx : Ctx) (s s1 : St) (now : bool) :
  job_id s = EmptyString ->
  BatchSpawnerBase.cancel_batch_job ctx
    (emit (EvLog INFO ("Stopping server job " +:+ EmptyString)) s) = (Ok tt, s1) ->
  @BatchSpawnerBase.stop BatchSpawnerRegexStates.methods now ctx s
  = (Ok tt, if now then s1 else set_job_status EmptyString s1)
  /\ job_id s1 = EmptyString
  /\ exists line, In (EvRun line None) (trace s1).
Proof.
  intros Hid Hcancel.
  pose proof (keeps_cancel_batch_job ctx
                (emit (EvLog INFO ("Stopping server job " +:+ EmptyString)) s)) as K.
  rewrite Hcancel in K. simpl in K. rewrite Hid in K.
  split; [| split; [exact K | exact (cancel_starts_process ctx _ _ Hcancel)]].
  unfold BatchSpawnerBase.stop.
  change ((get ≫= ?k) ctx s) with (k s ctx s). cbv beta. rewrite Hid.
  rewrite bind_eq. unfold log at 1, modify at 1.
  rewrite (bind_Ok _ _ _ _ _ _ Hcancel). destruct now; [reflexivity |].
  rewrite (@confirm_stopped_turn BatchSpawnerRegexStates.methods ctx 9 s1).
  change (@self.query_job_status BatchSpawnerRegexStates.methods)
    with (@BatchSpawnerBase.query_job_status BatchSpawnerRegexStates.leaf_methods).
  unfold BatchSpawnerBase.query_job_status.
  change ((get ≫= ?k) ctx s1) with (k s1 ctx s1). cbv beta. rewrite K. reflexivity.
Qed.

Lemma stop_without_job_still_cancels_witness :
  exists s1,
    @BatchSpawnerBase.stop BatchSpawnerRegexStates.methods false Scenario.job_lingers
      Scenario.idle = (Ok tt, set_job_status EmptyString s1)
    /\ exists line, In (EvRun line None) (trace s1).
Proof.
  eexists.
  assert (E : BatchSpawnerBase.cancel_batch_job Scenario.job_lingers
                (emit (EvLog INFO ("Stopping server job " +:+ EmptyString)) Scenario.idle)
              = (Ok tt, _)) by (vm_compute; reflexivity).
  destruct (stop_without_job_still_cancels Scenario.job_lingers Scenario.idle _ false
              eq_refl E) as (Hstop & _ & Hrun).
  split; [exact Hstop | exact Hrun].
Defined.

(* ===================================================================== *)
(** ** Which commands each spawner runs *)
(* ===================================================================== *)

Section Emits.
Context {A B : Type}.
Variable P : event -> bool.

Lemma emits_ret (a : A) : emits_only P (mret a).
Proof. intros ctx s. exists []%list. rewrite app_nil_r. split; [reflexivity | constructor]. Qed.

Lemma emits_raise e : emits_only P (@raise A e).
Proof. intros ctx s. exists []%list. rewrite app_nil_r. split; [reflexivity | constructor]. Qed.

Lemma emits_lift (r : Res A) : emits_only P (lift r).
Proof. intros ctx s. exists []%list. rewrite app_nil_r. split; [reflexivity | constructor]. Qed.

Lemma emits_diverge : emits_only P (@diverge A).
Proof. intros ctx s. exists []%list. rewrite app_nil_r. split; [reflexivity | constructor]. Qed.

Lemma emits_bind (c : M A) (k : A -> M B) :
  emits_only P c -> (forall a, emits_only P (k a)) -> emits_only P (c ≫= k).
Proof.
  intros Hc Hk ctx s. rewrite bind_eq. destruct (Hc ctx s) as (evs1 & E1 & F1).
  destruct (c ctx s) as [[a | e |] s1]; simpl in *; [| exists evs1; auto ..].
  destruct (Hk a ctx s1) as (evs2 & E2 & F2).
  exists (evs1 ++ evs2)%list. rewrite E2, E1, app_assoc. split; [reflexivity |].
  apply Forall_app. split; assumption.
Qed.

Lemma emits_get (k : St -> M B) :
  (forall s, emits_only P (k s)) -> emits_only P (get ≫= k).
Proof. intros Hk ctx s. apply (Hk s ctx s). Qed.

Lemma emits_ask (k : Ctx -> M B) :
  (forall ctx, emits_only P (k ctx)) -> emits_only P (ask ≫= k).
Proof. intros Hk ctx s. apply (Hk ctx ctx s). Qed.

Lemma emits_try_except (c : M A) (h : exn -> M A) :
  emits_only P c -> (forall e, emits_only P (h e)) -> emits_only P (try_except c h).
Proof.
  intros Hc Hh ctx s. unfold try_except. destruct (Hc ctx s) as (evs1 & E1 & F1).
  destruct (c ctx s) as [[a | e |] s1]; simpl in *; [exists evs1; auto | | exists evs1; auto].
  destruct (Hh e ctx s1) as (evs2 & E2 & F2).
  exists (evs1 ++ evs2)%list. rewrite E2, E1, app_assoc. split; [reflexivity |].
  apply Forall_app. split; assumption.
Qed.

Lemma emits_modify (f : St -> St) :
  (forall s, trace (f s) = trace s) -> emits_only P (modify f).
Proof.
  intros Hf ctx s. exists []%list. rewrite app_nil_r. split; [apply Hf | constructor].
Qed.

Lemma emits_emit e : P e = true -> emits_only P (modify (emit e)).
Proof.
  intros He ctx s. exists [e]. split; [reflexivity |]. constructor; [exact He | constructor].
Qed.

Lemma emits_weaken (Q : event -> bool) (c : M A) :
  (forall e, P e = true -> Q e = true) -> emits_only P c -> emits_only Q c.
Proof.
  intros HPQ Hc ctx s. destruct (Hc ctx s) as (evs & E & F).
  exists evs. split; [exact E |]. eapply Forall_impl; [exact F | exact HPQ].
Qed.

Lemma emits_suspend : emits_only P suspend.
Proof.
  intros ctx s. exists []%list. rewrite app_nil_r. split; [| constructor].
  unfold suspend. simpl. destruct (hub_port (world ctx) (tick s)); reflexivity.
Qed.

End Emits.

Create HintDb emits.
#[export] Hint Resolve emits_ret emits_raise emits_lift emits_diverge emits_suspend : emits.

Ltac emits_event :=
  first [ reflexivity
        | match goal with
          | Hq : forall e, is_local_process e = false -> is_ssh_session e = false -> _ |- _ =>
              apply Hq; reflexivity
          end ].

Ltac emits_step :=
  lazymatch goal with
  | |- emits_only _ (ask ≫= _) => apply emits_ask; intros ?
  | |- emits_only _ (get ≫= _) => apply emits_get; intros ?
  | |- emits_only _ (_ ≫= _) => apply emits_bind; [| intros ?]
  | |- emits_only _ (try_except _ _) => apply emits_try_except; [| intros ?]
  | |- emits_only _ (log _ _) => apply emits_emit; emits_event
  | |- emits_only _ (modify (emit _)) => apply emits_emit; emits_event
  | |- emits_only _ (modify _) => apply emits_modify; intros ?; reflexivity
  | |- emits_only _ (if ?b then _ else _) => destruct b
  | |- emits_only _ (match ?x with _ => _ end) => destruct x
  | |- emits_only _ _ => solve [auto with emits]
  end.

(** The methods that run no command at all. *)
Section EmitsQuiet.
Variable P : event -> bool.
Hypothesis P_quiet :
  forall e, is_local_process e = false -> is_ssh_session e = false -> P e = true.

Lemma emits_sleep d : emits_only P (sleep d).
Proof using P_quiet. unfold sleep. repeat emits_step. Qed.

Lemma emits_startup_sleep : emits_only P BatchSpawnerBase.startup_sleep.
Proof using P_quiet. unfold BatchSpawnerBase.startup_sleep. emits_step. apply emits_sleep. Qed.

Lemma emits_prefixed_cmd t v : emits_only P (BatchSpawnerBase.prefixed_cmd t v).
Proof using P_quiet. unfold BatchSpawnerBase.prefixed_cmd, format_template. repeat emits_step. Qed.

Lemma emits_get_req_subvars : emits_only P BatchSpawnerBase.get_req_subvars.
Proof using P_quiet. unfold BatchSpawnerBase.get_req_subvars. repeat emits_step. Qed.

Lemma emits_cmd_formatted_for_batch : emits_only P BatchSpawnerBase.cmd_formatted_for_batch.
Proof using P_quiet. unfold BatchSpawnerBase.cmd_formatted_for_batch. repeat emits_step. Qed.

Lemma emits_get_batch_script v : emits_only P (BatchSpawnerBase._get_batch_script v).
Proof using P_quiet. unfold BatchSpawnerBase._get_batch_script, format_template. repeat emits_step. Qed.

Lemma emits_regex_classify :
  emits_only P (@BatchSpawnerBase.classify BatchSpawnerRegexStates.leaf_methods).
Proof using P_quiet.
  intros ctx s. exists []%list. rewrite app_nil_r, classify_pure.
  split; [reflexivity | constructor].
Qed.

Lemma emits_regex_gethost : emits_only P BatchSpawnerRegexStates.state_gethost.
Proof using P_quiet. unfold BatchSpawnerRegexStates.state_gethost. repeat emits_step. Qed.

Lemma emits_assign_ip v : emits_only P (BatchSpawnerBase.assign_ip v).
Proof using P_quiet. unfold BatchSpawnerBase.assign_ip. repeat emits_step. Qed.

Lemma emits_reset_endpoint : emits_only P BatchSpawnerBase.reset_endpoint.
Proof using P_quiet. unfold BatchSpawnerBase.reset_endpoint. repeat emits_step. Qed.

Lemma emits_register_server : emits_only P BatchSpawnerBase.register_server.
Proof using P_quiet. unfold BatchSpawnerBase.register_server. repeat emits_step. Qed.

Lemma emits_clear_state : emits_only P BatchSpawnerBase.clear_state.
Proof using P_quiet. unfold BatchSpawnerBase.clear_state. repeat emits_step. Qed.

Lemma emits_wait_for_port fuel : emits_only P (BatchSpawnerBase.wait_for_port fuel).
Proof using P_quiet.
  induction fuel as [| fuel IH]; simpl.
  - repeat emits_step.
  - emits_step. emits_step; [| emits_step].
    emits_step. emits_step; [apply emits_startup_sleep |].
    emits_step; [repeat emits_step | exact IH].
Qed.

Lemma emits_wait_until_running `{self.Spawner} fuel :
  emits_only P self.query_job_status ->
  emits_only P (BatchSpawnerBase.wait_until_running fuel).
Proof using P_quiet.
  intros Hq. induction fuel as [| fuel IH]; simpl; [emits_step |].
  emits_step; [exact Hq |]. emits_step. emits_step.
  - emits_step; [emits_step |]. emits_step; [apply emits_clear_state | emits_step].
  - emits_step.
  - emits_step; [emits_step |]. emits_step; [apply emits_startup_sleep | exact IH].
  - emits_step; [emits_step |]. emits_step; [apply emits_startup_sleep | exact IH].
Qed.

Lemma emits_poll `{self.Spawner} :
  emits_only P self.query_job_status -> emits_only P BatchSpawnerBase.poll.
Proof using P_quiet.
  intros Hq. unfold BatchSpawnerBase.poll. emits_step; [exact Hq |].
  match goal with a : JobStatus |- _ => destruct a end;
    first [ solve [emits_step]
          | emits_step; [apply emits_clear_state | emits_step] ].
Qed.

Lemma emits_confirm_stopped `{self.Spawner} n :
  emits_only P self.query_job_status ->
  emits_only P (BatchSpawnerBase.confirm_stopped n).
Proof using P_quiet.
  intros Hq. induction n as [| n IH]; simpl.
  - repeat emits_step.
  - emits_step; [exact Hq |].
    match goal with a : JobStatus |- _ => destruct a end;
      first [ solve [emits_step]
            | emits_step; [apply emits_sleep | exact IH] ].
Qed.

End EmitsQuiet.

(** The local spawner: commands through [run_command], no ssh session and
    no [Popen]. *)
Section EmitsLocal.

#[local] Abbreviation no_ssh := without_ssh.

Lemma no_ssh_quiet e :
  is_local_process e = false -> is_ssh_session e = false -> no_ssh e = true.
Proof. destruct e; intros H1 H2; try reflexivity; discriminate. Qed.

Lemma emits_run_command line input :
  emits_only no_ssh (BatchSpawnerBase.run_command line input).
Proof. unfold BatchSpawnerBase.run_command. repeat emits_step. Qed.

Lemma emits_remote_slurm_parse out : emits_only no_ssh (remote_slurm.parse_job_id out).
Proof. unfold remote_slurm.parse_job_id. repeat emits_step. Qed.

Lemma emits_local_submit :
  emits_only no_ssh (@BatchSpawnerBase.submit_batch_script remote_slurm.leaf_methods).
Proof.
  unfold BatchSpawnerBase.submit_batch_script.
  emits_step. emits_step; [apply emits_get_req_subvars, no_ssh_quiet |].
  emits_step; [apply emits_prefixed_cmd, no_ssh_quiet |].
  emits_step; [apply emits_cmd_formatted_for_batch, no_ssh_quiet |].
  emits_step; [apply emits_get_batch_script, no_ssh_quiet |].
  emits_step; [emits_step |]. emits_step; [emits_step |].
  emits_step; [apply emits_run_command |].
  emits_step; [| emits_step].
  emits_step; [| repeat emits_step].
  emits_step; [emits_step |].
  emits_step; [apply emits_remote_slurm_parse | emits_step].
Qed.

Lemma emits_local_query :
  emits_only no_ssh (@BatchSpawnerBase.query_job_status BatchSpawnerRegexStates.leaf_methods).
Proof.
  unfold BatchSpawnerBase.query_job_status.
  emits_step. emits_step; [repeat emits_step |].
  emits_step. emits_step; [apply emits_get_req_subvars, no_ssh_quiet |].
  emits_step; [apply emits_prefixed_cmd, no_ssh_quiet |].
  emits_step; [emits_step |].
  emits_step; [| apply emits_regex_classify, no_ssh_quiet].
  emits_step; [emits_step; [apply emits_run_command | emits_step] |].
  repeat emits_step.
Qed.

Lemma emits_cancel_batch_job : emits_only no_ssh BatchSpawnerBase.cancel_batch_job.
Proof.
  unfold BatchSpawnerBase.cancel_batch_job.
  emits_step. emits_step. emits_step; [apply emits_get_req_subvars, no_ssh_quiet |].
  emits_step; [apply emits_prefixed_cmd, no_ssh_quiet |].
  emits_step; [emits_step |].
  emits_step; [apply emits_run_command | emits_step].
Qed.

End EmitsLocal.

(** The remote spawner until the job runs: ssh sessions and no local
    process, but for the shell command of the tunnel. *)
Section EmitsRemote.

#[local] Abbreviation no_local_run := (fun e : event => negb (is_local_process e)).

Lemma no_local_run_quiet e :
  is_local_process e = false -> is_ssh_session e = false -> no_local_run e = true.
Proof. intros E _. cbv beta. rewrite E. reflexivity. Qed.

Lemma tunnel_or_session_quiet e :
  is_local_process e = false -> is_ssh_session e = false -> tunnel_or_session e = true.
Proof. destruct e; intros H1 H2; try reflexivity; discriminate. Qed.

Lemma no_local_run_allowed e : no_local_run e = true -> tunnel_or_session e = true.
Proof. destruct e; intros H; try reflexivity; discriminate. Qed.

Lemma emits_ssh_session subvars between line :
  emits_only no_local_run between ->
  emits_only no_local_run (RemoteSlurmSpawner.ssh_session subvars between line).
Proof.
  intros Hb.
  unfold RemoteSlurmSpawner.ssh_session, RemoteSlurmSpawner.ssh_credentials,
    RemoteSlurmSpawner.subvar.
  repeat first [assumption | emits_step].
Qed.

Lemma emits_spawner_parse out : emits_only no_local_run (RemoteSlurmSpawner.parse_job_id out).
Proof.
  unfold RemoteSlurmSpawner.parse_job_id, RemoteSlurmSpawner.concat_str_exception.
  repeat emits_step.
Qed.

Lemma emits_remote_submit : emits_only no_local_run RemoteSlurmSpawner.submit_batch_script.
Proof.
  unfold RemoteSlurmSpawner.submit_batch_script.
  emits_step. emits_step; [apply emits_get_req_subvars, no_local_run_quiet |].
  emits_step; [apply emits_prefixed_cmd, no_local_run_quiet |].
  emits_step; [apply emits_cmd_formatted_for_batch, no_local_run_quiet |].
  emits_step; [apply emits_get_batch_script, no_local_run_quiet |].
  emits_step; [emits_step |]. emits_step; [emits_step |].
  emits_step; [apply emits_ssh_session; emits_step |].
  match goal with a : (string * string)%type |- _ => destruct a end.
  do 4 (emits_step; [emits_step |]).
  emits_step; [| repeat emits_step].
  emits_step; [| repeat emits_step].
  emits_step; [emits_step |].
  emits_step; [apply emits_spawner_parse | emits_step].
Qed.

Lemma emits_remote_query : emits_only no_local_run RemoteSlurmSpawner.query_job_status.
Proof.
  unfold RemoteSlurmSpawner.query_job_status.
  emits_step. emits_step; [repeat emits_step |].
  emits_step. emits_step; [apply emits_get_req_subvars, no_local_run_quiet |].
  emits_step; [apply emits_prefixed_cmd, no_local_run_quiet |].
  emits_step; [emits_step |].
  emits_step; [| apply emits_regex_classify, no_local_run_quiet].
  emits_step; [| repeat emits_step].
  emits_step; [apply emits_ssh_session; emits_step |].
  match goal with a : (string * string)%type |- _ => destruct a end.
  repeat emits_step.
Qed.

Lemma emits_remote_gethost : emits_only no_local_run RemoteSlurmSpawner.state_gethost.
Proof.
  unfold RemoteSlurmSpawner.state_gethost, RemoteSlurmSpawner.socket_gethostbyname.
  emits_step; [apply emits_regex_gethost, no_local_run_quiet |].
  repeat emits_step.
Qed.

Lemma emits_open_tunnel subvars :
  emits_only tunnel_or_session (RemoteSlurmSpawner.open_tunnel subvars).
Proof.
  unfold RemoteSlurmSpawner.open_tunnel, RemoteSlurmSpawner.subvar,
    RemoteSlurmSpawner.run_popen.
  repeat emits_step.
Qed.

End EmitsRemote.

(** X16.  Each spawner keeps to its own transport and only appends to its
    history.  [start] of [RemoteSlurmSpawner] runs nothing through
    [run_command], and the only shell process it starts is the ssh command
    of the tunnel; its [poll] starts no local process at all.  [start],
    [poll] and [stop] of the local SLURM spawner open no ssh session and
    start no process with [Popen]. *)
Theorem spawners_keep_to_their_transport (fuel : nat) (now : bool) :
  emits_only tunnel_or_session (RemoteSlurmSpawner.start fuel)
  /\ emits_only (fun e => negb (is_local_process e))
                (@BatchSpawnerBase.poll RemoteSlurmSpawner.methods)
  /\ emits_only without_ssh (@BatchSpawnerBase.start remote_slurm.methods fuel)
  /\ emits_only without_ssh (@BatchSpawnerBase.poll remote_slurm.methods)
  /\ emits_only without_ssh (@BatchSpawnerBase.stop remote_slurm.methods now).
Proof.
  split; [| split; [| split; [| split]]].
  - unfold RemoteSlurmSpawner.start.
    emits_step; [apply emits_reset_endpoint, tunnel_or_session_quiet |].
    emits_step; [exact (emits_weaken _ _ _ no_local_run_allowed emits_remote_submit) |].
    emits_step; [apply emits_get_req_subvars, tunnel_or_session_quiet |].
    emits_step. emits_step; [emits_step |].
    emits_step; [apply (@emits_wait_until_running _ tunnel_or_session_quiet
                          RemoteSlurmSpawner.methods);
                 exact (emits_weaken _ _ _ no_local_run_allowed emits_remote_query) |].
    emits_step; [exact (emits_weaken _ _ _ no_local_run_allowed emits_remote_gethost) |].
    emits_step; [apply emits_assign_ip, tunnel_or_session_quiet |].
    emits_step; [apply emits_wait_for_port, tunnel_or_session_quiet |].
    emits_step; [apply emits_open_tunnel |].
    emits_step; [emits_step |]. emits_step. emits_step; [emits_step |].
    apply emits_register_server, tunnel_or_session_quiet.
  - apply (@emits_poll _ no_local_run_quiet RemoteSlurmSpawner.methods), emits_remote_query.
  - unfold BatchSpawnerBase.start.
    emits_step; [apply emits_reset_endpoint, no_ssh_quiet |].
    emits_step; [apply emits_local_submit |].
    emits_step. emits_step; [emits_step |].
    emits_step; [apply (@emits_wait_until_running _ no_ssh_quiet remote_slurm.methods),
                 emits_local_query |].
    emits_step; [apply emits_regex_gethost, no_ssh_quiet |].
    emits_step; [apply emits_assign_ip, no_ssh_quiet |].
    emits_step; [apply emits_wait_for_port, no_ssh_quiet |].
    apply emits_register_server, no_ssh_quiet.
  - apply (@emits_poll _ no_ssh_quiet remote_slurm.methods), emits_local_query.
  - unfold BatchSpawnerBase.stop.
    emits_step. emits_step; [emits_step |].
    emits_step; [apply emits_cancel_batch_job |].
    emits_step; [emits_step |].
    apply (@emits_confirm_stopped _ no_ssh_quiet remote_slurm.methods), emits_local_query.
Qed.

(* ===================================================================== *)
(** ** The job id of a numeric submit output *)
(* ===================================================================== *)

Section Digits.

Lemma append_assoc_text (a b c : string) : (a +:+ b) +:+ c = a +:+ (b +:+ c).
Proof.
  induction a as [| h a IH]; [reflexivity |].
  change (String h ((a +:+ b) +:+ c) = String h (a +:+ (b +:+ c))).
  rewrite IH. reflexivity.
Qed.

Lemma append_empty_text (a : string) : a +:+ EmptyString = a.
Proof.
  induction a as [| h a IH]; [reflexivity |].
  change (String h (a +:+ EmptyString) = String h a). rewrite IH. reflexivity.
Qed.

(** A digit differs from every character that is not a digit. *)
Lemma digit_differs c d :
  PyStr.is_digit c = true -> PyStr.is_digit d = false -> Ascii.eqb d c = false.
Proof.
  intros Hc Hd. destruct (Ascii.eqb_spec d c) as [-> |]; [congruence | reflexivity].
Qed.

Lemma digit_not_linebreak c : PyStr.is_digit c = true -> PyStr.is_linebreak c = false.
Proof. destruct c as [[] [] [] [] [] [] [] []]; vm_compute; congruence. Qed.

Lemma digit_not_space c : PyStr.is_digit c = true -> PyStr.is_int_space c = false.
Proof. destruct c as [[] [] [] [] [] [] [] []]; vm_compute; congruence. Qed.

Lemma digits_without d x :
  only_digits d = true -> PyStr.is_digit x = false -> PyStr.mem x d = false.
Proof.
  intros Hd Hx. induction d as [| c d IH]; [reflexivity |].
  simpl in Hd. apply andb_true_iff in Hd as [Hc Hd].
  simpl. rewrite (digit_differs c x Hc Hx). exact (IH Hd).
Qed.

(** Digits do not end a line. *)
Lemma splitlines_digits d :
  only_digits d = true ->
  forall cur rest,
    PyStr.splitlines_from cur (d +:+ rest) = PyStr.splitlines_from (cur +:+ d) rest.
Proof.
  induction d as [| c d IH]; intros Hd cur rest.
  - rewrite append_empty_text. reflexivity.
  - simpl in Hd. apply andb_true_iff in Hd as [Hc Hd].
    change (String c d +:+ rest) with (String c (d +:+ rest)).
    cbn [PyStr.splitlines_from]. rewrite (digit_not_linebreak c Hc), (IH Hd).
    rewrite append_assoc_text. reflexivity.
Qed.

Lemma rstrip_keeps chars c s :
  PyStr.mem c chars = false ->
  PyStr.rstrip chars (s +:+ String c EmptyString) = s +:+ String c EmptyString.
Proof.
  intros Hc. induction s as [| h s IH].
  - simpl. rewrite Hc. reflexivity.
  - change (String h s +:+ String c EmptyString) with (String h (s +:+ String c EmptyString)).
    cbn [PyStr.rstrip]. rewrite IH. destruct s; reflexivity.
Qed.

(** Replacing a text of two characters leaves a beginning without its first
    character as it is. *)
Lemma replace_after a b new p r :
  PyStr.mem a p = false ->
  PyStr.replace (String a (String b EmptyString)) new (p +:+ r)
  = p +:+ PyStr.replace (String a (String b EmptyString)) new r.
Proof.
  unfold PyStr.replace. induction p as [| h p IH]; intros Hp; [reflexivity |].
  simpl in Hp. destruct (Ascii.eqb a h) eqn:E; [discriminate |].
  change (String h p +:+ r) with (String h (p +:+ r)).
  cbn [PyStr.replace_from PyStr.starts_with]. rewrite E, (IH Hp). reflexivity.
Qed.

Lemma rstrip_int_digits d : only_digits d = true -> PyStr.rstrip_int d = d.
Proof.
  induction d as [| c d IH]; intros Hd; [reflexivity |].
  simpl in Hd. apply andb_true_iff in Hd as [Hc Hd].
  cbn [PyStr.rstrip_int]. rewrite (IH Hd), (digit_not_space c Hc). destruct d; reflexivity.
Qed.

Lemma digits_ok_digits d : only_digits d = true -> PyStr.digits_ok true d = true.
Proof.
  induction d as [| c d IH]; intros Hd; [reflexivity |].
  simpl in Hd. apply andb_true_iff in Hd as [Hc Hd].
  cbn [PyStr.digits_ok]. rewrite Hc. exact (IH Hd).
Qed.

Lemma count_digits_digits d :
  only_digits d = true -> PyStr.count_digits d = N.of_nat (String.length d).
Proof.
  induction d as [| c d IH]; intros Hd; [reflexivity |].
  simpl in Hd. apply andb_true_iff in Hd as [Hc Hd].
  cbn [PyStr.count_digits String.length]. rewrite Hc, (IH Hd). lia.
Qed.

(** A non-empty text of digits is its own literal, and [int()] accepts it
    as long as the digits are not too many. *)
Lemma int_literal_digits d :
  d <> EmptyString -> only_digits d = true ->
  PyStr.int_literal d = d /\ PyStr.literal_ok d = true.
Proof.
  intros Hne Hd. destruct d as [| c d]; [congruence |].
  pose proof Hd as Hall. simpl in Hd. apply andb_true_iff in Hd as [Hc Hd].
  unfold PyStr.literal_ok, PyStr.int_literal.
  assert (El : PyStr.lstrip_int (String c d) = String c d)
    by (simpl; rewrite (digit_not_space c Hc); reflexivity).
  rewrite El, (rstrip_int_digits _ Hall).
  assert (Es : PyStr.drop_sign (String c d) = String c d).
  { simpl. rewrite (Ascii.eqb_sym c "+"), (Ascii.eqb_sym c "-").
    rewrite (digit_differs c "+" Hc), (digit_differs c "-" Hc); reflexivity. }
  rewrite Es. split; [reflexivity |].
  cbn [PyStr.digits_ok]. rewrite Hc. exact (digits_ok_digits d Hd).
Qed.

Lemma int_accepts_digits d :
  d <> EmptyString -> only_digits d = true ->
  PyStr.int_accepts d = (N.of_nat (String.length d) <=? PyStr.int_max_str_digits)%N.
Proof.
  intros Hne Hd. destruct (int_literal_digits d Hne Hd) as [El Eo].
  unfold PyStr.int_accepts. rewrite Eo, El, (count_digits_digits d Hd). reflexivity.
Qed.

Lemma split_head_digits d : only_digits d = true -> PyStr.split_head ";" d = d.
Proof.
  intros Hd. apply split_head_whole. rewrite contains_char.
  apply digits_without; [exact Hd | reflexivity].
Qed.

(** The last line of a number followed by a newline, and of the text that
    [str()] makes of these bytes. *)
Lemma last_line_of_number d :
  d <> EmptyString -> only_digits d = true ->
  remote_slurm.last_line (d +:+ PyStr.nl) = Some d.
Proof.
  intros Hne Hd. unfold remote_slurm.last_line, PyStr.splitlines.
  rewrite (splitlines_digits d Hd). simpl. reflexivity.
Qed.

Lemma last_line_of_repr d :
  only_digits d = true ->
  remote_slurm.last_line ("b'" +:+ d +:+ "\n'") = Some ("b'" +:+ d +:+ "\n'").
Proof.
  intros Hd. unfold remote_slurm.last_line, PyStr.splitlines.
  change ("b'" +:+ d +:+ "\n'") with (String "b" (String "'" (d +:+ "\n'"))).
  cbn [PyStr.splitlines_from]. 
  change (PyStr.is_linebreak "b") with false. change (PyStr.is_linebreak "'") with false.
  cbv iota. rewrite (splitlines_digits d Hd). simpl.
  rewrite !append_assoc_text. reflexivity.
Qed.

Lemma clean_line_of_repr d :
  only_digits d = true -> RemoteSlurmSpawner.clean_line ("b'" +:+ d +:+ "\n'") = d.
Proof.
  intros Hd. unfold RemoteSlurmSpawner.clean_line, PyStr.strip.
  assert (Hend : forall chars,
             PyStr.mem "b" chars = false -> PyStr.mem "'" chars = false ->
             PyStr.rstrip chars (PyStr.lstrip chars ("b'" +:+ d +:+ "\n'"))
             = "b'" +:+ d +:+ "\n'").
  { intros chars Hb Hq.
    change ("b'" +:+ d +:+ "\n'") with (String "b" (String "'" (d +:+ "\n'"))).
    cbn [PyStr.lstrip]. rewrite Hb.
    replace (String "b" (String "'" (d +:+ "\n'")))
      with (("b'" +:+ (d +:+ "\n")) +:+ "'")
      by (rewrite !append_assoc_text; reflexivity).
    apply rstrip_keeps. exact Hq. }
  rewrite !Hend by reflexivity.
  replace ("b'" +:+ d +:+ "\n'") with (("b'" +:+ d) +:+ "\n'")
    by (rewrite append_assoc_text; reflexivity).
  rewrite replace_after.
  - change (PyStr.replace "\n" EmptyString "\n'") with "'".
    change (PyStr.replace "'" EmptyString (("b'" +:+ d) +:+ "'"))
      with (remove_char "'" (("b'" +:+ d) +:+ "'")).
    rewrite !remove_app.
    rewrite (remove_none "'" d) by (apply digits_without; [exact Hd | reflexivity]).
    change (remove_char "'" "b'") with "b". change (remove_char "'" "'") with EmptyString.
    change (PyStr.replace "b" EmptyString (("b" +:+ d) +:+ EmptyString))
      with (remove_char "b" (("b" +:+ d) +:+ EmptyString)).
    rewrite !remove_app.
    rewrite (remove_none "b" d) by (apply digits_without; [exact Hd | reflexivity]).
    change (remove_char "b" "b") with EmptyString.
    change (remove_char "b" EmptyString) with EmptyString.
    rewrite append_empty_text. reflexivity.
  - change ("b'" +:+ d) with (String "b" (String "'" d)). cbn [PyStr.mem].
    change (Ascii.eqb "\" "b") with false. change (Ascii.eqb "\" "'") with false.
    cbv iota. apply digits_without; [exact Hd | reflexivity].
Qed.

End Digits.

(** X17.  For a job number printed by [sbatch --parsable], each
    [parse_job_id] returns the number from the text its own
    [submit_batch_script] hands it: the local one from the digits followed
    by a newline, the remote one from the text that [str()] makes of these
    bytes, with the letter b, the quotes and the escaped newline removed.
    That holds as long as [int()] converts the number, up to 4300 digits;
    beyond, both raise. *)
Theorem parse_job_id_of_number (ctx : Ctx) (s : St) (d : string) :
  d <> EmptyString ->
  only_digits d = true ->
  let fits := (N.of_nat (String.length d) <=? PyStr.int_max_str_digits)%N in
  fst (remote_slurm.parse_job_id (d +:+ PyStr.nl) ctx s)
  = (if fits then Ok d else Raise (remote_slurm.exceeds_limit d))
  /\ fst (RemoteSlurmSpawner.parse_job_id ("b'" +:+ d +:+ "\n'") ctx s)
     = (if fits then Ok d
        else Raise (TypeError "can only concatenate str (not an exception) to str")).
Proof.
  intros Hne Hd. cbv zeta. split.
  - rewrite remote_slurm_parse_eq, (last_line_of_number d Hne Hd).
    rewrite (split_head_digits d Hd), (int_accepts_digits d Hne Hd).
    destruct (_ <=? _)%N; [reflexivity |].
    unfold remote_slurm.int_error.
    rewrite (proj2 (int_literal_digits d Hne Hd)). reflexivity.
  - rewrite spawner_parse_eq, (last_line_of_repr d Hd). cbv zeta.
    rewrite (clean_line_of_repr d Hd), (split_head_digits d Hd).
    rewrite (int_accepts_digits d Hne Hd). reflexivity.
Qed.

Lemma parse_job_id_of_number_witness :
  fst (remote_slurm.parse_job_id ("4271" +:+ PyStr.nl) Scenario.job_gone Scenario.idle)
  = Ok "4271"
  /\ fst (RemoteSlurmSpawner.parse_job_id "b'4271\n'" Scenario.job_gone Scenario.idle)
     = Ok "4271".
Proof.
  apply (parse_job_id_of_number _ _ "4271"); [discriminate | reflexivity].
Defined.

(* ===================================================================== *)
(** ** A tunnel that cannot be set up *)
(* ===================================================================== *)

(** X18.  When the [try] block of [RemoteSlurmSpawner.start] fails, the last
    thing done is the error line about the tunnel, the exception is the one
    that occurred, and address, port and job id are as before: either one of
    the four ssh traits is missing, which is a [KeyError] before any command
    is run, or the tunnel command itself raised. *)
Theorem open_tunnel_failure (ctx : Ctx) (s s1 : St) (subvars : gmap string string)
        (e : exn) :
  RemoteSlurmSpawner.open_tunnel subvars ctx s = (Raise e, s1) ->
  last (trace s1) = Some (EvLog ERROR "Failed to setup tunnel to remote server")
  /\ ip s1 = ip s /\ port s1 = port s /\ job_id s1 = job_id s
  /\ ((exists key,
          In key ["sshPwdFile"; "sshUser"; "sshHost"; "sshTunnelsFolder"]
          /\ subvars !! key = None /\ e = KeyError key
          /\ trace s1
             = (trace s ++ [EvLog ERROR "Failed to setup tunnel to remote server"])%list)
      \/ (exists line,
             popen (world ctx) (tick s) line = Some e /\ In (EvPopen line) (trace s1))).
Proof.
  unfold RemoteSlurmSpawner.open_tunnel, try_except, RemoteSlurmSpawner.subvar.
  change ((get ≫= ?k) ctx s) with (k s ctx s). cbv beta.
  destruct (subvars !! "sshPwdFile") as [pwd_file |] eqn:E1;
    [| intros [= <- <-]; (split; [apply last_snoc |]);
       repeat (split; [reflexivity |]); left; exists "sshPwdFile"; simpl; auto 10].
  destruct (subvars !! "sshUser") as [user |] eqn:E2;
    [| intros [= <- <-]; (split; [apply last_snoc |]);
       repeat (split; [reflexivity |]); left; exists "sshUser"; simpl; auto 10].
  destruct (subvars !! "sshHost") as [host |] eqn:E3;
    [| intros [= <- <-]; (split; [apply last_snoc |]);
       repeat (split; [reflexivity |]); left; exists "sshHost"; simpl; auto 10].
  destruct (subvars !! "sshTunnelsFolder") as [folder |] eqn:E4;
    [| intros [= <- <-]; (split; [apply last_snoc |]);
       repeat (split; [reflexivity |]); left; exists "sshTunnelsFolder"; simpl; auto 10].
  unfold RemoteSlurmSpawner.run_popen. run_prims. simpl.
  destruct (popen (world ctx) (tick s) _) as [e0 |] eqn:Ep; [| discriminate].
  intros [= <- <-]. simpl.
  split; [apply last_snoc |]. repeat (split; [reflexivity |]).
  right. eexists. split; [exact Ep |].
  rewrite <- !app_assoc. apply in_or_app. right. simpl. auto.
Qed.

Lemma open_tunnel_failure_witness :
  exists s1,
    RemoteSlurmSpawner.open_tunnel Scenario.slurm_req Scenario.tunnel_stuck Scenario.serving
    = (Raise Scenario.timeout_expired, s1)
    /\ ip s1 = "compute-0-1" /\ port s1 = 8888.
Proof.
  eexists.
  assert (E : RemoteSlurmSpawner.open_tunnel Scenario.slurm_req Scenario.tunnel_stuck
                Scenario.serving = (Raise Scenario.timeout_expired, _))
    by (vm_compute; reflexivity).
  split; [exact E |].
  destruct (open_tunnel_failure _ _ _ _ _ E) as (_ & Hip & Hport & _).
  split; [exact Hip | exact Hport].
Defined.
